(** * asr/aspire.py: the ASpIRE data-preparation recipe and dataset view

    A shallow embedding of [asr/aspire.py] (segment extraction, transcript
    normalisation, alignment decoding, manifest building, the windowed
    dataset view and the frame arithmetic they share), with the properties
    its specification states about it.

    Conventions of the embedding.
    - A Python [str] is a [string]; every character is read as a code
      point below 256.
    - A Python number that may be a float ([SAMPLE_MARGIN], segment times)
      is an exact rational [Q]; an [int] is a [Z].
    - A Python [dict] is an insertion-ordered association list ([pydict]).
    - A call that may raise returns a [pyres]: [Ok v] or [Raise e].
    - Files written by the code are kept in an explicit store. *)

From Stdlib Require Import ZArith QArith Qround Lia Lqa List String Ascii Sorted.
From stdpp Require Import base option list strings pretty gmap.

Local Open Scope string_scope.
Local Open Scope Z_scope.

(** ** Exceptions and results *)

Inductive pyexn : Type :=
  | ValueError
  | IndexError
  | NameError
  | KeyError
  | TypeError
  | ZeroDivisionError
  | WaveError
  | SystemExit.

Inductive pyres (A : Type) : Type :=
  | Ok (a : A)
  | Raise (e : pyexn).
Arguments Ok {A} a.
Arguments Raise {A} e.

#[global] Instance pyres_ret : MRet pyres := fun _ a => Ok a.
#[global] Instance pyres_bind : MBind pyres := fun _ _ f m =>
  match m with
  | Ok a => f a
  | Raise e => Raise e
  end.

Definition is_ok {A} (r : pyres A) : bool :=
  match r with Ok _ => true | Raise _ => false end.

(** ** Python strings *)

Module PyStr.

Definition code (c : ascii) : Z := Z.of_N (N_of_ascii c).

Definition chars (s : string) : list ascii := list_ascii_of_string s.
Definition join (l : list ascii) : string := string_of_list_ascii l.

(** [c.lower()] for a code point below 256: the ASCII capitals and the
    Latin-1 capitals (0xC0-0xDE without the multiplication sign 0xD7) move
    up by 32; everything else is unchanged. *)
Definition lower_char (c : ascii) : ascii :=
  let n := code c in
  if ((65 <=? n) && (n <=? 90)) ||
     ((192 <=? n) && (n <=? 222) && negb (n =? 215))
  then ascii_of_N (Z.to_N (n + 32))
  else c.

Definition lower (s : string) : string := join (map lower_char (chars s)).

(** [x in s] for a one-character [x]. *)
Definition char_in (c : ascii) (s : string) : bool :=
  existsb (Ascii.eqb c) (chars s).

(** Unicode white space below 256, as [str.strip], [str.split] and [int]
    see it. *)
Definition is_space (c : ascii) : bool :=
  let n := code c in
  ((9 <=? n) && (n <=? 13)) || ((28 <=? n) && (n <=? 32)) ||
  (n =? 133) || (n =? 160).

Definition is_digit (c : ascii) : bool :=
  let n := code c in (48 <=? n) && (n <=? 57).

(** [s[i:j]] for literal bounds [0 <= i <= j]. *)
Definition slice (i j : nat) (s : string) : string :=
  join (take (j - i) (drop i (chars s))).

Fixpoint lstrip_chars (l : list ascii) : list ascii :=
  match l with
  | c :: l' => if is_space c then lstrip_chars l' else l
  | [] => []
  end.

Definition strip_chars (l : list ascii) : list ascii :=
  rev (lstrip_chars (rev (lstrip_chars l))).

(** [s.strip()] *)
Definition strip (s : string) : string := join (strip_chars (chars s)).

(** [s.split(sep)] for a one-character separator. *)
Fixpoint split_chars (sep : ascii) (cur : list ascii) (l : list ascii)
  : list (list ascii) :=
  match l with
  | [] => [rev cur]
  | c :: l' =>
      if Ascii.eqb c sep then rev cur :: split_chars sep [] l'
      else split_chars sep (c :: cur) l'
  end.

Definition split (sep : ascii) (s : string) : list string :=
  map join (split_chars sep [] (chars s)).

(** [int(s)] in base ten: surrounding white space, an optional sign, then
    digits, where single underscores may separate digits. *)
Fixpoint digits_value (acc : Z) (prev_digit : bool) (l : list ascii)
  : option Z :=
  match l with
  | [] => if prev_digit then Some acc else None
  | c :: l' =>
      if is_digit c then digits_value (10 * acc + (code c - 48)) true l'
      else if Ascii.eqb c "_"%char then
        if prev_digit then digits_value acc false l' else None
      else None
  end.

Definition int_chars (l : list ascii) : pyres Z :=
  let body := strip_chars l in
  let '(sign, ds) :=
    match body with
    | c :: r =>
        if Ascii.eqb c "-"%char then (-1, r)
        else if Ascii.eqb c "+"%char then (1, r)
        else (1, body)
    | [] => (1, body)
    end in
  match digits_value 0 false ds with
  | Some v => Ok (sign * v)
  | None => Raise ValueError
  end.

Definition int (s : string) : pyres Z := int_chars (chars s).

(** [s.split(sep, 1)] for a one-character separator: [None] when [sep]
    does not occur (the result then has one element). *)
Fixpoint split_once_chars (sep : ascii) (cur : list ascii) (l : list ascii)
  : option (list ascii * list ascii) :=
  match l with
  | [] => None
  | c :: l' =>
      if Ascii.eqb c sep then Some (rev cur, l')
      else split_once_chars sep (c :: cur) l'
  end.

Definition split_once (sep : ascii) (s : string) : option (string * string) :=
  match split_once_chars sep [] (chars s) with
  | Some (a, b) => Some (join a, join b)
  | None => None
  end.

Fixpoint is_prefix (p l : list ascii) : bool :=
  match p, l with
  | [], _ => true
  | a :: p', b :: l' => Ascii.eqb a b && is_prefix p' l'
  | _ :: _, [] => false
  end.

Definition startswith (s p : string) : bool := is_prefix (chars p) (chars s).
Definition endswith (s p : string) : bool :=
  is_prefix (rev (chars p)) (rev (chars s)).

(** [s.replace(old, new)] for a non-empty [old]: the occurrences of [old]
    are found from the left and do not overlap. [skip] counts the
    characters of an occurrence still to be passed over. *)
Fixpoint replace_chars (old new : list ascii) (skip : nat) (l : list ascii)
  : list ascii :=
  match l with
  | [] => []
  | c :: l' =>
      match skip with
      | S k => replace_chars old new k l'
      | O =>
          if is_prefix old l
          then new ++ replace_chars old new (length old - 1) l'
          else c :: replace_chars old new 0 l'
      end
  end.

Definition replace (old new s : string) : string :=
  join (replace_chars (chars old) (chars new) 0 (chars s)).

(** The final component of a path, and [Path(s).stem]: the final
    component without its last suffix. *)
Fixpoint name_chars (cur : list ascii) (l : list ascii) : list ascii :=
  match l with
  | [] => rev cur
  | c :: l' =>
      if Ascii.eqb c "/"%char then name_chars [] l' else name_chars (c :: cur) l'
  end.

(** [name.rfind(".")], as the number of characters before the last dot. *)
Fixpoint rfind_dot (l : list ascii) : option nat :=
  match l with
  | [] => None
  | c :: l' =>
      match rfind_dot l' with
      | Some i => Some (S i)
      | None => if Ascii.eqb c "."%char then Some O else None
      end
  end.

Definition stem (s : string) : string :=
  let name := name_chars [] (chars s) in
  match rfind_dot name with
  | Some i =>
      if (0 <? i)%nat && (i <? length name - 1)%nat then join (take i name)
      else join name
  | None => join name
  end.

End PyStr.

(** ** Transcript normalisation: [strip_text] *)

Definition mask : string := "abcdefghijklmnopqrstuvwxyz'- ".

Definition strip_text (text : string) : string :=
  let stripped :=
    List.filter (fun x => PyStr.char_in x mask) (PyStr.chars (PyStr.lower text)) in
  PyStr.join stripped.


(** ** Numbers *)

(** [int(x)] for a float [x]: truncation toward zero. *)
Definition int_of_Q (x : Q) : Z := Z.quot (Qnum x) (Z.pos (Qden x)).

(** [a // b]: the floor of the quotient; a zero divisor raises. *)
Definition floordiv (a b : Q) : pyres Q :=
  if Qeq_bool b 0 then Raise ZeroDivisionError
  else Ok (inject_Z (Qfloor (a / b))).

(** ** The constants of [utils/params.py]

    The module [asr/utils/params.py] is imported as [p]; the recipe uses
    four of its constants, which are parameters of everything below. *)

Record params : Type := {
  SAMPLE_RATE : Q;
  WINDOW_SIZE : Q;
  WINDOW_SHIFT : Q;
  FRAME_MARGIN : Q;
}.

Definition WIN_SAMP_SIZE (p : params) : Q := SAMPLE_RATE p * WINDOW_SIZE p.
Definition WIN_SAMP_SHIFT (p : params) : Q := SAMPLE_RATE p * WINDOW_SHIFT p.
Definition SAMPLE_MARGIN (p : params) : Q := WIN_SAMP_SHIFT p * FRAME_MARGIN p.

(** ** Frame arithmetic: [_samples2frames] *)

Definition _samples2frames (p : params) (samples : Z) : pyres Z :=
  let num_samples := (inject_Z samples - 2 * SAMPLE_MARGIN p)%Q in
  q ← floordiv (num_samples - WIN_SAMP_SIZE p)%Q (WIN_SAMP_SHIFT p);
  Ok (int_of_Q (q + 1)%Q).

(** ** Dictionaries

    A [dict] keeps its keys in insertion order; assigning to a key that is
    already present replaces the value in place. *)

Definition pydict (V : Type) : Type := list (string * V).

Fixpoint dict_get {V} (d : pydict V) (k : string) : option V :=
  match d with
  | [] => None
  | (k', v) :: d' => if String.eqb k' k then Some v else dict_get d' k
  end.

Definition dict_mem {V} (d : pydict V) (k : string) : bool :=
  match dict_get d k with Some _ => true | None => false end.

Fixpoint dict_set {V} (d : pydict V) (k : string) (v : V) : pydict V :=
  match d with
  | [] => [(k, v)]
  | (k', v') :: d' =>
      if String.eqb k' k then (k', v) :: d' else (k', v') :: dict_set d' k v
  end.

Definition dict_keys {V} (d : pydict V) : list string := map fst d.

(** ** The files the recipe writes *)

(** One sample frame of a wave file. *)
Definition frame : Type := Z.

Record wave : Type := {
  getframerate : Z;
  frames : list frame;
}.

Definition getnframes (w : wave) : Z := Z.of_nat (length (frames w)).

Inductive file : Type :=
  | WavFile (w : wave)
  | TextFile (lines : list string).

(** The files written so far, by path. *)
Abbreviation store := (gmap string file).

(** A computation over a state [S] that may raise: the state reached
    before an exception is kept (what was written stays written). *)
Definition stx (S A : Type) : Type := S → S * pyres A.

#[global] Instance stx_ret {S} : MRet (stx S) := fun _ a st => (st, Ok a).
#[global] Instance stx_bind {S} : MBind (stx S) := fun _ _ f m st =>
  match m st with
  | (st', Ok a) => f a st'
  | (st', Raise e) => (st', Raise e)
  end.

Definition lift {S A} (r : pyres A) : stx S A := fun st => (st, r).
Definition modify {S} (f : S → S) : stx S unit := fun st => (f st, Ok tt).

(** Computations that write files. *)
Abbreviation io := (stx store).

Definition write_file (path : string) (f : file) : io unit :=
  modify (fun st : store => <[path := f]> st).

(** [for x in l: s = body(s, x)], stopping at the first exception. *)
Fixpoint for_each {St A S} (body : S → A → stx St S) (l : list A) (s : S)
  : stx St S :=
  match l with
  | [] => mret s
  | x :: l' => s' ← body s x; for_each body l' s'
  end.

(** [Path(a, b)] as a string, for a relative [b] without separators; an
    empty [b] adds nothing. *)
Definition path_join (a b : string) : string :=
  if String.eqb b "" then a else a +:+ "/" +:+ b.

(** ** Wave reading: [setpos], [readframes] *)

Definition setpos (w : wave) (pos : Z) : pyres Z :=
  if (pos <? 0) || (getnframes w <? pos) then Raise WaveError else Ok pos.

(** [readframes(n)] at position [pos]: up to [n] frames; a negative [n]
    reads to the end. Returns the frames and the new position. *)
Definition readframes (w : wave) (pos n : Z) : list frame * Z :=
  let rest := drop (Z.to_nat pos) (frames w) in
  let data :=
    if n =? 0 then [] else if n <? 0 then rest else take (Z.to_nat n) rest in
  (data, pos + Z.of_nat (length data)).

(** ** Segment extraction: [split_wav], the loop over one recording *)

(** [(uttid, start, end)] *)
Definition segment : Type := string * Q * Q.

(** The manifest [split_wav] builds, and the read position of [wav]. *)
Definition split_state : Type := pydict (string * Z) * Z.

Definition split_wav_segment (p : params) (target_dir : string) (wav : wave)
    (s : split_state) (seg : segment) : io split_state :=
  let '(manifest, pos) := s in
  let '(uttid, start, end_) := seg in
  let fr := inject_Z (getframerate wav) in
  let nf := getnframes wav in
  let fs := int_of_Q (fr * start - SAMPLE_MARGIN p)%Q in
  let fe := int_of_Q (fr * end_ + SAMPLE_MARGIN p)%Q in
  if (fs <? 0) || (nf <? fe) then mret s
  else
    pos ← lift (setpos wav fs);
    let '(signal, pos) := readframes wav pos (fe - fs) in
    let tar_dir := path_join target_dir (PyStr.slice 6 9 uttid) in
    let wav_file := path_join tar_dir (uttid +:+ ".wav") in
    _ ← write_file wav_file
          (WavFile {| getframerate := getframerate wav; frames := signal |});
    mret (dict_set manifest uttid (wav_file, fe - fs), pos).

(** Lines 81-97: all segments of one decoded recording. *)
Definition split_wav_recording (p : params) (target_dir : string) (wav : wave)
    (segs : list segment) (manifest : pydict (string * Z))
  : io (pydict (string * Z)) :=
  s ← for_each (split_wav_segment p target_dir wav) segs (manifest, 0);
  mret (fst s).

(** ** Transcripts: [get_transcripts]

    [lines] are the lines of the Kaldi [text] table. *)

Definition get_transcripts_line (target_dir : string)
    (manifest : pydict (string * string)) (line : string)
  : io (pydict (string * string)) :=
  match PyStr.split_once " "%char (PyStr.strip line) with
  | None => lift (Raise ValueError)
  | Some (uttid, text) =>
      let text := strip_text text in
      let tar_dir := path_join target_dir (PyStr.slice 6 9 uttid) in
      let txt_file := path_join tar_dir (uttid +:+ ".txt") in
      _ ← write_file txt_file (TextFile [text]);
      mret (dict_set manifest uttid (txt_file, text))
  end.

Definition get_transcripts (lines : list string) (target_dir : string)
  : io (pydict (string * string)) :=
  for_each (get_transcripts_line target_dir) lines [].

(** ** Alignment decoding: [get_alignments]

    [utils/kaldi_io.py] supplies the two readers; each takes the stream at
    its current position and returns the value read with the rest of the
    stream, or raises. *)

Definition bytes : Type := list Byte.byte.

Record kaldi_io : Type := {
  read_string : bytes → pyres (string * bytes);
  read_vec_int : bytes → pyres (list Z * bytes);
}.

(** [(phn_file, num_frms, phones)] by utterance id. *)
Definition ali_manifest : Type := pydict (string * Z * list Z).

(** The [while True] loop over the output [f] of one archive. [None] is
    returned when [fuel] iterations did not reach the end of the loop. *)
Fixpoint parse_alignments (K : kaldi_io) (target_dir : string) (fuel : nat)
    (f : bytes) (manifest : ali_manifest) : io (option ali_manifest) :=
  match fuel with
  | O => mret None
  | S fuel' =>
      match read_string K f with
      | Raise ValueError => mret (Some manifest)
      | Raise e => lift (Raise e)
      | Ok (uttid, f) =>
          r ← lift (read_vec_int K f);
          let '(phones, f) := r in
          let num_frms := Z.of_nat (length phones) in
          let tar_dir := path_join target_dir (PyStr.slice 6 9 uttid) in
          let phn_file := path_join tar_dir (uttid +:+ ".phn") in
          _ ← write_file phn_file (TextFile (map pretty phones));
          parse_alignments K target_dir fuel' f
            (dict_set manifest uttid (phn_file, num_frms, phones))
      end
  end.

(** The loop over the archives; [outputs] holds, per archive, the bytes
    printed by [ali-to-phones]. *)
Fixpoint get_alignments (K : kaldi_io) (target_dir : string) (fuel : nat)
    (outputs : list bytes) (manifest : ali_manifest)
  : io (option ali_manifest) :=
  match outputs with
  | [] => mret (Some manifest)
  | f :: outputs' =>
      r ← parse_alignments K target_dir fuel f manifest;
      match r with
      | Some manifest' => get_alignments K target_dir fuel outputs' manifest'
      | None => mret None
      end
  end.

(** ** Manifest building: [prepare_data] *)

(** The two manifest files while they are open: what has been written to
    [train.csv] ([f1]) and to [dev.csv] ([f2]). *)
Record csv_out : Type := {
  f1 : list string;
  f2 : list string;
}.

Definition write_f1 (line : string) : stx csv_out unit :=
  modify (fun o => {| f1 := f1 o ++ [line]; f2 := f2 o |}).
Definition write_f2 (line : string) : stx csv_out unit :=
  modify (fun o => {| f1 := f1 o; f2 := f2 o ++ [line] |}).

Definition nl : string := String (ascii_of_N 10) "".

(** The f-string of both manifest writers. *)
Definition csv_line (uttid wav_file : string) (samples : Z) (phn_file : string)
    (num_frms : Z) (txt_file : string) : string :=
  uttid +:+ "," +:+ wav_file +:+ "," +:+ pretty samples +:+ "," +:+
  phn_file +:+ "," +:+ pretty num_frms +:+ "," +:+ txt_file +:+ nl.

(** [prepare_data] reads [train_wav_manifest] and [phn_manifest] without
    assigning them (the two assignments are commented out), so they are
    looked up as globals of the module when the statement that mentions
    them runs. *)
Record globals : Type := {
  train_wav_manifest : option (pydict (string * Z));
  phn_manifest : option ali_manifest;
}.

Definition global {A} (x : option A) : pyres A :=
  match x with Some v => Ok v | None => Raise NameError end.

Definition getitem {V} (d : pydict V) (k : string) : pyres V :=
  match dict_get d k with Some v => Ok v | None => Raise KeyError end.

Definition prepare_data_body (G : globals)
    (train_txt_manifest : pydict (string * string))
    (_ : unit) (kv : string * (string * Z)) : stx csv_out unit :=
  let '(k, v) := kv in
  if negb (dict_mem train_txt_manifest k) then mret tt
  else
    phn ← lift (global (phn_manifest G));
    if negb (dict_mem phn k) then mret tt
    else
      let '(wav_file, samples) := v in
      t ← lift (getitem train_txt_manifest k);
      let '(txt_file, _) := t in
      phn ← lift (global (phn_manifest G));
      a ← lift (getitem phn k);
      let '(phn_file, num_frms, _) := a in
      c ← lift (PyStr.int (PyStr.slice 6 11 k));
      if (0 <? c) && (c <? 60)
      then write_f2 (csv_line k wav_file samples phn_file num_frms txt_file)
      else write_f1 (csv_line k wav_file samples phn_file num_frms txt_file).

(** Lines 162-175: the loop over [train_wav_manifest.items()]. *)
Definition prepare_data_join (G : globals)
    (train_txt_manifest : pydict (string * string)) : stx csv_out unit :=
  wav ← lift (global (train_wav_manifest G));
  for_each (prepare_data_body G train_txt_manifest) wav tt.

Definition empty_csv : csv_out := {| f1 := []; f2 := [] |}.

(** Both manifest files are opened for writing before the loop and closed
    on every way out of it. *)
Definition close_csv (target_dir : string) (o : csv_out) (st : store) : store :=
  <[path_join target_dir "dev.csv" := TextFile (f2 o)]>
    (<[path_join target_dir "train.csv" := TextFile (f1 o)]> st).

(** [with open(train.csv) as f1: with open(dev.csv) as f2: m]. *)
Definition with_csv {A} (target_dir : string) (m : stx csv_out A) : io A :=
  fun st =>
    let '(o, r) := m empty_csv in
    (close_csv target_dir o st, r).

Definition prepare_data (G : globals) (DATA_ROOT : string)
    (text_lines : list string) (target_dir : string) : io unit :=
  train_txt_manifest ← get_transcripts text_lines DATA_ROOT;
  with_csv target_dir (prepare_data_join G train_txt_manifest).

(** ** Manifest reconstruction: [reconstruct_manifest]

    What the function observes of the file system: the paths that exist,
    the frame count [wave] reports for a path, and the line count
    [get_num_lines] reports for a path. *)
Record fsys : Type := {
  fs_paths : list string;
  fs_nframes : string → pyres Z;
  fs_num_lines : string → pyres Z;
}.

Definition path_exists (fs : fsys) (path : string) : bool :=
  existsb (String.eqb path) (fs_paths fs).

(** [Path(target_dir).glob("**/*.wav")], as path strings. *)
Definition glob_wav (fs : fsys) (target_dir : string) : list string :=
  List.filter
    (fun path => PyStr.startswith path (target_dir +:+ "/") &&
                 PyStr.endswith path ".wav")
    (fs_paths fs).

Definition reconstruct_manifest_body (fs : fsys) (_ : unit)
    (wav_file : string) : stx csv_out unit :=
  let uttid := PyStr.stem wav_file in
  let txt_file := PyStr.replace "wav" "txt" wav_file in
  let phn_file := PyStr.replace "wav" "phn" wav_file in
  if negb (path_exists fs txt_file) || negb (path_exists fs phn_file)
  then mret tt
  else
    samples ← lift (fs_nframes fs wav_file);
    num_frms ← lift (fs_num_lines fs phn_file);
    c ← lift (PyStr.int (PyStr.slice 6 11 uttid));
    if (0 <? c) && (c <? 60)
    then write_f2 (csv_line uttid wav_file samples phn_file num_frms txt_file)
    else write_f1 (csv_line uttid wav_file samples phn_file num_frms txt_file).

Definition reconstruct_manifest (fs : fsys) (target_dir : string) : io unit :=
  with_csv target_dir
    (for_each (reconstruct_manifest_body fs) (glob_wav fs target_dir) tt).

(** ** The dataset view: [Aspire] *)

(** A Python number: [data_size] defaults to the float [1e30]. *)
Inductive pynum : Type :=
  | PyInt (z : Z)
  | PyFloat (q : Q).

Definition num_value (n : pynum) : Q :=
  match n with PyInt z => inject_Z z | PyFloat q => q end.

(** [min(a, b)]: [b] when [b < a], else [a]. *)
Definition py_min (a b : pynum) : pynum :=
  if Qle_bool (num_value a) (num_value b) then a else b.

(** [l[i]] for a list: a negative index counts from the end. *)
Definition list_index {A} (l : list A) (i : Z) : pyres A :=
  let n := Z.of_nat (length l) in
  let j := if i <? 0 then i + n else i in
  if (j <? 0) || (n <=? j) then Raise IndexError
  else match l !! Z.to_nat j with
       | Some x => Ok x
       | None => Raise IndexError
       end.

(** [[f(x) for x in l]], stopping at the first exception. *)
Fixpoint map_res {A B} (f : A → pyres B) (l : list A) : pyres (list B) :=
  match l with
  | [] => Ok []
  | x :: l' => y ← f x; ys ← map_res f l'; Ok (y :: ys)
  end.

(** [[x for x in l if f(x)]], stopping at the first exception. *)
Fixpoint filter_res {A} (f : A → pyres bool) (l : list A) : pyres (list A) :=
  match l with
  | [] => Ok []
  | x :: l' =>
      b ← f x; ys ← filter_res f l'; Ok (if b : bool then x :: ys else ys)
  end.

(** [random.sample(population, k)]: [k] elements taken at distinct
    positions of [population]. The generator is the sequence [draws] of its
    raw outputs; the element taken at step [i] is the one at position
    [draws i] (modulo the number left), which is then removed. *)
Fixpoint sample_from {A} (draws : nat → nat) (i : nat) (pool : list A)
    (k : nat) : list A :=
  match k with
  | O => []
  | S k' =>
      let j := (draws i mod length pool)%nat in
      match pool !! j with
      | Some x => x :: sample_from draws (S i) (delete j pool) k'
      | None => []
      end
  end.

Definition random_sample {A} (draws : nat → nat) (population : list A)
    (k : pynum) : pyres (list A) :=
  match k with
  | PyFloat _ => Raise TypeError
  | PyInt k =>
      if (k <? 0) || (Z.of_nat (length population) <? k) then Raise ValueError
      else Ok (sample_from draws 0 population (Z.to_nat k))
  end.

(** One parsed manifest line: the tuple of its comma-separated fields. *)
Definition entry : Type := list string.

Definition field (e : entry) (i : nat) : pyres string :=
  match e !! i with Some x => Ok x | None => Raise IndexError end.

Definition default_data_size : pynum := PyFloat (inject_Z (10 ^ 30)).

(** [_load_manifest]: [manifest_file] holds the lines of [<mode>.csv], or
    [None] when the root or the file does not exist. Returns
    [(self.entries, self.entry_frames)]. *)
Definition _load_manifest (p : params) (mode : string) (data_size : pynum)
    (draws : nat → nat) (manifest_file : option (list string))
  : pyres (list entry * list Z) :=
  match manifest_file with
  | None => Raise SystemExit
  | Some manifest =>
      let entries := map (fun x => PyStr.split ","%char (PyStr.strip x)) manifest in
      entries ← filter_res
        (fun e => s ← field e 2; n ← PyStr.int s;
                  fr ← _samples2frames p n; Ok (100 <? fr))
        entries;
      let size := py_min data_size (PyInt (Z.of_nat (length manifest))) in
      entries ← random_sample draws entries size;
      entry_frames ←
        (if String.eqb mode "train_unsup"
         then map_res (fun e => s ← field e 2; n ← PyStr.int s;
                                _samples2frames p n) entries
         else map_res (fun e => s ← field e 4; PyStr.int s) entries);
      Ok (entries, entry_frames)
  end.

(** One windowed audio frame, and [torch.zeros_like]. *)
Definition tensor : Type := list Q.
Definition zeros_like (t : tensor) : tensor := map (fun _ => 0%Q) t.

Section Aspire.

Context {label : Type}.

(** The label sequence of a sample: the integers of the label file, or
    their encodings when a target transform is set. *)
Inductive targets : Type :=
  | Plain (l : list Z)
  | Encoded (l : list label).

Definition targets_len (t : targets) : nat :=
  match t with Plain l => length l | Encoded l => length l end.

(** The fields of an [Aspire] object that [__getitem__] reads; [loadtxt]
    stands for [np.loadtxt(path, dtype="int").tolist()] on the files at
    hand. *)
Record Aspire : Type := {
  mode : string;
  entries : list entry;
  transform : option (string → pyres (list tensor));
  target_transform : option (list Z → pyres (list label));
  loadtxt : string → pyres (list Z);
}.

(** A local variable that is only assigned on some paths. *)
Definition local {A} (x : option A) : pyres A :=
  match x with Some v => Ok v | None => Raise NameError end.

Definition __getitem__ (self : Aspire) (index : Z)
  : pyres (list tensor * option targets) :=
  e ← list_index (entries self) index;
  match e with
  | [uttid; wav_file; samples; phn_file; num_phns; txt_file] =>
      tensors ← match transform self with
                | Some f => ts ← f wav_file; Ok (Some ts)
                | None => Ok None
                end;
      if String.eqb (mode self) "train_unsup"
      then tensors ← local tensors; Ok (tensors, None)
      else
        tgt ← loadtxt self phn_file;
        tgt ← match target_transform self with
              | Some f => l ← f tgt; Ok (Encoded l)
              | None => Ok (Plain tgt)
              end;
        tensors ← local tensors;
        let l0 := length tensors in
        let l1 := targets_len tgt in
        if (l1 <? l0)%nat then Ok (take l1 tensors, Some tgt)
        else if (l0 <? l1)%nat then
          z ← list_index tensors 0;
          Ok ((tensors ++ replicate (l1 - l0) (zeros_like z))%list, Some tgt)
        else Ok (tensors, Some tgt)
  | _ => Raise ValueError
  end.

Definition __len__ (self : Aspire) : nat := length (entries self).

End Aspire.

Arguments targets : clear implicits.
Arguments Aspire : clear implicits.

(** * Definitions used to state the properties *)

(** The alphabet the specification gives for normalised transcripts:
    [a]-[z], apostrophe, hyphen and space. *)
Definition allowed (c : ascii) : bool :=
  let n := PyStr.code c in
  ((97 <=? n) && (n <=? 122)) || (n =? 39) || (n =? 45) || (n =? 32).

(** A setting of the constants for the examples: 8 kHz audio, a 25 ms
    window shifted by 10 ms, a margin of 10 frames (800 samples). *)
Definition example_params : params := {|
  SAMPLE_RATE := 8000;
  WINDOW_SIZE := 25 # 1000;
  WINDOW_SHIFT := 10 # 1000;
  FRAME_MARGIN := 10;
|}.

(** The closed form the specification gives for the frame count. *)
Definition frame_count_formula (p : params) (totalSamples : Z) : Z :=
  Qfloor ((inject_Z totalSamples - 2 * SAMPLE_MARGIN p - WIN_SAMP_SIZE p)
          / WIN_SAMP_SHIFT p) + 1.


(** The clip path [split_wav] uses for an utterance. *)
Definition clip_path (target_dir uttid : string) : string :=
  path_join (path_join target_dir (PyStr.slice 6 9 uttid)) (uttid +:+ ".wav").


(** The two manifests, and the rule the specification gives for choosing
    between them: a numeric code strictly between 0 and 60 goes to Dev. *)
Inductive split : Type := Train | Dev.

Definition split_of_code (c : Z) : split :=
  if (0 <? c) && (c <? 60) then Dev else Train.

(** The numeric code of an utterance id: its characters [[6:11)]. *)
Definition code_of (uttid : string) : pyres Z :=
  PyStr.int (PyStr.slice 6 11 uttid).

(** Appending a line to the manifest of a split. *)
Definition emit (s : split) (line : string) (o : csv_out) : csv_out :=
  match s with
  | Dev => {| f1 := f1 o; f2 := f2 o ++ [line] |}
  | Train => {| f1 := f1 o ++ [line]; f2 := f2 o |}
  end.

(** A manifest record:
    [(uttid, audio path, samples, label path, label frames, text path)]. *)
Definition row : Type := string * string * Z * string * Z * string.

Definition row_id (r : row) : string :=
  let '(k, _, _, _, _, _) := r in k.

Definition row_line (r : row) : string :=
  let '(k, wav_file, samples, phn_file, num_frms, txt_file) := r in
  csv_line k wav_file samples phn_file num_frms txt_file.

Definition row_split (r : row) : option split :=
  match code_of (row_id r) with
  | Ok c => Some (split_of_code c)
  | Raise _ => None
  end.

Definition is_dev_row (r : row) : bool :=
  match row_split r with Some Dev => true | _ => false end.
Definition is_train_row (r : row) : bool :=
  match row_split r with Some Train => true | _ => false end.

(** The inner join of the three manifests on the utterance id, as the
    specification describes it, in the order of the audio manifest. *)
Definition inner_join (wav : pydict (string * Z)) (txt : pydict (string * string))
    (phn : ali_manifest) : list row :=
  omap (fun kv : string * (string * Z) =>
          let '(k, (wav_file, samples)) := kv in
          match dict_get txt k, dict_get phn k with
          | Some (txt_file, _), Some (phn_file, num_frms, _) =>
              Some (k, wav_file, samples, phn_file, num_frms, txt_file)
          | _, _ => None
          end) wav.

(** The example of the specification: audio = {A, B}, text = {A, B, C},
    alignments = {A}. *)
Definition id_A : string := "fsh_0_00030_A".
Definition id_B : string := "fsh_0_00060_B".
Definition id_C : string := "fsh_0_00200_A".

Definition example_audio : pydict (string * Z) :=
  [(id_A, ("/data/000/fsh_0_00030_A.wav", 16000));
   (id_B, ("/data/000/fsh_0_00060_B.wav", 24000))].
Definition example_text : pydict (string * string) :=
  [(id_A, ("/data/000/fsh_0_00030_A.txt", "hello world "));
   (id_B, ("/data/000/fsh_0_00060_B.txt", "uh-huh"));
   (id_C, ("/data/002/fsh_0_00200_A.txt", "right"))].
Definition example_align : ali_manifest :=
  [(id_A, ("/data/000/fsh_0_00030_A.phn", 3, [1; 1; 2]))].

(** A file system holding one utterance with its three files side by
    side under [dir], and nothing else. Every wave file has 24000 frames,
    every label file 3 lines. *)
Definition sibling_fs (dir : string) : fsys := {|
  fs_paths := [dir +:+ "/000/fsh_0_00030_A.wav";
               dir +:+ "/000/fsh_0_00030_A.txt";
               dir +:+ "/000/fsh_0_00030_A.phn"];
  fs_nframes := fun _ => Ok 24000;
  fs_num_lines := fun _ => Ok 3;
|}.

(** The same, with further text and label files kept in a different
    tree. *)
Definition mirrored_fs : fsys := {|
  fs_paths := ["/corpus/wav/000/fsh_0_00030_A.wav";
               "/corpus/wav/000/fsh_0_00030_A.txt";
               "/corpus/wav/000/fsh_0_00030_A.phn";
               "/corpus/txt/000/fsh_0_00030_A.txt";
               "/corpus/phn/000/fsh_0_00030_A.phn"];
  fs_nframes := fun _ => Ok 24000;
  fs_num_lines := fun _ => Ok 3;
|}.

(** The label sequence [__getitem__] works with: the integers of the label
    file, passed through the target transform when there is one. *)
Definition label_sequence {label} (self : Aspire label) (phn_file : string)
  : pyres (targets label) :=
  tgt ← loadtxt self phn_file;
  match target_transform self with
  | Some f => l ← f tgt; Ok (Encoded l)
  | None => Ok (Plain tgt)
  end.


(** A dataset of one utterance in mode [train], whose audio transform
    yields [audio] and whose label file holds [labels]; labels are kept as
    integers. *)
Definition example_entry : entry :=
  ["fsh_0_00030_A"; "/data/000/fsh_0_00030_A.wav"; "16000";
   "/data/000/fsh_0_00030_A.phn"; "5"; "/data/000/fsh_0_00030_A.txt"].

Definition example_dataset (audio : list tensor) (labels : list Z) : Aspire Z := {|
  mode := "train";
  entries := [example_entry];
  transform := Some (fun _ => Ok audio);
  target_transform := Some (fun l => Ok l);
  loadtxt := fun _ => Ok labels;
|}.

(** [n] audio frames of two values each, none of them zero. *)
Definition example_audio_frames (n : nat) : list tensor :=
  map (fun i => [inject_Z (Z.of_nat (S i)); 1%Q]) (seq 0 n).

(** Manifest lines for the examples: an utterance of [samples] samples and
    5 label frames. *)
Definition example_line (samples : Z) : string :=
  csv_line "fsh_0_00030_A" "/data/000/fsh_0_00030_A.wav" samples
    "/data/000/fsh_0_00030_A.phn" 5 "/data/000/fsh_0_00030_A.txt".

(** The frame test of [_load_manifest] on one entry. *)
Definition long_enough (p : params) (e : entry) : pyres bool :=
  s ← field e 2; n ← PyStr.int s; fr ← _samples2frames p n; Ok (100 <? fr).

(** ** The alignment stream *)

(** One record of the stream: the utterance id and its phones. *)
Definition ali_record : Type := string * list Z.

Definition phn_path (target_dir uttid : string) : string :=
  path_join (path_join target_dir (PyStr.slice 6 9 uttid)) (uttid +:+ ".phn").

(** What parsing the records [recs] does to the manifest and to the files:
    each record assigns the entry of its id and writes its label file. *)
Definition add_records (target_dir : string) (recs : list ali_record)
    (manifest : ali_manifest) : ali_manifest :=
  fold_left
    (fun m r => dict_set m (fst r)
                  (phn_path target_dir (fst r), Z.of_nat (length (snd r)), snd r))
    recs manifest.

Definition write_records (target_dir : string) (recs : list ali_record)
    (st : store) : store :=
  fold_left
    (fun st r => <[phn_path target_dir (fst r) :=
                     TextFile (map pretty (snd r))]> st)
    recs st.

(** The shape of a stream as the two readers see it: the records that can
    be read in turn, and how the reading ends, either with [read_string]
    raising [ValueError] ([None]), or with another exception of
    [read_string] or any exception of [read_vec_int] ([Some e]). *)
Inductive stream_shape (K : kaldi_io)
  : bytes → list ali_record → option pyexn → Prop :=
  | shape_end f :
      read_string K f = Raise ValueError →
      stream_shape K f [] None
  | shape_bad_string f e :
      read_string K f = Raise e → e ≠ ValueError →
      stream_shape K f [] (Some e)
  | shape_bad_vector f uttid f1 e :
      read_string K f = Ok (uttid, f1) →
      read_vec_int K f1 = Raise e →
      stream_shape K f [] (Some e)
  | shape_record f uttid f1 phones f2 recs out :
      read_string K f = Ok (uttid, f1) →
      read_vec_int K f1 = Ok (phones, f2) →
      stream_shape K f2 recs out →
      stream_shape K f ((uttid, phones) :: recs) out.

(** Modelled from the spec: [utils/kaldi_io.py], which defines
    [read_string] and [read_vec_int], is not among the sources. The
    specification describes the output of the alignment decoder as
    repeated records of "a length-prefixed string token (the utterance id)
    followed by a length-prefixed vector of signed integers" (32-bit
    integers in its section on interfaces), where "parsing stops cleanly
    when no further string token can be read". Here a string token is one
    length byte followed by that many characters, and a vector is one
    length byte followed by that many 32-bit little-endian two's complement
    integers; a reader raises [ValueError] when the stream ends before the
    value does. *)
Definition spec_read_string (f : bytes) : pyres (string * bytes) :=
  match f with
  | [] => Raise ValueError
  | n :: rest =>
      let len := N.to_nat (Byte.to_N n) in
      if (length rest <? len)%nat then Raise ValueError
      else Ok (PyStr.join (map ascii_of_byte (take len rest)), drop len rest)
  end.

Definition int32_of_bytes (b0 b1 b2 b3 : Byte.byte) : Z :=
  let u := Z.of_N (Byte.to_N b0) + 256 * Z.of_N (Byte.to_N b1)
           + 65536 * Z.of_N (Byte.to_N b2) + 16777216 * Z.of_N (Byte.to_N b3) in
  if u <? 2 ^ 31 then u else u - 2 ^ 32.

Fixpoint spec_read_int32s (n : nat) (f : bytes) : pyres (list Z * bytes) :=
  match n with
  | O => Ok ([], f)
  | S n' =>
      match f with
      | b0 :: b1 :: b2 :: b3 :: rest =>
          r ← spec_read_int32s n' rest;
          Ok (int32_of_bytes b0 b1 b2 b3 :: fst r, snd r)
      | _ => Raise ValueError
      end
  end.

Definition spec_read_vec_int (f : bytes) : pyres (list Z * bytes) :=
  match f with
  | [] => Raise ValueError
  | n :: rest => spec_read_int32s (N.to_nat (Byte.to_N n)) rest
  end.

Definition spec_kaldi_io : kaldi_io := {|
  read_string := spec_read_string;
  read_vec_int := spec_read_vec_int;
|}.

(** The bytes of a record in that format. *)
Definition byte_of_Z (z : Z) : Byte.byte :=
  match Byte.of_N (Z.to_N (z mod 256)) with Some b => b | None => Byte.x00 end.

Definition encode_string (s : string) : bytes :=
  byte_of_Z (Z.of_nat (String.length s)) :: map byte_of_ascii (PyStr.chars s).

Definition encode_int32 (z : Z) : bytes :=
  let u := z mod 2 ^ 32 in
  [byte_of_Z u; byte_of_Z (u / 256); byte_of_Z (u / 65536);
   byte_of_Z (u / 16777216)].

Definition encode_vec_int (v : list Z) : bytes :=
  byte_of_Z (Z.of_nat (length v)) :: concat (map encode_int32 v).

Definition encode_record (r : ali_record) : bytes :=
  (encode_string (fst r) ++ encode_vec_int (snd r))%list.

Definition encode_stream (recs : list ali_record) : bytes :=
  concat (map encode_record recs).

(** Two records of an alignment stream, and two records sharing an id. *)
Definition example_records : list ali_record :=
  [("fsh_0_00030_A", [1; -2; 300]); ("fsh_0_00060_B", [7])].

Definition repeated_id_records : list ali_record :=
  [("fsh_0_00030_A", [1; 2]); ("fsh_0_00030_A", [3])].

(** * Further functions of the recipe *)

(** ** More of Python's strings *)

Module PyText.

(** [s.split()]: the maximal runs of characters that are not white
    space. *)
Fixpoint split_ws_chars (cur : list ascii) (l : list ascii)
  : list (list ascii) :=
  match l with
  | [] => match cur with [] => [] | _ :: _ => [rev cur] end
  | c :: l' =>
      if PyStr.is_space c then
        match cur with
        | [] => split_ws_chars [] l'
        | _ :: _ => rev cur :: split_ws_chars [] l'
        end
      else split_ws_chars (c :: cur) l'
  end.

Definition split_ws (s : string) : list string :=
  map PyStr.join (split_ws_chars [] (PyStr.chars s)).

(** [s.rstrip(set)]: without the trailing characters that are in [set]. *)
Fixpoint lstrip_set (set : string) (l : list ascii) : list ascii :=
  match l with
  | c :: l' => if PyStr.char_in c set then lstrip_set set l' else l
  | [] => []
  end.

Definition rstrip (set s : string) : string :=
  PyStr.join (rev (lstrip_set set (rev (PyStr.chars s)))).

(** [old in s] for a non-empty [old]. *)
Fixpoint occurs_chars (old l : list ascii) : bool :=
  match l with
  | [] => false
  | _ :: l' => PyStr.is_prefix old l || occurs_chars old l'
  end.

Definition occurs (old s : string) : bool :=
  occurs_chars (PyStr.chars old) (PyStr.chars s).

End PyText.

(** ** Counting lines: [get_num_lines] *)

Definition newline : ascii := ascii_of_N 10.

(** [buf.readline()]: the bytes up to and including the next newline, or
    all that is left; with what follows them. *)
Fixpoint readline (buf : list ascii) : list ascii * list ascii :=
  match buf with
  | [] => ([], [])
  | c :: buf' =>
      if Ascii.eqb c newline then ([c], buf')
      else let '(line, rest) := readline buf' in (c :: line, rest)
  end.

(** [while buf.readline(): lines += 1]; [None] when [fuel] iterations did
    not reach the end of the buffer. *)
Fixpoint count_lines (fuel : nat) (buf : list ascii) (lines : Z) : option Z :=
  match fuel with
  | O => None
  | S fuel' =>
      match readline buf with
      | ([], _) => Some lines
      | (_ :: _, rest) => count_lines fuel' rest (lines + 1)
      end
  end.

(** [content] holds the bytes of the file; mapping an empty file raises
    [ValueError]. *)
Definition get_num_lines (fuel : nat) (content : list ascii)
  : pyres (option Z) :=
  match content with
  | [] => Raise ValueError
  | _ :: _ => Ok (count_lines fuel content 0)
  end.

(** The bytes of a text file written line by line, each line followed by
    a newline: what [np.savetxt] and [txt.write(text + "\n")] produce. *)
Definition unlines (lines : list string) : list ascii :=
  concat (map (fun l => PyStr.chars l ++ [newline])%list lines).

(** ** Segment extraction: the whole of [split_wav] *)

(** [[f(s, x) for x in l]] folded from the left, stopping at the first
    exception. *)
Fixpoint foldl_res {A S} (f : S → A → pyres S) (l : list A) (s : S) : pyres S :=
  match l with
  | [] => Ok s
  | x :: l' => s' ← f s x; foldl_res f l' s'
  end.

(** One line of the [segments] table: [uttid wavid start end]. [pyfloat]
    stands for [float] on strings. *)
Definition parse_segment_line (pyfloat : string → pyres Q) (line : string)
  : pyres (string * string * Q * Q) :=
  let split := PyText.split_ws (PyStr.strip line) in
  uttid ← field split 0;
  wavid ← field split 1;
  s2 ← field split 2;
  start ← pyfloat s2;
  s3 ← field split 3;
  end_ ← pyfloat s3;
  Ok (uttid, wavid, start, end_).

(** Lines 60-68: the segments of every recording, in the order of the
    table. *)
Definition add_segment (segments : pydict (list segment))
    (r : string * string * Q * Q) : pydict (list segment) :=
  let '(uttid, wavid, start, end_) := r in
  match dict_get segments wavid with
  | Some l => dict_set segments wavid (l ++ [(uttid, start, end_)])%list
  | None => dict_set segments wavid [(uttid, start, end_)]
  end.

Definition read_segments (pyfloat : string → pyres Q) (lines : list string)
  : pyres (pydict (list segment)) :=
  foldl_res (fun segments line =>
               r ← parse_segment_line pyfloat line; Ok (add_segment segments r))
    lines [].

(** One line of [wav.scp]: [wavid command ... |]. [decode] stands for
    running the command and opening its output as a wave file. *)
Definition split_wav_scp_line (p : params) (decode : list string → pyres wave)
    (target_dir : string) (segments : pydict (list segment))
    (manifest : pydict (string * Z)) (line : string)
  : io (pydict (string * Z)) :=
  match PyStr.split_once " "%char (PyStr.strip line) with
  | None => lift (Raise ValueError)
  | Some (wavid, cmd) =>
      match dict_get segments wavid with
      | None => mret manifest
      | Some segs =>
          let cmd := PyText.split_ws (PyText.rstrip " |" (PyStr.strip cmd)) in
          wav ← lift (decode cmd);
          split_wav_recording p target_dir wav segs manifest
      end
  end.

Definition split_wav (p : params) (pyfloat : string → pyres Q)
    (decode : list string → pyres wave) (segments_lines wav_scp_lines : list string)
    (target_dir : string) : io (pydict (string * Z)) :=
  segments ← lift (read_segments pyfloat segments_lines);
  for_each (split_wav_scp_line p decode target_dir segments) wav_scp_lines [].

(** ** Alignment decoding: the choice of the model *)

(** [sorted(l, key=key)]: a stable sort; each element goes behind the
    elements whose key is not greater. *)
Fixpoint insert_by {A} (key : A → Q) (x : A) (l : list A) : list A :=
  match l with
  | [] => [x]
  | y :: l' =>
      if Qle_bool (key y) (key x) then y :: insert_by key x l'
      else x :: y :: l'
  end.

Definition sorted_by {A} (key : A → Q) (l : list A) : list A :=
  fold_left (fun acc x => insert_by key x acc) l [].

(** [sorted(models, key=lambda x: x.stat().st_mtime)[-1]] for the model
    files in the order the directory lists them, each with its
    modification time. *)
Definition latest_model (models : list (string * Q)) : pyres string :=
  m ← list_index (sorted_by snd models) (-1);
  Ok (fst m).

(** * Definitions used to state the further properties *)

(** The paths [get_transcripts] uses for an utterance. *)
Definition txt_path (target_dir uttid : string) : string :=
  path_join (path_join target_dir (PyStr.slice 6 9 uttid)) (uttid +:+ ".txt").

(** A line without a newline character. *)
Definition one_line (s : string) : Prop := ¬ In newline (PyStr.chars s).

(** A string without white space, and a string of white space only. *)
Definition no_space (s : string) : Prop :=
  Forall (fun c => PyStr.is_space c = false) (PyStr.chars s).
Definition all_space (s : string) : Prop :=
  Forall (fun c => PyStr.is_space c = true) (PyStr.chars s).

(** The segments of recording [wavid] among the rows of the table, in the
    order of the table. *)
Definition segments_of (wavid : string) (rows : list (string * string * Q * Q))
  : list segment :=
  omap (fun r : string * string * Q * Q =>
          let '(uttid, w, start, end_) := r in
          if String.eqb w wavid then Some (uttid, start, end_) else None) rows.


(** The record [reconstruct_manifest] writes for a wave file, when the
    derived paths exist and the files can be read. *)
Definition reconstructed_row (fs : fsys) (wav_file : string) : option row :=
  let txt_file := PyStr.replace "wav" "txt" wav_file in
  let phn_file := PyStr.replace "wav" "phn" wav_file in
  if path_exists fs txt_file && path_exists fs phn_file then
    match fs_nframes fs wav_file, fs_num_lines fs phn_file with
    | Ok samples, Ok num_frms =>
        Some (PyStr.stem wav_file, wav_file, samples, phn_file, num_frms, txt_file)
    | _, _ => None
    end
  else None.

Definition has_companions (fs : fsys) (wav_file : string) : bool :=
  path_exists fs (PyStr.replace "wav" "txt" wav_file) &&
  path_exists fs (PyStr.replace "wav" "phn" wav_file).

(** The entries of the manifest under construction: each is the
    normalised transcript of a line of the table, filed under the
    utterance's text path. *)
Definition transcript_entry (target_dir : string) (lines : list string)
    (k : string) (v : string * string) : Prop :=
  fst v = txt_path target_dir k ∧
  strip_text (snd v) = snd v ∧
  ∃ line raw, In line lines ∧
              PyStr.split_once " "%char (PyStr.strip line) = Some (k, raw) ∧
              snd v = strip_text raw.

(** A stand-in for [float] on strings that reads whole numbers only, for
    the examples. *)
Definition example_float (s : string) : pyres Q :=
  z ← PyStr.int s; Ok (inject_Z z).

Definition example_segments_lines : list string :=
  ["fsh_0_00030_A rec1 0 1"; "fsh_0_00060_B rec2 0 1"; "fsh_0_00031_A rec1 2 3"].

Definition example_segments_rows : list (string * string * Q * Q) :=
  [("fsh_0_00030_A", "rec1", 0%Q, 1%Q); ("fsh_0_00060_B", "rec2", 0%Q, 1%Q);
   ("fsh_0_00031_A", "rec1", inject_Z 2, inject_Z 3)].


(** A second setting of the constants with a margin of 2 samples, and
    a short recording of 40 frames at 10 Hz with a decoder that yields it
    for every command. *)
Definition short_params : params := {|
  SAMPLE_RATE := 8000;
  WINDOW_SIZE := 25 # 1000;
  WINDOW_SHIFT := 10 # 1000;
  FRAME_MARGIN := 1 # 40;
|}.

Definition short_wave : wave :=
  {| getframerate := 10; frames := map Z.of_nat (seq 0 40) |}.

Definition example_decode (cmd : list string) : pyres wave := Ok short_wave.

Definition example_wav_scp : list string :=
  ["rec1 sph2pipe -f wav -p -c 1 rec1.sph |"; "rec9 sph2pipe -f wav rec9.sph |"].

(** The directory of an utterance's files, and a string without a path
    separator. *)
Definition utt_dir (target_dir uttid : string) : string :=
  path_join target_dir (PyStr.slice 6 9 uttid).

Definition no_slash (s : string) : Prop := ¬ In "/"%char (PyStr.chars s).

(** A tree holding a wave file without its text and label files. *)
Definition lone_fs : fsys := {|
  fs_paths := ["/corpus/clips/000/fsh_0_00030_A.wav"];
  fs_nframes := fun _ => Ok 24000;
  fs_num_lines := fun _ => Ok 3;
|}.

(** Whether every read [reconstruct_manifest] makes for a wave file that
    has its companions succeeds. *)
Definition readable (fs : fsys) (wav_file : string) : Prop :=
  has_companions fs wav_file = true →
  is_ok (fs_nframes fs wav_file) = true ∧
  is_ok (fs_num_lines fs (PyStr.replace "wav" "phn" wav_file)) = true ∧
  is_ok (code_of (PyStr.stem wav_file)) = true.

(** The first exception of the reads [reconstruct_manifest] makes for a
    wave file, in the order of the source: the frame count, the line count
    of the label file, the code of the stem. *)
Definition first_failure (fs : fsys) (wav_file : string) : option pyexn :=
  if has_companions fs wav_file then
    match fs_nframes fs wav_file with
    | Raise e => Some e
    | Ok _ =>
        match fs_num_lines fs (PyStr.replace "wav" "phn" wav_file) with
        | Raise e => Some e
        | Ok _ =>
            match code_of (PyStr.stem wav_file) with
            | Raise e => Some e
            | Ok _ => None
            end
        end
    end
  else None.

(** The two manifests holding the lines of [rows]. *)
Definition csv_of_rows (rows : list row) : csv_out :=
  {| f1 := map row_line (List.filter is_train_row rows);
     f2 := map row_line (List.filter is_dev_row rows) |}.

(** A tree of three wave files, the second without its text and label
    files. *)
Definition partial_fs : fsys := {|
  fs_paths := ["/corpus/clips/000/fsh_0_00030_A.wav";
               "/corpus/clips/000/fsh_0_00030_A.txt";
               "/corpus/clips/000/fsh_0_00030_A.phn";
               "/corpus/clips/002/fsh_0_00200_A.wav";
               "/corpus/clips/001/fsh_0_00100_B.wav";
               "/corpus/clips/001/fsh_0_00100_B.txt";
               "/corpus/clips/001/fsh_0_00100_B.phn"];
  fs_nframes := fun _ => Ok 24000;
  fs_num_lines := fun _ => Ok 3;
|}.

(** A tree of three complete utterances, the stem of the second without a
    numeric code. *)
Definition odd_name_fs : fsys := {|
  fs_paths := ["/corpus/clips/000/fsh_0_00030_A.wav";
               "/corpus/clips/000/fsh_0_00030_A.txt";
               "/corpus/clips/000/fsh_0_00030_A.phn";
               "/corpus/clips/misc/notes.wav";
               "/corpus/clips/misc/notes.txt";
               "/corpus/clips/misc/notes.phn";
               "/corpus/clips/001/fsh_0_00100_B.wav";
               "/corpus/clips/001/fsh_0_00100_B.txt";
               "/corpus/clips/001/fsh_0_00100_B.phn"];
  fs_nframes := fun _ => Ok 24000;
  fs_num_lines := fun _ => Ok 3;
|}.


(** The lines of a manifest file, parsed as [_load_manifest] parses
    them. *)
Definition parse_manifest (manifest : list string) : list entry :=
  map (fun x => PyStr.split ","%char (PyStr.strip x)) manifest.

(** The frame count [_load_manifest] records for an entry: in the
    unsupervised mode the count derived from the sample count, above 100;
    otherwise the number in the fifth field. *)
Definition frames_of (p : params) (mode : string) (e : entry) (f : Z) : Prop :=
  if String.eqb mode "train_unsup"
  then ∃ s n, field e 2 = Ok s ∧ PyStr.int s = Ok n ∧
              _samples2frames p n = Ok f ∧ 100 < f
  else ∃ s, field e 4 = Ok s ∧ PyStr.int s = Ok f.

(** An entry whose fifth field is a number. *)
Definition labelled (e : entry) : Prop :=
  is_ok (s ← field e 4; PyStr.int s) = true.

(** A dataset of two utterances in mode [train_unsup] whose label files
    cannot be read, and a dataset without an audio transform. *)
Definition unsup_dataset : Aspire Z := {|
  mode := "train_unsup";
  entries := [example_entry;
              ["fsh_0_00100_B"; "/data/001/fsh_0_00100_B.wav"; "24000";
               "/data/001/fsh_0_00100_B.phn"; "7"; "/data/001/fsh_0_00100_B.txt"]];
  transform := Some (fun wav_file =>
                 Ok (if String.eqb wav_file "/data/000/fsh_0_00030_A.wav"
                     then example_audio_frames 3 else example_audio_frames 4));
  target_transform := None;
  loadtxt := fun _ => Raise ValueError;
|}.

Definition bare_dataset (mode_ : string) : Aspire Z := {|
  mode := mode_;
  entries := [example_entry; ["fsh_0_00100_B"; "/data/001/fsh_0_00100_B.wav"]];
  transform := None;
  target_transform := None;
  loadtxt := fun _ => Ok [1; 2; 3];
|}.

(** * Properties *)

(** ** Strings *)

Lemma chars_join l : PyStr.chars (PyStr.join l) = l.
Proof. apply list_ascii_of_string_of_list_ascii. Qed.

Lemma join_chars s : PyStr.join (PyStr.chars s) = s.
Proof. apply string_of_list_ascii_of_string. Qed.

(** Membership in [mask] is membership in the alphabet of the
    specification. *)
Lemma char_in_mask c : PyStr.char_in c mask = allowed c.
Proof. destruct c as [[] [] [] [] [] [] [] []]; vm_compute; reflexivity. Qed.

(** Lower-casing leaves the characters of [mask] alone. *)
Lemma lower_char_mask c : PyStr.char_in c mask = true → PyStr.lower_char c = c.
Proof.
  destruct c as [[] [] [] [] [] [] [] []]; vm_compute; intros H;
    first [ reflexivity | discriminate H ].
Qed.

Lemma filter_all_true {A} (f : A → bool) l :
  Forall (fun x => f x = true) l → List.filter f l = l.
Proof.
  induction 1 as [|x l Hx _ IH]; simpl; [reflexivity|].
  rewrite Hx, IH. reflexivity.
Qed.

Lemma filter_Forall {A} (f : A → bool) l :
  Forall (fun x => f x = true) (List.filter f l).
Proof.
  induction l as [|x l IH]; simpl; [constructor|].
  destruct (f x) eqn:E; [constructor; assumption | assumption].
Qed.

Lemma map_fixed {A} (f : A → A) l :
  Forall (fun x => f x = x) l → map f l = l.
Proof.
  induction 1 as [|x l Hx _ IH]; simpl; [reflexivity|].
  rewrite Hx, IH. reflexivity.
Qed.

(** ** Transcript normalisation *)

(** C7 (as amended): [strip_text] lower-cases its input and keeps, in
    order, exactly the characters of the alphabet [a]-[z], apostrophe,
    hyphen, space; for the input "Hello, World! 123" the output is
    "hello world " (the space before the digits is kept, so the output ends
    with a space); normalising an output again returns it unchanged. *)
Theorem strip_text_normalizes :
  (∀ text,
     strip_text text =
     PyStr.join (List.filter allowed (PyStr.chars (PyStr.lower text)))) ∧
  strip_text "Hello, World! 123" = "hello world " ∧
  (∀ text, strip_text (strip_text text) = strip_text text).
Proof.
  split; [|split].
  - intros text. unfold strip_text. f_equal.
    apply filter_ext. intros c. apply char_in_mask.
  - vm_compute. reflexivity.
  - intros text. unfold strip_text at 1.
    set (out := strip_text text).
    assert (Hout : Forall (fun c => PyStr.char_in c mask = true) (PyStr.chars out)).
    { unfold out, strip_text. rewrite chars_join. apply filter_Forall. }
    unfold PyStr.lower. rewrite chars_join.
    rewrite map_fixed.
    + rewrite filter_all_true by exact Hout. apply join_chars.
    + eapply Forall_impl; [exact Hout|]. intros c Hc. simpl in Hc.
      apply lower_char_mask, Hc.
Qed.

(** Counterexample to C7 as the specification words it: the output for
    "Hello, World! 123" is not "hello world". *)
Lemma strip_text_hello_world_trailing_space :
  strip_text "Hello, World! 123" ≠ "hello world".
Proof. vm_compute. discriminate. Qed.

(** ** Numbers *)

Lemma int_of_Q_succ z : int_of_Q (inject_Z z + 1) = z + 1.
Proof.
  unfold int_of_Q, inject_Z, Qplus. simpl.
  rewrite Z.quot_1_r. lia.
Qed.



Lemma Qfloor_lower z x : z <= Qfloor x ↔ (inject_Z z <= x)%Q.
Proof.
  split; intros H.
  - eapply Qle_trans; [|apply Qfloor_le].
    rewrite <- Zle_Qle. exact H.
  - rewrite <- (Qfloor_Z z). apply Qfloor_resp_le, H.
Qed.



Lemma floordiv_ok a b :
  ¬ (b == 0)%Q → floordiv a b = Ok (inject_Z (Qfloor (a / b))).
Proof.
  intros Hb. unfold floordiv.
  destruct (Qeq_bool b 0) eqn:E; [|reflexivity].
  apply Qeq_bool_eq in E. contradiction.
Qed.

(** ** Frame arithmetic *)

Lemma samples2frames_eq p samples :
  ¬ (WIN_SAMP_SHIFT p == 0)%Q →
  _samples2frames p samples = Ok (frame_count_formula p samples).
Proof.
  intros Hs. unfold _samples2frames, frame_count_formula.
  rewrite floordiv_ok by exact Hs. simpl.
  rewrite int_of_Q_succ. reflexivity.
Qed.

Lemma frame_count_nonneg_iff p samples :
  (0 < WIN_SAMP_SHIFT p)%Q →
  0 <= frame_count_formula p samples ↔
  (2 * SAMPLE_MARGIN p + WIN_SAMP_SIZE p - WIN_SAMP_SHIFT p
   <= inject_Z samples)%Q.
Proof.
  intros Hs. unfold frame_count_formula.
  set (x := (inject_Z samples - 2 * SAMPLE_MARGIN p - WIN_SAMP_SIZE p)%Q).
  set (s := WIN_SAMP_SHIFT p) in *.
  assert (Hiff : (inject_Z (-1) <= x / s)%Q ↔ (- s <= x)%Q).
  { split; intros H.
    - apply (Qmult_le_r _ _ s Hs) in H.
      assert (E : (x / s * s == x)%Q)
        by (field; intros C; rewrite C in Hs; discriminate Hs).
      rewrite E in H.
      assert (E' : (inject_Z (-1) * s == - s)%Q) by ring.
      rewrite E' in H. exact H.
    - apply Qle_shift_div_l; [exact Hs|].
      assert (E' : (inject_Z (-1) * s == - s)%Q) by ring.
      rewrite E'. exact H. }
  split; intros H.
  - assert (H1 : -1 <= Qfloor (x / s)) by lia.
    apply Qfloor_lower, Hiff in H1. unfold x in H1. lra.
  - assert (H1 : (- s <= x)%Q) by (unfold x; lra).
    apply Hiff, Qfloor_lower in H1. lia.
Qed.




(** The same for every setting of the constants in which windows overlap
    or a margin is kept: a recording without samples has a negative frame
    count. *)
Lemma samples2frames_negative p :
  (0 < WIN_SAMP_SHIFT p)%Q →
  (WIN_SAMP_SHIFT p < 2 * SAMPLE_MARGIN p + WIN_SAMP_SIZE p)%Q →
  ∃ n, _samples2frames p 0 = Ok n ∧ n < 0.
Proof.
  intros Hs Hw. exists (frame_count_formula p 0). split.
  - apply samples2frames_eq. intros C. rewrite C in Hs. discriminate Hs.
  - destruct (Z.lt_ge_cases (frame_count_formula p 0) 0) as [H|H]; [exact H|].
    apply (frame_count_nonneg_iff p 0 Hs) in H.
    exfalso. change (inject_Z 0) with 0%Q in H. lra.
Qed.


(** ** Segment extraction *)

#[local] Arguments readframes : simpl never.
#[local] Arguments setpos : simpl never.







(** ** Dictionaries *)

Lemma dict_mem_In {V} (d : pydict V) k :
  dict_mem d k = true ↔ In k (dict_keys d).
Proof.
  unfold dict_mem, dict_keys.
  induction d as [|[k' v] d IH]; simpl.
  - split; [discriminate | intros []].
  - destruct (String.eqb_spec k' k) as [->|Hne].
    + split; [intros _; left; reflexivity | reflexivity].
    + rewrite IH. split; [intros H; right; exact H|].
      intros [E|H]; [contradiction | exact H].
Qed.

Lemma dict_mem_get {V} (d : pydict V) k :
  dict_mem d k = true ↔ ∃ v, dict_get d k = Some v.
Proof.
  unfold dict_mem. destruct (dict_get d k) as [v|].
  - split; [intros _; exists v; reflexivity | reflexivity].
  - split; [discriminate | intros [v H]; discriminate H].
Qed.

Lemma dict_get_set_eq {V} (d : pydict V) k v :
  dict_get (dict_set d k v) k = Some v.
Proof.
  induction d as [|[k' v'] d IH]; simpl.
  - rewrite String.eqb_refl. reflexivity.
  - destruct (String.eqb_spec k' k) as [->|Hne]; simpl.
    + rewrite String.eqb_refl. reflexivity.
    + destruct (String.eqb_spec k' k); [contradiction | exact IH].
Qed.

Lemma dict_get_set_ne {V} (d : pydict V) k k' v :
  k ≠ k' → dict_get (dict_set d k v) k' = dict_get d k'.
Proof.
  intros Hne. induction d as [|[k0 v0] d IH]; simpl.
  - destruct (String.eqb_spec k k'); [contradiction | reflexivity].
  - destruct (String.eqb_spec k0 k) as [->|H0]; simpl.
    + destruct (String.eqb_spec k k'); [contradiction | reflexivity].
    + destruct (String.eqb_spec k0 k'); [reflexivity | exact IH].
Qed.

(** Assigning to a new key appends it; assigning to a present key keeps
    the keys as they are. *)
Lemma dict_keys_set {V} (d : pydict V) k v :
  dict_keys (dict_set d k v) =
  if dict_mem d k then dict_keys d else (dict_keys d ++ [k])%list.
Proof.
  unfold dict_keys, dict_mem.
  induction d as [|[k' v'] d IH]; simpl; [reflexivity|].
  destruct (String.eqb_spec k' k) as [->|Hne]; simpl; [reflexivity|].
  rewrite IH. destruct (dict_get d k); reflexivity.
Qed.

Lemma dict_length_set {V} (d : pydict V) k v :
  length (dict_set d k v) = if dict_mem d k then length d else S (length d).
Proof.
  rewrite <- !(length_map fst). fold (dict_keys (dict_set d k v)).
  rewrite dict_keys_set. fold (dict_keys d).
  destruct (dict_mem d k); [reflexivity|].
  rewrite length_app. simpl. lia.
Qed.

(** ** Manifest building *)

Ltac unfold_stx :=
  unfold mbind, stx_bind, mret, stx_ret, lift, modify, global, getitem in *.

(** An id missing from the text or the alignment manifest is passed over:
    nothing is written and nothing is raised. *)
Lemma prepare_data_body_skip wav phn txt k v o :
  dict_mem txt k = false ∨ dict_mem phn k = false →
  prepare_data_body {| train_wav_manifest := wav; phn_manifest := Some phn |}
    txt tt (k, v) o = (o, Ok tt).
Proof.
  intros H. unfold prepare_data_body.
  destruct (dict_mem txt k) eqn:Et; simpl; [|reflexivity].
  destruct H as [H|H]; [discriminate H|].
  unfold_stx. simpl. rewrite H. reflexivity.
Qed.

(** An id found in all three manifests gets one line, in the manifest its
    numeric code selects. *)
Lemma prepare_data_body_joined wav phn txt k wav_file samples o
    txt_file text phn_file num_frms phones c :
  dict_get txt k = Some (txt_file, text) →
  dict_get phn k = Some (phn_file, num_frms, phones) →
  code_of k = Ok c →
  prepare_data_body {| train_wav_manifest := wav; phn_manifest := Some phn |}
    txt tt (k, (wav_file, samples)) o
  = (emit (split_of_code c)
       (csv_line k wav_file samples phn_file num_frms txt_file) o, Ok tt).
Proof.
  intros Ht Hp Hc. unfold prepare_data_body, dict_mem.
  rewrite Ht. simpl. unfold_stx. simpl. rewrite Hp, Ht. simpl.
  unfold code_of in Hc. rewrite Hc. unfold split_of_code.
  destruct ((0 <? c) && (c <? 60)); reflexivity.
Qed.

Lemma emit_train_dev s line o :
  emit s line o =
  {| f1 := f1 o ++ (if s is Train then [line] else []);
     f2 := f2 o ++ (if s is Dev then [line] else []) |}.
Proof. destruct s, o; simpl; rewrite ?app_nil_r; reflexivity. Qed.

(** The loop over the audio manifest appends, to each file, the lines of
    the joined records of its split, in order. *)
Lemma prepare_data_loop wavg phn txt items o :
  (∀ k, In k (dict_keys items) → dict_mem txt k = true →
        dict_mem phn k = true → is_ok (code_of k) = true) →
  for_each
    (prepare_data_body {| train_wav_manifest := wavg; phn_manifest := Some phn |} txt)
    items tt o
  = ({| f1 := f1 o ++ map row_line (List.filter is_train_row (inner_join items txt phn));
        f2 := f2 o ++ map row_line (List.filter is_dev_row (inner_join items txt phn)) |},
     Ok tt).
Proof.
  revert o. induction items as [|[k [wav_file samples]] items IH]; intros o Hcodes.
  - simpl. unfold mret, stx_ret. rewrite !app_nil_r. destruct o; reflexivity.
  - assert (Hrest : ∀ k0, In k0 (dict_keys items) → dict_mem txt k0 = true →
              dict_mem phn k0 = true → is_ok (code_of k0) = true).
    { intros k0 Hin. apply Hcodes. right. exact Hin. }
    cbn [for_each]. unfold mbind at 1, stx_bind at 1.
    unfold inner_join. cbn [omap list_omap]. fold (inner_join items txt phn).
    destruct (dict_get txt k) as [[txt_file text]|] eqn:Et.
    + destruct (dict_get phn k) as [[[phn_file num_frms] phones]|] eqn:Ep.
      * assert (Hc : is_ok (code_of k) = true).
        { apply Hcodes; [left; reflexivity | |]; apply dict_mem_get; eauto. }
        destruct (code_of k) as [c|] eqn:Ec; [|discriminate Hc].
        rewrite (prepare_data_body_joined _ _ _ _ _ _ _ _ _ _ _ _ c Et Ep Ec).
        destruct tt. rewrite IH by exact Hrest.
        cbn [List.filter]. unfold is_train_row, is_dev_row, row_split.
        cbn [row_id]. rewrite Ec.
        rewrite emit_train_dev. cbn [f1 f2].
        destruct (split_of_code c); cbn [map row_line];
          rewrite <- ?app_assoc, ?app_nil_l; reflexivity.
      * rewrite prepare_data_body_skip
          by (right; unfold dict_mem; rewrite Ep; reflexivity).
        apply IH, Hrest.
    + rewrite prepare_data_body_skip
        by (left; unfold dict_mem; rewrite Et; reflexivity).
      apply IH, Hrest.
Qed.



(** [prepare_data] as it stands never assigns the two manifests it joins:
    unless the module's globals hold them, the loop is not entered and
    both manifest files stay empty. *)
Lemma prepare_data_join_unbound G txt o :
  train_wav_manifest G = None →
  prepare_data_join G txt o = (o, Raise NameError).
Proof. intros H. unfold prepare_data_join. rewrite H. reflexivity. Qed.



Lemma path_join_inj a b b' :
  b ≠ "" → b' ≠ "" → path_join a b = path_join a b' → b = b'.
Proof.
  intros Hb Hb'. unfold path_join.
  destruct (String.eqb_spec b ""); [contradiction|].
  destruct (String.eqb_spec b' ""); [contradiction|].
  induction a as [|c a IH]; simpl; intros E; injection E; auto.
Qed.

(** The whole of [prepare_data] on the files: once the transcripts are
    written, [train.csv] and [dev.csv] under [target_dir] hold the train
    and dev lines of the join. *)
Lemma prepare_data_files DATA_ROOT text_lines target_dir wav txt phn
    (st st1 : store) :
  get_transcripts text_lines DATA_ROOT st = (st1, Ok txt) →
  (∀ k, dict_mem wav k = true → dict_mem txt k = true →
        dict_mem phn k = true → is_ok (code_of k) = true) →
  ∃ st2,
    prepare_data {| train_wav_manifest := Some wav; phn_manifest := Some phn |}
      DATA_ROOT text_lines target_dir st = (st2, Ok tt) ∧
    st2 !! path_join target_dir "train.csv"
    = Some (TextFile (map row_line
              (List.filter is_train_row (inner_join wav txt phn)))) ∧
    st2 !! path_join target_dir "dev.csv"
    = Some (TextFile (map row_line
              (List.filter is_dev_row (inner_join wav txt phn)))).
Proof.
  intros Htxt Hcodes. unfold prepare_data.
  unfold mbind at 1, stx_bind at 1. rewrite Htxt.
  unfold with_csv, prepare_data_join. unfold mbind at 1, stx_bind at 1.
  cbn [lift global train_wav_manifest].
  rewrite prepare_data_loop
    by (intros k Hin; apply Hcodes, dict_mem_In, Hin).
  eexists. split; [reflexivity|]. unfold close_csv. cbn [f1 f2 empty_csv app].
  split.
  - rewrite lookup_insert_ne, lookup_insert_eq; [reflexivity|].
    intros E. apply path_join_inj in E; discriminate.
  - apply lookup_insert_eq.
Qed.

(** ** Manifest reconstruction *)

(** A wave file whose derived text or label path does not exist is passed
    over. *)
Lemma reconstruct_manifest_body_skip fs wav_file o :
  path_exists fs (PyStr.replace "wav" "txt" wav_file) = false ∨
  path_exists fs (PyStr.replace "wav" "phn" wav_file) = false →
  reconstruct_manifest_body fs tt wav_file o = (o, Ok tt).
Proof.
  intros H. unfold reconstruct_manifest_body.
  destruct H as [-> | ->]; simpl; [reflexivity|].
  rewrite orb_true_r. reflexivity.
Qed.

(** Otherwise one line is written, with the derived paths, to the
    manifest the numeric code of the stem selects. *)
Lemma reconstruct_manifest_body_written fs wav_file o samples num_frms c :
  path_exists fs (PyStr.replace "wav" "txt" wav_file) = true →
  path_exists fs (PyStr.replace "wav" "phn" wav_file) = true →
  fs_nframes fs wav_file = Ok samples →
  fs_num_lines fs (PyStr.replace "wav" "phn" wav_file) = Ok num_frms →
  code_of (PyStr.stem wav_file) = Ok c →
  reconstruct_manifest_body fs tt wav_file o
  = (emit (split_of_code c)
       (csv_line (PyStr.stem wav_file) wav_file samples
          (PyStr.replace "wav" "phn" wav_file) num_frms
          (PyStr.replace "wav" "txt" wav_file)) o, Ok tt).
Proof.
  intros Ht Hp Hn Hl Hc. unfold reconstruct_manifest_body.
  rewrite Ht, Hp. cbn [negb orb]. unfold_stx.
  rewrite Hn, Hl. unfold code_of in Hc. rewrite Hc.
  unfold split_of_code. destruct ((0 <? c) && (c <? 60)); reflexivity.
Qed.

Lemma split_of_code_dev c : split_of_code c = Dev ↔ 0 < c < 60.
Proof.
  unfold split_of_code.
  destruct (Z.ltb_spec 0 c); destruct (Z.ltb_spec c 60); simpl;
    split; intros Hd; try discriminate Hd; try reflexivity; lia.
Qed.

(** C6: a joined record ([prepare_data]) and a reconstructed record
    ([reconstruct_manifest]) are each written to [dev.csv] when the numeric
    code at positions [[6:11)] of the utterance id satisfies
    [0 < code < 60], and to [train.csv] otherwise; both functions apply
    this one rule. Code 30 goes to Dev; codes 0, 60 and 200 go to Train. *)
Theorem split_rule :
  (∀ c, split_of_code c = Dev ↔ 0 < c < 60) ∧
  (∀ c, split_of_code c = Train ↔ ¬ (0 < c < 60)) ∧
  (split_of_code 30 = Dev ∧ split_of_code 0 = Train ∧
   split_of_code 60 = Train ∧ split_of_code 200 = Train) ∧
  (∀ line o,
     emit Dev line o = {| f1 := f1 o; f2 := f2 o ++ [line] |} ∧
     emit Train line o = {| f1 := f1 o ++ [line]; f2 := f2 o |}) ∧
  (∀ wav phn txt k wav_file samples o txt_file text phn_file num_frms phones c,
     dict_get txt k = Some (txt_file, text) →
     dict_get phn k = Some (phn_file, num_frms, phones) →
     code_of k = Ok c →
     prepare_data_body {| train_wav_manifest := wav; phn_manifest := Some phn |}
       txt tt (k, (wav_file, samples)) o
     = (emit (split_of_code c)
          (csv_line k wav_file samples phn_file num_frms txt_file) o, Ok tt)) ∧
  (∀ fs wav_file o samples num_frms c,
     path_exists fs (PyStr.replace "wav" "txt" wav_file) = true →
     path_exists fs (PyStr.replace "wav" "phn" wav_file) = true →
     fs_nframes fs wav_file = Ok samples →
     fs_num_lines fs (PyStr.replace "wav" "phn" wav_file) = Ok num_frms →
     code_of (PyStr.stem wav_file) = Ok c →
     reconstruct_manifest_body fs tt wav_file o
     = (emit (split_of_code c)
          (csv_line (PyStr.stem wav_file) wav_file samples
             (PyStr.replace "wav" "phn" wav_file) num_frms
             (PyStr.replace "wav" "txt" wav_file)) o, Ok tt)).
Proof.
  split; [exact split_of_code_dev|].
  split.
  { intros c. rewrite <- split_of_code_dev.
    destruct (split_of_code c); split; intros H;
      try reflexivity; try discriminate H; try (intros C; discriminate C).
    exfalso. apply H. reflexivity. }
  split; [repeat split|].
  split; [intros line o; split; reflexivity|].
  split.
  - intros. eapply prepare_data_body_joined; eassumption.
  - intros. apply reconstruct_manifest_body_written; assumption.
Qed.

Lemma split_rule_witness :
  (split_of_code 30 = Dev ↔ 0 < 30 < 60) ∧
  prepare_data_body
    {| train_wav_manifest := Some example_audio;
       phn_manifest := Some example_align |}
    example_text tt (id_A, ("/data/000/fsh_0_00030_A.wav", 16000)) empty_csv
  = (emit (split_of_code 30)
       (csv_line id_A "/data/000/fsh_0_00030_A.wav" 16000
          "/data/000/fsh_0_00030_A.phn" 3 "/data/000/fsh_0_00030_A.txt")
       empty_csv, Ok tt) ∧
  reconstruct_manifest_body (sibling_fs "/data") tt
    "/data/000/fsh_0_00030_A.wav" empty_csv
  = (emit (split_of_code 30)
       (csv_line "fsh_0_00030_A" "/data/000/fsh_0_00030_A.wav" 24000
          "/data/000/fsh_0_00030_A.phn" 3 "/data/000/fsh_0_00030_A.txt")
       empty_csv, Ok tt).
Proof.
  destruct split_rule as (Hdev & _ & _ & _ & Hprep & Hrec).
  split; [exact (Hdev 30)|]. split.
  - exact (Hprep (Some example_audio) example_align example_text id_A
             "/data/000/fsh_0_00030_A.wav" 16000 empty_csv
             "/data/000/fsh_0_00030_A.txt" "hello world "
             "/data/000/fsh_0_00030_A.phn" 3 [1; 1; 2] 30
             eq_refl eq_refl eq_refl).
  - exact (Hrec (sibling_fs "/data") "/data/000/fsh_0_00030_A.wav" empty_csv
             24000 3 30 eq_refl eq_refl eq_refl eq_refl eq_refl).
Defined.

(** *** [str.replace] on a path *)

Lemma chars_app s1 s2 :
  PyStr.chars (s1 +:+ s2) = (PyStr.chars s1 ++ PyStr.chars s2)%list.
Proof.
  unfold PyStr.chars. induction s1 as [|c s1 IH]; simpl; [reflexivity|].
  rewrite IH. reflexivity.
Qed.

Lemma is_prefix_app p r : PyStr.is_prefix p (p ++ r) = true.
Proof.
  induction p as [|c p IH]; simpl; [reflexivity|].
  rewrite Ascii.eqb_refl. exact IH.
Qed.

Lemma is_prefix_take p l : PyStr.is_prefix p l = true → take (length p) l = p.
Proof.
  revert l. induction p as [|c p IH]; intros l H; simpl.
  - apply take_0.
  - destruct l as [|d l]; simpl in H; [discriminate H|].
    apply andb_prop in H. destruct H as [Hc Hp].
    apply Ascii.eqb_eq in Hc. subst d. simpl. f_equal. apply IH, Hp.
Qed.

Lemma take_differs {A} (n m : nat) (x y : list A) :
  (n <= m)%nat → take n x ≠ take n y → take m x ≠ take m y.
Proof.
  intros Hnm Hne E. apply Hne.
  replace n with (min n m) by lia.
  rewrite <- (take_take x), <- (take_take y), E. reflexivity.
Qed.

(** Wherever [old] occurs in a string, the replaced string already
    differs from the original at or before that occurrence. *)
Lemma replace_chars_differs old new a r :
  length new = length old → new ≠ old →
  take (length a + length old) (PyStr.replace_chars old new 0 (a ++ old ++ r))
  ≠ take (length a + length old) (a ++ old ++ r).
Proof.
  intros Hlen Hne.
  assert (Hhit : ∀ l, l ≠ [] → PyStr.is_prefix old l = true →
            take (length old) (PyStr.replace_chars old new 0 l)
            ≠ take (length old) l).
  { intros l Hl Hp. destruct l as [|c l]; [contradiction|].
    cbn [PyStr.replace_chars]. rewrite Hp.
    rewrite (is_prefix_take _ _ Hp).
    rewrite <- Hlen, take_app_length. exact Hne. }
  induction a as [|c a IH].
  - simpl. apply Hhit; [|apply is_prefix_app].
    destruct old as [|c old]; [|discriminate].
    destruct new; [contradiction | discriminate Hlen].
  - destruct (PyStr.is_prefix old ((c :: a) ++ old ++ r)) eqn:Hp.
    + apply (take_differs (length old)); [lia|].
      apply Hhit; [discriminate | exact Hp].
    + cbn [app PyStr.replace_chars]. cbn [app] in Hp. rewrite Hp.
      cbn [length Nat.add take]. intros E. injection E as E.
      apply IH, E.
Qed.

(** If the directory part of a path contains [wav], the path derived from
    it is not a path in that directory at all. *)
Lemma replace_leaves_directory a b rest rest' new :
  new = "txt" ∨ new = "phn" →
  PyStr.replace "wav" new ((a +:+ "wav" +:+ b) +:+ rest)
  ≠ (a +:+ "wav" +:+ b) +:+ rest'.
Proof.
  intros Hnew E. apply (f_equal PyStr.chars) in E.
  unfold PyStr.replace in E. rewrite chars_join, !chars_app in E.
  rewrite <- !app_assoc in E.
  set (wav := PyStr.chars "wav") in *.
  apply (f_equal (take (length (PyStr.chars a) + length wav))) in E.
  revert E.
  replace (take (length (PyStr.chars a) + length wav)
             (PyStr.chars a ++ wav ++ PyStr.chars b ++ PyStr.chars rest'))
    with (take (length (PyStr.chars a) + length wav)
            (PyStr.chars a ++ wav ++ PyStr.chars b ++ PyStr.chars rest)).
  - apply replace_chars_differs.
    + destruct Hnew as [-> | ->]; reflexivity.
    + destruct Hnew as [-> | ->]; discriminate.
  - rewrite !(app_assoc (PyStr.chars a) wav).
    rewrite <- length_app, !take_app_length. reflexivity.
Qed.

(** C9: [reconstruct_manifest] derives the text and label paths of a wave
    file by replacing [wav] throughout the full path string. A record
    whose derived paths do not exist is skipped; otherwise its line carries
    the derived paths. When the directory part of the path contains [wav],
    the derived paths differ from every path in that directory, so from the
    sibling [<stem>.txt] and [<stem>.phn]: under the target directory
    [/corpus/wav] an utterance with its three files side by side is
    skipped, and when files exist at the derived paths in other trees the
    line names those instead of the siblings. *)
Theorem reconstruct_manifest_replaces_in_directories :
  (∀ fs wav_file o,
     path_exists fs (PyStr.replace "wav" "txt" wav_file) = false ∨
     path_exists fs (PyStr.replace "wav" "phn" wav_file) = false →
     reconstruct_manifest_body fs tt wav_file o = (o, Ok tt)) ∧
  (∀ fs wav_file o samples num_frms c,
     path_exists fs (PyStr.replace "wav" "txt" wav_file) = true →
     path_exists fs (PyStr.replace "wav" "phn" wav_file) = true →
     fs_nframes fs wav_file = Ok samples →
     fs_num_lines fs (PyStr.replace "wav" "phn" wav_file) = Ok num_frms →
     code_of (PyStr.stem wav_file) = Ok c →
     reconstruct_manifest_body fs tt wav_file o
     = (emit (split_of_code c)
          (csv_line (PyStr.stem wav_file) wav_file samples
             (PyStr.replace "wav" "phn" wav_file) num_frms
             (PyStr.replace "wav" "txt" wav_file)) o, Ok tt)) ∧
  (∀ a b rest rest' new,
     new = "txt" ∨ new = "phn" →
     PyStr.replace "wav" new ((a +:+ "wav" +:+ b) +:+ rest)
     ≠ (a +:+ "wav" +:+ b) +:+ rest') ∧
  (let target_dir := "/corpus/wav" in
   let wav_file := "/corpus/wav/000/fsh_0_00030_A.wav" in
   glob_wav (sibling_fs target_dir) target_dir = [wav_file] ∧
   path_exists (sibling_fs target_dir) "/corpus/wav/000/fsh_0_00030_A.txt" = true ∧
   path_exists (sibling_fs target_dir) "/corpus/wav/000/fsh_0_00030_A.phn" = true ∧
   PyStr.replace "wav" "txt" wav_file = "/corpus/txt/000/fsh_0_00030_A.txt" ∧
   PyStr.replace "wav" "phn" wav_file = "/corpus/phn/000/fsh_0_00030_A.phn" ∧
   reconstruct_manifest (sibling_fs target_dir) target_dir ∅
   = (close_csv target_dir empty_csv ∅, Ok tt) ∧
   glob_wav mirrored_fs target_dir = [wav_file] ∧
   reconstruct_manifest mirrored_fs target_dir ∅
   = (close_csv target_dir
        {| f1 := [];
           f2 := [csv_line "fsh_0_00030_A" wav_file 24000
                    "/corpus/phn/000/fsh_0_00030_A.phn" 3
                    "/corpus/txt/000/fsh_0_00030_A.txt"] |} ∅, Ok tt)).
Proof.
  split; [exact reconstruct_manifest_body_skip|].
  split; [exact reconstruct_manifest_body_written|].
  split; [exact replace_leaves_directory|].
  repeat split; vm_compute; reflexivity.
Qed.

Lemma reconstruct_manifest_replaces_in_directories_witness :
  reconstruct_manifest_body (sibling_fs "/corpus/wav") tt
    "/corpus/wav/000/fsh_0_00030_A.wav" empty_csv = (empty_csv, Ok tt) ∧
  reconstruct_manifest_body mirrored_fs tt
    "/corpus/wav/000/fsh_0_00030_A.wav" empty_csv
  = (emit (split_of_code 30)
       (csv_line "fsh_0_00030_A" "/corpus/wav/000/fsh_0_00030_A.wav" 24000
          "/corpus/phn/000/fsh_0_00030_A.phn" 3
          "/corpus/txt/000/fsh_0_00030_A.txt") empty_csv, Ok tt) ∧
  PyStr.replace "wav" "txt"
    (("/corpus/" +:+ "wav" +:+ "") +:+ "/000/fsh_0_00030_A.wav")
  ≠ ("/corpus/" +:+ "wav" +:+ "") +:+ "/000/fsh_0_00030_A.txt".
Proof.
  destruct reconstruct_manifest_replaces_in_directories
    as (Hskip & Hwritten & Hdir & _).
  split; [|split].
  - exact (Hskip (sibling_fs "/corpus/wav")
             "/corpus/wav/000/fsh_0_00030_A.wav" empty_csv
             (or_introl eq_refl)).
  - exact (Hwritten mirrored_fs "/corpus/wav/000/fsh_0_00030_A.wav" empty_csv
             24000 3 30 eq_refl eq_refl eq_refl eq_refl eq_refl).
  - exact (Hdir "/corpus/" "" "/000/fsh_0_00030_A.wav"
             "/000/fsh_0_00030_A.txt" "txt" (or_introl eq_refl)).
Defined.

(** ** The dataset view *)

Section GetItem.

Context {label : Type}.
Implicit Types (self : Aspire label) (ts : list tensor) (tgt : targets label).







End GetItem.



(** The two examples of the specification: 8 audio frames against 5
    labels, and 3 audio frames against 5 labels. *)
Example getitem_truncates_audio :
  __getitem__ (example_dataset (example_audio_frames 8) [1; 2; 3; 4; 5]) 0
  = Ok (example_audio_frames 5, Some (Encoded [1; 2; 3; 4; 5])).
Proof. vm_compute. reflexivity. Qed.

Example getitem_pads_audio :
  __getitem__ (example_dataset (example_audio_frames 3) [1; 2; 3; 4; 5]) 0
  = Ok ((example_audio_frames 3 ++ [[0%Q; 0%Q]; [0%Q; 0%Q]])%list,
        Some (Encoded [1; 2; 3; 4; 5])).
Proof. vm_compute. reflexivity. Qed.




(** ** Alignment decoding *)

(** The loop follows the shape of the stream: it parses the records that
    can be read, assigning each entry and writing each label file, and ends
    as the reading ends. One iteration more than there are records is
    enough. *)
Lemma parse_alignments_shape K target_dir f recs out :
  stream_shape K f recs out →
  ∀ fuel manifest (st : store),
    (length recs < fuel)%nat →
    parse_alignments K target_dir fuel f manifest st
    = (write_records target_dir recs st,
       match out with
       | None => Ok (Some (add_records target_dir recs manifest))
       | Some e => Raise e
       end).
Proof.
  induction 1 as [f Hs | f e Hs He | f uttid f1 e Hs Hv
                 | f uttid f1 phones f2 recs out Hs Hv _ IH];
    intros fuel manifest st Hfuel;
    (destruct fuel as [|fuel]; [simpl in Hfuel; lia|]);
    cbn [parse_alignments]; rewrite Hs.
  - reflexivity.
  - destruct e; try reflexivity. contradiction.
  - unfold_stx. rewrite Hv. reflexivity.
  - unfold_stx. rewrite Hv. cbn [write_file modify].
    unfold write_file, modify. cbn [length] in Hfuel.
    rewrite IH by lia. reflexivity.
Qed.

(** Records with fresh, pairwise distinct ids add one entry each. *)
Lemma add_records_length target_dir recs manifest :
  NoDup (map fst recs) →
  (∀ k, In k (map fst recs) → dict_mem manifest k = false) →
  length (add_records target_dir recs manifest)
  = (length manifest + length recs)%nat.
Proof.
  revert manifest. induction recs as [|[k v] recs IH]; intros manifest Hnd Hfresh.
  - simpl. lia.
  - cbn [add_records fold_left fst snd map] in *.
    apply NoDup_cons in Hnd. destruct Hnd as [Hk Hnd].
    fold (add_records target_dir recs
            (dict_set manifest k (phn_path target_dir k, Z.of_nat (length v), v))).
    rewrite IH.
    + rewrite dict_length_set, Hfresh by (left; reflexivity).
      cbn [length]. lia.
    + exact Hnd.
    + intros k' Hin. unfold dict_mem.
      rewrite dict_get_set_ne.
      * apply (Hfresh k'). right. exact Hin.
      * intros ->. apply Hk. apply list_elem_of_In. exact Hin.
Qed.

(** Every parsed record has a label file at its path in the store,
    holding the phones of a parsed record. *)
Lemma write_records_lookup target_dir recs (st : store) k :
  In k (map fst recs) →
  ∃ v, In v (map snd recs) ∧
       write_records target_dir recs st !! phn_path target_dir k
       = Some (TextFile (map pretty v)).
Proof.
  revert st. induction recs as [|[k0 v0] recs IH] using rev_ind; intros st Hin.
  - destruct Hin.
  - unfold write_records. rewrite fold_left_app. cbn [fold_left fst snd].
    fold (write_records target_dir recs st).
    rewrite map_app, in_app_iff in Hin. cbn [map fst In] in Hin.
    destruct (decide (phn_path target_dir k0 = phn_path target_dir k)) as [E|E].
    + exists v0. split.
      * rewrite map_app, in_app_iff. right. left. reflexivity.
      * rewrite E. apply lookup_insert_eq.
    + destruct Hin as [Hin|[->|[]]]; [|contradiction].
      destruct (IH st Hin) as (v & Hv & Hl).
      exists v. split.
      * rewrite map_app, in_app_iff. left. exact Hv.
      * rewrite lookup_insert_ne by exact E. exact Hl.
Qed.

(** An exception in one archive ends [get_alignments]: the archives after
    it are not read. *)
Lemma get_alignments_aborts K target_dir fuel f outputs manifest (st st' : store) e :
  parse_alignments K target_dir fuel f manifest st = (st', Raise e) →
  get_alignments K target_dir fuel (f :: outputs) manifest st = (st', Raise e).
Proof.
  intros H. cbn [get_alignments]. unfold mbind, stx_bind. rewrite H. reflexivity.
Qed.

(** C8 (as amended): the loop of [get_alignments] over the output of one
    archive. For a stream of [n] records that can be read in turn, followed
    by a [ValueError] of [read_string] (no further string token), [n + 1]
    iterations end the loop without an exception; each record assigns the
    manifest entry of its utterance id and writes its label file, so the
    manifest gains exactly [n] entries when the ids are pairwise distinct
    and new, and fewer when an id repeats. A [ValueError] of [read_string]
    always ends the loop cleanly. A record whose string token is read but
    whose integer vector is not raises the exception of [read_vec_int],
    [ValueError] included; the label files of the records read before it
    are already written. *)
Theorem parse_alignments_spec K target_dir :
  (∀ f recs out fuel manifest (st : store),
     stream_shape K f recs out → (length recs < fuel)%nat →
     parse_alignments K target_dir fuel f manifest st
     = (write_records target_dir recs st,
        match out with
        | None => Ok (Some (add_records target_dir recs manifest))
        | Some e => Raise e
        end)) ∧
  (∀ recs manifest,
     NoDup (map fst recs) →
     (∀ k, In k (map fst recs) → dict_mem manifest k = false) →
     length (add_records target_dir recs manifest)
     = (length manifest + length recs)%nat) ∧
  (∀ recs (st : store) k,
     In k (map fst recs) →
     ∃ v, In v (map snd recs) ∧
          write_records target_dir recs st !! phn_path target_dir k
          = Some (TextFile (map pretty v))) ∧
  (∀ f fuel manifest (st : store),
     read_string K f = Raise ValueError →
     parse_alignments K target_dir (S fuel) f manifest st
     = (st, Ok (Some manifest))) ∧
  (∀ f uttid f1 e fuel manifest (st : store),
     read_string K f = Ok (uttid, f1) →
     read_vec_int K f1 = Raise e →
     parse_alignments K target_dir (S fuel) f manifest st = (st, Raise e)).
Proof.
  split; [|split; [|split; [|split]]].
  - intros f recs out fuel manifest st Hshape Hfuel.
    apply parse_alignments_shape; assumption.
  - intros recs manifest. apply add_records_length.
  - intros recs st k. apply write_records_lookup.
  - intros f fuel manifest st Hs.
    apply (parse_alignments_shape K target_dir f [] None (shape_end K f Hs)).
    simpl. lia.
  - intros f uttid f1 e fuel manifest st Hs Hv.
    apply (parse_alignments_shape K target_dir f [] (Some e)
             (shape_bad_vector K f uttid f1 e Hs Hv)).
    simpl. lia.
Qed.

Lemma example_records_shape :
  stream_shape spec_kaldi_io (encode_stream example_records) example_records None.
Proof.
  set (f := encode_stream example_records).
  apply (shape_record _ f "fsh_0_00030_A" (drop 14 f) [1; -2; 300] (drop 27 f));
    [vm_compute; reflexivity | vm_compute; reflexivity |].
  apply (shape_record _ _ "fsh_0_00060_B" (drop 41 f) [7] (drop 46 f));
    [vm_compute; reflexivity | vm_compute; reflexivity |].
  apply shape_end. vm_compute. reflexivity.
Qed.

(** The same stream cut inside the vector of its second record. *)
Lemma truncated_records_shape :
  stream_shape spec_kaldi_io (take 43 (encode_stream example_records))
    [("fsh_0_00030_A", [1; -2; 300])] (Some ValueError).
Proof.
  set (f := take 43 (encode_stream example_records)).
  apply (shape_record _ f "fsh_0_00030_A" (drop 14 f) [1; -2; 300] (drop 27 f));
    [vm_compute; reflexivity | vm_compute; reflexivity |].
  apply (shape_bad_vector _ _ "fsh_0_00060_B" (drop 41 f));
    vm_compute; reflexivity.
Qed.

Lemma parse_alignments_spec_witness :
  (parse_alignments spec_kaldi_io "/data" 3 (encode_stream example_records) [] ∅
   = (write_records "/data" example_records ∅,
      Ok (Some (add_records "/data" example_records [])))) ∧
  length (add_records "/data" example_records []) = 2%nat ∧
  (parse_alignments spec_kaldi_io "/data" 3
     (take 43 (encode_stream example_records)) [] ∅
   = (write_records "/data" [("fsh_0_00030_A", [1; -2; 300])] ∅,
      Raise ValueError)) ∧
  (∃ v, In v (map snd [("fsh_0_00030_A", [1; -2; 300])]) ∧
        write_records "/data" [("fsh_0_00030_A", [1; -2; 300])] ∅
          !! phn_path "/data" "fsh_0_00030_A"
        = Some (TextFile (map pretty v))) ∧
  parse_alignments spec_kaldi_io "/data" 1 [] [] ∅ = (∅, Ok (Some [])) ∧
  parse_alignments spec_kaldi_io "/data" 1
    (drop 27 (take 43 (encode_stream example_records))) [] ∅
  = (∅, Raise ValueError).
Proof.
  destruct (parse_alignments_spec spec_kaldi_io "/data")
    as (Hrun & Hlen & Hfiles & Hend & Hbad).
  split; [|split; [|split; [|split; [|split]]]].
  - apply (Hrun _ _ None 3%nat [] ∅ example_records_shape). simpl. lia.
  - apply (Hlen example_records []).
    + apply NoDup_cons. split; [|apply NoDup_singleton].
      intros Hin. apply list_elem_of_singleton in Hin. discriminate Hin.
    + intros k _. reflexivity.
  - apply (Hrun _ _ (Some ValueError) 3%nat [] ∅ truncated_records_shape).
    simpl. lia.
  - apply (Hfiles [("fsh_0_00030_A", [1; -2; 300])] ∅ "fsh_0_00030_A").
    left. reflexivity.
  - apply (Hend [] 0%nat [] ∅). reflexivity.
  - apply (Hbad (drop 27 (take 43 (encode_stream example_records)))
             "fsh_0_00060_B"
             (drop 41 (take 43 (encode_stream example_records)))
             ValueError 0%nat [] ∅); vm_compute; reflexivity.
Defined.

(** Counterexample to C8 as the specification words it: two records that
    can be read in turn and share their utterance id, followed by the end
    of the stream, leave one manifest entry, not two. *)
Lemma parse_alignments_repeated_id :
  stream_shape spec_kaldi_io (encode_stream repeated_id_records)
    repeated_id_records None ∧
  snd (parse_alignments spec_kaldi_io "/data" 3
         (encode_stream repeated_id_records) [] ∅)
  = Ok (Some [("fsh_0_00030_A", ("/data/000/fsh_0_00030_A.phn", 1, [3]))]).
Proof.
  split; [|vm_compute; reflexivity].
  set (f := encode_stream repeated_id_records).
  apply (shape_record _ f "fsh_0_00030_A" (drop 14 f) [1; 2] (drop 23 f));
    [vm_compute; reflexivity | vm_compute; reflexivity |].
  apply (shape_record _ _ "fsh_0_00030_A" (drop 37 f) [3] (drop 42 f));
    [vm_compute; reflexivity | vm_compute; reflexivity |].
  apply shape_end. vm_compute. reflexivity.
Qed.

(** ** Loading a manifest *)

(** The filter keeps an entry exactly when its frame count exceeds 100:
    100 frames or fewer are dropped, 101 or more are kept. *)
Lemma long_enough_threshold p e s n fr :
  field e 2 = Ok s → PyStr.int s = Ok n → _samples2frames p n = Ok fr →
  long_enough p e = Ok true ∧ 101 <= fr ∨
  long_enough p e = Ok false ∧ fr <= 100.
Proof.
  intros Hf Hn Hfr. unfold long_enough. rewrite Hf. cbn [mbind pyres_bind].
  rewrite Hn. cbn [mbind pyres_bind]. rewrite Hfr. cbn [mbind pyres_bind].
  destruct (Z.ltb_spec 100 fr); [left | right]; split; try reflexivity; lia.
Qed.

Lemma filter_res_length {A} (f : A → pyres bool) l kept :
  filter_res f l = Ok kept → (length kept <= length l)%nat.
Proof.
  revert kept. induction l as [|x l IH]; intros kept H; simpl in H.
  - injection H as <-. simpl. lia.
  - destruct (f x) as [b|]; [|discriminate H]. cbn [mbind pyres_bind] in H.
    destruct (filter_res f l) as [ys|]; [|discriminate H].
    cbn [mbind pyres_bind] in H. injection H as <-.
    specialize (IH ys eq_refl). destruct b; simpl; lia.
Qed.

(** [random.sample] takes [k] elements, each from its own position: what
    is taken, together with what is left, is the population. *)
Lemma sample_from_spec {A} draws i (pool : list A) k :
  (k <= length pool)%nat →
  length (sample_from draws i pool k) = k ∧
  ∃ rest, pool ≡ₚ sample_from draws i pool k ++ rest.
Proof.
  revert i pool. induction k as [|k IH]; intros i pool Hk.
  - split; [reflexivity|]. exists pool. reflexivity.
  - cbn [sample_from].
    assert (Hj : (draws i mod length pool < length pool)%nat)
      by (apply Nat.mod_upper_bound; lia).
    destruct (lookup_lt_is_Some_2 pool _ Hj) as [x Hx]. rewrite Hx.
    destruct (IH (S i) (delete (draws i mod length pool)%nat pool)) as [Hlen [rest Hperm]].
    { rewrite length_delete by eauto. lia. }
    split; [cbn [length]; rewrite Hlen; reflexivity|].
    exists rest. cbn [app]. rewrite <- Hperm.
    apply delete_Permutation, Hx.
Qed.

Lemma random_sample_spec {A} draws (population : list A) k :
  0 <= k <= Z.of_nat (length population) →
  ∃ l rest, random_sample draws population (PyInt k) = Ok l ∧
            Z.of_nat (length l) = k ∧ population ≡ₚ l ++ rest.
Proof.
  intros [H0 Hk]. unfold random_sample.
  destruct (Z.ltb_spec k 0); [lia|].
  destruct (Z.ltb_spec (Z.of_nat (length population)) k); [lia|]. cbn [orb].
  destruct (sample_from_spec draws 0 population (Z.to_nat k)) as [Hlen [rest Hp]];
    [lia|].
  eexists _, rest. split; [reflexivity|]. split; [lia | exact Hp].
Qed.

(** The sample size is taken from the number of manifest lines, not from
    the number of entries left by the filter: as soon as the filter has
    dropped a line and [data_size] asks for more entries than are left,
    [random.sample] is asked for more than its population and raises. *)
Lemma load_manifest_sample_too_large p mode_ d draws manifest kept :
  filter_res (long_enough p)
    (map (fun x => PyStr.split ","%char (PyStr.strip x)) manifest) = Ok kept →
  (length kept < length manifest)%nat →
  Z.of_nat (length kept) < d →
  _load_manifest p mode_ (PyInt d) draws (Some manifest) = Raise ValueError.
Proof.
  intros Hkept Hdrop Hd. unfold _load_manifest.
  fold (long_enough p). rewrite Hkept. cbn [mbind pyres_bind].
  assert (Hs : ∃ k, py_min (PyInt d) (PyInt (Z.of_nat (length manifest))) = PyInt k
                    ∧ Z.of_nat (length kept) < k).
  { unfold py_min. destruct (Qle_bool _ _); eexists; split; try reflexivity; lia. }
  destruct Hs as (k & -> & Hk). unfold random_sample.
  destruct (Z.ltb_spec (Z.of_nat (length kept)) k); [|lia].
  rewrite orb_true_r. reflexivity.
Qed.

Lemma load_manifest_default_size p mode_ draws manifest kept :
  filter_res (long_enough p)
    (map (fun x => PyStr.split ","%char (PyStr.strip x)) manifest) = Ok kept →
  (length kept < length manifest)%nat →
  Z.of_nat (length manifest) < 10 ^ 30 →
  _load_manifest p mode_ default_data_size draws (Some manifest) = Raise ValueError.
Proof.
  intros Hkept Hdrop Hn. unfold _load_manifest.
  fold (long_enough p). rewrite Hkept. cbn [mbind pyres_bind].
  assert (Hs : py_min default_data_size (PyInt (Z.of_nat (length manifest)))
               = PyInt (Z.of_nat (length manifest))).
  { unfold py_min, default_data_size. cbn [num_value].
    destruct (Qle_bool (inject_Z (10 ^ 30)) (inject_Z (Z.of_nat (length manifest)))) eqn:E;
      [|reflexivity].
    apply Qle_bool_iff in E. rewrite <- Zle_Qle in E. lia. }
  rewrite Hs. unfold random_sample.
  destruct (Z.ltb_spec (Z.of_nat (length kept)) (Z.of_nat (length manifest))); [|lia].
  rewrite orb_true_r. reflexivity.
Qed.

(** C5, the code at a failing input: a manifest of one long utterance
    (16000 samples, 178 frames) and one short one (2000 samples, 3 frames),
    loaded without a maximum entry count. The filter leaves one entry, the
    sample size is the number of lines, 2, and loading raises
    [ValueError] instead of keeping the one entry, whatever the random
    draws. *)
Theorem load_manifest_raises_after_filtering :
  ∀ draws,
    _samples2frames example_params 16000 = Ok 178 ∧
    _samples2frames example_params 2000 = Ok 3 ∧
    _load_manifest example_params "train" default_data_size draws
      (Some [example_line 16000; example_line 2000])
    = Raise ValueError.
Proof.
  intros draws. split; [vm_compute; reflexivity|].
  split; [vm_compute; reflexivity|].
  apply (load_manifest_default_size _ _ _ _
           [PyStr.split ","%char (PyStr.strip (example_line 16000))]).
  - vm_compute. reflexivity.
  - simpl. lia.
  - simpl. lia.
Qed.

(** When nothing is dropped and no maximum is given, all entries are kept,
    in a random order. *)
Example load_manifest_keeps_all :
  _load_manifest example_params "train" default_data_size (fun i => i)
    (Some [example_line 16000; example_line 24000])
  = Ok ([PyStr.split ","%char (PyStr.strip (example_line 16000));
         PyStr.split ","%char (PyStr.strip (example_line 24000))], [5; 5]).
Proof. vm_compute. reflexivity. Qed.

(** A maximum below the number of entries left by the filter gives a
    sample of that size. *)
Example load_manifest_samples :
  _load_manifest example_params "train" (PyInt 1) (fun i => S i)
    (Some [example_line 16000; example_line 24000; example_line 2000])
  = Ok ([PyStr.split ","%char (PyStr.strip (example_line 24000))], [5]).
Proof. vm_compute. reflexivity. Qed.

(** *** The readers modelled from the specification *)

Lemma spec_read_string_shorter f s f' :
  spec_read_string f = Ok (s, f') → (length f' < length f)%nat.
Proof.
  destruct f as [|n rest]; [discriminate|]. cbn [spec_read_string].
  destruct (_ <? _)%nat; [discriminate|].
  intros H. injection H as _ <-. rewrite length_drop. cbn [length]. lia.
Qed.

Lemma spec_read_int32s_le n f v f' :
  spec_read_int32s n f = Ok (v, f') → (length f' <= length f)%nat.
Proof.
  revert f v f'. induction n as [|n IH]; intros f v f' H.
  - injection H as _ <-. lia.
  - destruct f as [|b0 [|b1 [|b2 [|b3 rest]]]]; try discriminate H.
    cbn [spec_read_int32s] in H.
    destruct (spec_read_int32s n rest) as [[v0 f0]|] eqn:E; [|discriminate H].
    cbn [mbind pyres_bind fst snd] in H. injection H as _ <-.
    apply IH in E. cbn [length]. lia.
Qed.

Lemma spec_read_vec_int_shorter f v f' :
  spec_read_vec_int f = Ok (v, f') → (length f' < length f)%nat.
Proof.
  destruct f as [|n rest]; [discriminate|]. cbn [spec_read_vec_int].
  intros H. apply spec_read_int32s_le in H. cbn [length]. lia.
Qed.

Lemma spec_read_string_raises f e :
  spec_read_string f = Raise e → e = ValueError.
Proof.
  destruct f as [|n rest]; cbn [spec_read_string].
  - intros H. injection H as <-. reflexivity.
  - destruct (_ <? _)%nat; [|discriminate].
    intros H. injection H as <-. reflexivity.
Qed.

(** Under these readers every stream has a shape, with fewer records than
    bytes: the loop over a stream [f] ends within [length f + 1]
    iterations. *)
Lemma spec_stream_has_shape f :
  ∃ recs out, stream_shape spec_kaldi_io f recs out ∧
              (length recs <= length f)%nat.
Proof.
  induction f as [f IH] using (induction_ltof1 _ (@length Byte.byte)).
  unfold ltof in IH.
  destruct (spec_read_string f) as [[uttid f1]|e] eqn:Hs.
  - destruct (spec_read_vec_int f1) as [[phones f2]|e] eqn:Hv.
    + pose proof (spec_read_string_shorter _ _ _ Hs) as H1.
      pose proof (spec_read_vec_int_shorter _ _ _ Hv) as H2.
      destruct (IH f2) as (recs & out & Hshape & Hlen); [lia|].
      exists ((uttid, phones) :: recs), out. split.
      * eapply shape_record; eassumption.
      * cbn [length]. lia.
    + exists [], (Some e). split; [|simpl; lia].
      eapply shape_bad_vector; eassumption.
  - exists [], None. split; [|simpl; lia].
    apply shape_end. cbn [read_string spec_kaldi_io].
    rewrite Hs. f_equal. eapply spec_read_string_raises, Hs.
Qed.

Lemma spec_parse_terminates target_dir f manifest (st : store) :
  snd (parse_alignments spec_kaldi_io target_dir (S (length f)) f manifest st)
  ≠ Ok None.
Proof.
  destruct (spec_stream_has_shape f) as (recs & out & Hshape & Hlen).
  rewrite (parse_alignments_shape _ target_dir _ _ _ Hshape) by lia.
  cbn [snd]. destruct out; discriminate.
Qed.

(** * Further properties *)

(** ** Transcript normalisation, continued *)

Lemma join_app l1 l2 : PyStr.join (l1 ++ l2) = PyStr.join l1 +:+ PyStr.join l2.
Proof.
  unfold PyStr.join. induction l1 as [|c l1 IH]; simpl; [reflexivity|].
  rewrite IH. reflexivity.
Qed.

Lemma chars_length s : length (PyStr.chars s) = String.length s.
Proof.
  unfold PyStr.chars. induction s as [|c s IH]; simpl; [reflexivity|].
  rewrite IH. reflexivity.
Qed.

Lemma filter_sublist {A} (f : A → bool) l : sublist (List.filter f l) l.
Proof.
  induction l as [|x l IH]; simpl; [constructor|].
  destruct (f x); [apply sublist_skip | apply sublist_cons]; exact IH.
Qed.

(** X1: [strip_text] works character by character: the normalisation of
    a concatenation is the concatenation of the normalisations; its output
    is a subsequence of the lower-cased input, so never longer than the
    input. *)
Theorem strip_text_app :
  (∀ a b, strip_text (a +:+ b) = strip_text a +:+ strip_text b) ∧
  (∀ a, sublist (PyStr.chars (strip_text a)) (PyStr.chars (PyStr.lower a))) ∧
  (∀ a, (String.length (strip_text a) <= String.length a)%nat).
Proof.
  split; [|split].
  - intros a b. unfold strip_text, PyStr.lower.
    rewrite !chars_join, chars_app, map_app, List.filter_app. apply join_app.
  - intros a. unfold strip_text. rewrite chars_join. apply filter_sublist.
  - intros a. rewrite <- !chars_length. unfold strip_text, PyStr.lower.
    rewrite !chars_join.
    etransitivity; [apply sublist_length, filter_sublist|].
    rewrite length_map. reflexivity.
Qed.

(** ** Counting lines *)

Lemma readline_line l rest :
  ¬ In newline l →
  readline (l ++ newline :: rest) = ((l ++ [newline])%list, rest).
Proof.
  induction l as [|c l IH]; intros Hl; cbn [app readline].
  - rewrite Ascii.eqb_refl. reflexivity.
  - destruct (Ascii.eqb_spec c newline) as [->|Hc].
    + exfalso. apply Hl. left. reflexivity.
    + rewrite IH; [reflexivity|]. intros Hin. apply Hl. right. exact Hin.
Qed.

Lemma readline_last l :
  ¬ In newline l → readline l = (l, []).
Proof.
  induction l as [|c l IH]; intros Hl; cbn [readline]; [reflexivity|].
  destruct (Ascii.eqb_spec c newline) as [->|Hc].
  - exfalso. apply Hl. left. reflexivity.
  - rewrite IH; [reflexivity|]. intros Hin. apply Hl. right. exact Hin.
Qed.

Lemma count_lines_unlines lines tail fuel acc :
  Forall one_line lines → ¬ In newline tail →
  (length lines + 1 < fuel)%nat →
  count_lines fuel (unlines lines ++ tail) acc
  = Some (acc + Z.of_nat (length lines) + (if tail is [] then 0 else 1)).
Proof.
  intros Hlines Htail. revert fuel acc.
  induction Hlines as [|l lines Hl _ IH]; intros fuel acc Hfuel.
  - destruct fuel as [|[|fuel]]; [simpl in Hfuel; lia..|].
    cbn [unlines map concat app count_lines]. rewrite readline_last by exact Htail.
    destruct tail as [|c tail]; [f_equal; simpl; lia|].
    cbn [count_lines readline]. f_equal. simpl. lia.
  - destruct fuel as [|fuel]; [simpl in Hfuel; lia|].
    cbn [unlines map concat]. fold (unlines lines).
    rewrite <- !app_assoc. cbn [app count_lines].
    rewrite readline_line by exact Hl.
    destruct (PyStr.chars l ++ [newline])%list eqn:E.
    { destruct (PyStr.chars l); discriminate E. }
    rewrite IH by (cbn [length] in Hfuel; lia).
    f_equal. cbn [length]. lia.
Qed.

(** Every buffer is counted within one iteration more than it has
    bytes. *)
Lemma readline_lengths buf :
  (length (fst (readline buf)) + length (snd (readline buf)) = length buf)%nat.
Proof.
  induction buf as [|c buf IH]; [reflexivity|].
  change (readline (c :: buf))
    with (if Ascii.eqb c newline then ([c], buf)
          else let '(line, rest) := readline buf in (c :: line, rest)).
  destruct (Ascii.eqb c newline); [reflexivity|].
  destruct (readline buf) as [line rest]. cbn [fst snd length] in *. lia.
Qed.

Lemma readline_nonempty c buf : fst (readline (c :: buf)) ≠ [].
Proof.
  change (readline (c :: buf))
    with (if Ascii.eqb c newline then ([c], buf)
          else let '(line, rest) := readline buf in (c :: line, rest)).
  destruct (Ascii.eqb c newline); [discriminate|].
  destruct (readline buf) as [line rest]. discriminate.
Qed.

Lemma readline_shorter c buf :
  (length (snd (readline (c :: buf))) <= length buf)%nat ∧
  fst (readline (c :: buf)) ≠ [].
Proof.
  split; [|apply readline_nonempty].
  pose proof (readline_lengths (c :: buf)) as H.
  pose proof (readline_nonempty c buf) as Hne.
  destruct (fst (readline (c :: buf))); [contradiction|].
  cbn [length] in H. lia.
Qed.

Lemma count_lines_total buf fuel acc :
  (length buf < fuel)%nat → count_lines fuel buf acc ≠ None.
Proof.
  revert buf acc. induction fuel as [|fuel IH]; intros buf acc Hfuel; [lia|].
  cbn [count_lines]. destruct buf as [|c buf]; [discriminate|].
  pose proof (readline_shorter c buf) as [Hlen Hne].
  destruct (readline (c :: buf)) as [[|x line] rest]; [discriminate|].
  apply IH. cbn [snd length] in *. lia.
Qed.

Lemma get_num_lines_unlines lines fuel :
  lines ≠ [] → Forall one_line lines → (length lines + 1 < fuel)%nat →
  get_num_lines fuel (unlines lines) = Ok (Some (Z.of_nat (length lines))).
Proof.
  intros Hne Hlines Hfuel. unfold get_num_lines.
  destruct (unlines lines) as [|c rest] eqn:E.
  { destruct lines as [|l lines]; [contradiction|].
    cbn [unlines map concat] in E. destruct (PyStr.chars l); discriminate E. }
  rewrite <- E, <- (app_nil_r (unlines lines)).
  rewrite count_lines_unlines by (auto; intros []).
  do 2 f_equal; try lia.
Qed.

(** X2: [get_num_lines] on a file of [n >= 1] newline-terminated lines
    returns [n]; a last line without its newline is counted as well; an
    empty file raises [ValueError]; and the loop over a file always ends
    within one iteration more than the file has bytes. *)
Theorem get_num_lines_counts :
  (∀ fuel, get_num_lines fuel [] = Raise ValueError) ∧
  (∀ lines fuel,
     lines ≠ [] → Forall one_line lines → (length lines + 1 < fuel)%nat →
     get_num_lines fuel (unlines lines) = Ok (Some (Z.of_nat (length lines)))) ∧
  (∀ lines last fuel,
     Forall one_line lines → one_line last → last ≠ "" →
     (length lines + 1 < fuel)%nat →
     get_num_lines fuel (unlines lines ++ PyStr.chars last)
     = Ok (Some (Z.of_nat (length lines) + 1))) ∧
  (∀ content r,
     get_num_lines (S (length content)) content = Ok r → r ≠ None).
Proof.
  split; [reflexivity|]. split; [|split].
  - apply get_num_lines_unlines.
  - intros lines last fuel Hlines Hlast Hne Hfuel. unfold get_num_lines.
    assert (Hc : PyStr.chars last ≠ []).
    { intros E. apply Hne. rewrite <- (join_chars last), E. reflexivity. }
    destruct (unlines lines ++ PyStr.chars last)%list as [|c rest] eqn:E.
    { apply app_eq_nil in E. destruct E as [_ E]. contradiction. }
    rewrite <- E. rewrite count_lines_unlines by assumption.
    destruct (PyStr.chars last); [contradiction|]. do 2 f_equal; try lia.
  - intros content r H. destruct content as [|c content]; [discriminate H|].
    change (Ok (count_lines (S (length (c :: content))) (c :: content) 0) = Ok r)
      in H.
    intros ->.
    apply (count_lines_total (c :: content) (S (length (c :: content))) 0);
      [lia | congruence].
Qed.

Lemma get_num_lines_counts_witness :
  get_num_lines 5 (unlines ["3"; "14"; "15"]) = Ok (Some 3) ∧
  get_num_lines 4 (unlines ["3"; "14"] ++ PyStr.chars "15") = Ok (Some 3) ∧
  get_num_lines 3 (PyStr.chars "ab") ≠ Ok None.
Proof.
  destruct get_num_lines_counts as (_ & Hfull & Hlast & Htotal).
  assert (H1 : one_line "3") by (intros [E|[]]; discriminate E).
  assert (H2 : one_line "14") by (intros [E|[E|[]]]; discriminate E).
  assert (H3 : one_line "15") by (intros [E|[E|[]]]; discriminate E).
  split; [|split].
  - apply (Hfull ["3"; "14"; "15"] 5%nat); [discriminate | | simpl; lia].
    repeat constructor; assumption.
  - apply (Hlast ["3"; "14"] "15" 4%nat);
      [repeat constructor; assumption | assumption | discriminate | simpl; lia].
  - intros E. exact (Htotal (PyStr.chars "ab") None E eq_refl).
Defined.

(** *** The label files of [get_alignments] *)

Lemma pretty_N_char_not_newline d : pretty_N_char d ≠ newline.
Proof. unfold pretty_N_char. repeat case_match; discriminate. Qed.

Lemma pretty_N_go_one_line x s : one_line s → one_line (pretty_N_go x s).
Proof.
  revert s. induction (N.lt_wf_0 x) as [x _ IH]; intros s Hs.
  destruct (N.eq_dec x 0%N) as [->|Hx]; [rewrite pretty_N_go_0; exact Hs|].
  rewrite pretty_N_go_step by lia. apply IH.
  - apply N.div_lt; lia.
  - intros [E|Hin]; [exact (pretty_N_char_not_newline _ E) | exact (Hs Hin)].
Qed.

Lemma pretty_Z_one_line (z : Z) : one_line (pretty z).
Proof.
  assert (HN : ∀ n : N, one_line (pretty n)).
  { intros n. unfold pretty, pretty_N. destruct (decide (n = 0%N)).
    - intros [E|[]]; discriminate E.
    - apply pretty_N_go_one_line. intros []. }
  destruct z as [|x|x]; unfold pretty, pretty_Z.
  - intros [E|[]]; discriminate E.
  - apply (HN (N.pos x)).
  - intros [E|Hin]; [discriminate E | exact (HN (N.pos x) Hin)].
Qed.

Lemma add_records_app target_dir r1 r2 manifest :
  add_records target_dir (r1 ++ r2) manifest
  = add_records target_dir r2 (add_records target_dir r1 manifest).
Proof. unfold add_records. apply fold_left_app. Qed.

Lemma write_records_app target_dir r1 r2 (st : store) :
  write_records target_dir (r1 ++ r2) st
  = write_records target_dir r2 (write_records target_dir r1 st).
Proof. unfold write_records. apply fold_left_app. Qed.

(** X3: the label frame count survives the round trip through the label
    file. For the last record [(uttid, phones)] of a stream that
    [get_alignments] parses, the manifest holds [len(phones)] frames and
    the label file holds one line per phone; [get_num_lines] on that file,
    by which [reconstruct_manifest] recomputes the count, returns
    [len(phones)] when there is at least one phone, and raises
    [ValueError] when there is none (the file is empty). *)
Theorem label_count_round_trip K target_dir f recs uttid phones fuel manifest
    (st : store) :
  stream_shape K f (recs ++ [(uttid, phones)]) None →
  (length recs + 1 < fuel)%nat →
  ∃ st' manifest',
    parse_alignments K target_dir fuel f manifest st = (st', Ok (Some manifest')) ∧
    dict_get manifest' uttid
    = Some (phn_path target_dir uttid, Z.of_nat (length phones), phones) ∧
    st' !! phn_path target_dir uttid = Some (TextFile (map pretty phones)) ∧
    (phones ≠ [] →
     ∀ fuel', (length phones + 1 < fuel')%nat →
       get_num_lines fuel' (unlines (map pretty phones))
       = Ok (Some (Z.of_nat (length phones)))) ∧
    (phones = [] →
     ∀ fuel', get_num_lines fuel' (unlines (map pretty phones)) = Raise ValueError).
Proof.
  intros Hshape Hfuel.
  rewrite (parse_alignments_shape _ target_dir _ _ _ Hshape)
    by (rewrite length_app; simpl; lia).
  eexists _, _. split; [reflexivity|].
  rewrite add_records_app, write_records_app.
  cbn [add_records write_records fold_left fst snd].
  split; [apply dict_get_set_eq|]. split; [apply lookup_insert_eq|]. split.
  - intros Hne fuel' Hfuel'.
    rewrite get_num_lines_unlines.
    + rewrite length_map. reflexivity.
    + destruct phones; [contradiction | discriminate].
    + clear. induction phones as [|z phones IH]; simpl; constructor;
        [apply pretty_Z_one_line | exact IH].
    + rewrite length_map. exact Hfuel'.
  - intros -> fuel'. reflexivity.
Qed.

Lemma label_count_round_trip_witness :
  ∃ (st' : store) manifest',
    parse_alignments spec_kaldi_io "/data" 3 (encode_stream example_records) [] ∅
    = (st', Ok (Some manifest')) ∧
    dict_get manifest' "fsh_0_00060_B"
    = Some (phn_path "/data" "fsh_0_00060_B", 1, [7]) ∧
    st' !! phn_path "/data" "fsh_0_00060_B" = Some (TextFile ["7"]) ∧
    get_num_lines 3 (unlines ["7"]) = Ok (Some 1).
Proof.
  destruct (label_count_round_trip spec_kaldi_io "/data"
              (encode_stream example_records)
              [("fsh_0_00030_A", [1; -2; 300])] "fsh_0_00060_B" [7] 3 [] ∅
              example_records_shape (le_n 3))
    as (st' & manifest' & Hrun & Hget & Hfile & Hcount & _).
  exists st', manifest'. split; [exact Hrun|]. split; [exact Hget|].
  split; [exact Hfile|].
  apply (Hcount ltac:(discriminate) 3%nat). simpl. lia.
Defined.

(** ** Transcripts *)

Lemma for_each_app {St A S} (body : S → A → stx St S) l1 l2 s (st : St) :
  for_each body (l1 ++ l2) s st =
  match for_each body l1 s st with
  | (st', Ok s') => for_each body l2 s' st'
  | (st', Raise e) => (st', Raise e)
  end.
Proof.
  revert s st. induction l1 as [|x l1 IH]; intros s st; [reflexivity|].
  cbn [app for_each]. unfold mbind, stx_bind.
  destruct (body s x st) as [st1 [s1|e]]; [apply IH | reflexivity].
Qed.

Lemma get_transcripts_line_ok target_dir manifest line uttid text (st : store) :
  PyStr.split_once " "%char (PyStr.strip line) = Some (uttid, text) →
  get_transcripts_line target_dir manifest line st
  = (<[txt_path target_dir uttid := TextFile [strip_text text]]> st,
     Ok (dict_set manifest uttid (txt_path target_dir uttid, strip_text text))).
Proof. intros H. unfold get_transcripts_line. rewrite H. reflexivity. Qed.

Lemma get_transcripts_line_raises target_dir manifest line (st : store) :
  PyStr.split_once " "%char (PyStr.strip line) = None →
  get_transcripts_line target_dir manifest line st = (st, Raise ValueError).
Proof. intros H. unfold get_transcripts_line. rewrite H. reflexivity. Qed.

Lemma strip_text_fixed text : strip_text (strip_text text) = strip_text text.
Proof.
  unfold strip_text at 1. set (out := strip_text text).
  assert (Hout : Forall (fun c => PyStr.char_in c mask = true) (PyStr.chars out)).
  { unfold out, strip_text. rewrite chars_join. apply filter_Forall. }
  unfold PyStr.lower. rewrite chars_join, map_fixed.
  - rewrite filter_all_true by exact Hout. apply join_chars.
  - eapply Forall_impl; [exact Hout|]. intros c Hc. apply lower_char_mask, Hc.
Qed.

Lemma get_transcripts_entries target_dir all lines m0 (st st' : store) m :
  incl lines all →
  (∀ k v, dict_get m0 k = Some v → transcript_entry target_dir all k v) →
  for_each (get_transcripts_line target_dir) lines m0 st = (st', Ok m) →
  ∀ k v, dict_get m k = Some v → transcript_entry target_dir all k v.
Proof.
  revert m0 st. induction lines as [|line lines IH]; intros m0 st Hincl Hm0 Hrun.
  - injection Hrun as _ <-. exact Hm0.
  - cbn [for_each] in Hrun. unfold mbind, stx_bind in Hrun.
    destruct (PyStr.split_once " "%char (PyStr.strip line)) as [[uttid text]|] eqn:E.
    + rewrite (get_transcripts_line_ok _ _ _ _ _ _ E) in Hrun.
      eapply IH; [| |exact Hrun].
      * intros x Hx. apply Hincl. right. exact Hx.
      * intros k v Hk. destruct (String.eqb_spec uttid k) as [->|Hne].
        -- rewrite dict_get_set_eq in Hk. injection Hk as <-.
           split; [reflexivity|]. split; [apply strip_text_fixed|].
           exists line, text. split; [apply Hincl; left; reflexivity|].
           split; [exact E | reflexivity].
        -- rewrite dict_get_set_ne in Hk by exact Hne. apply Hm0, Hk.
    + rewrite (get_transcripts_line_raises _ _ _ _ E) in Hrun. discriminate Hrun.
Qed.

Lemma dict_mem_set {V} (d : pydict V) k v k' :
  dict_mem (dict_set d k v) k' = (String.eqb k k' || dict_mem d k').
Proof.
  unfold dict_mem. destruct (String.eqb_spec k k') as [->|Hne].
  - rewrite dict_get_set_eq. reflexivity.
  - rewrite dict_get_set_ne by exact Hne. reflexivity.
Qed.

Lemma get_transcripts_keys target_dir lines m0 (st st' : store) m :
  for_each (get_transcripts_line target_dir) lines m0 st = (st', Ok m) →
  (∀ k, dict_mem m0 k = true → dict_mem m k = true) ∧
  (∀ line, In line lines →
     ∃ k raw, PyStr.split_once " "%char (PyStr.strip line) = Some (k, raw) ∧
              dict_mem m k = true).
Proof.
  revert m0 st. induction lines as [|line lines IH]; intros m0 st Hrun.
  - injection Hrun as _ <-. split; [auto | intros line []].
  - cbn [for_each] in Hrun. unfold mbind, stx_bind in Hrun.
    destruct (PyStr.split_once " "%char (PyStr.strip line)) as [[uttid text]|] eqn:E.
    + rewrite (get_transcripts_line_ok _ _ _ _ _ _ E) in Hrun.
      destruct (IH _ _ Hrun) as [Hmono Hall]. split.
      * intros k Hk. apply Hmono. rewrite dict_mem_set, Hk. apply orb_true_r.
      * intros l [<-|Hin]; [|apply Hall, Hin].
        exists uttid, text. split; [exact E|].
        apply Hmono. rewrite dict_mem_set, String.eqb_refl. reflexivity.
    + rewrite (get_transcripts_line_raises _ _ _ _ E) in Hrun. discriminate Hrun.
Qed.

(** X4: when [get_transcripts] returns, every line of the table has an
    entry under its utterance id, and every entry is the path
    [<target_dir>/<bucket>/<id>.txt] with the normalised text of a line of
    that utterance: a text that normalisation leaves unchanged. *)
Theorem get_transcripts_manifest target_dir lines (st st' : store) m :
  get_transcripts lines target_dir st = (st', Ok m) →
  (∀ k path t,
     dict_get m k = Some (path, t) →
     path = txt_path target_dir k ∧ strip_text t = t ∧
     ∃ line raw, In line lines ∧
                 PyStr.split_once " "%char (PyStr.strip line) = Some (k, raw) ∧
                 t = strip_text raw) ∧
  (∀ line, In line lines →
     ∃ k raw, PyStr.split_once " "%char (PyStr.strip line) = Some (k, raw) ∧
              dict_mem m k = true).
Proof.
  intros Hrun. unfold get_transcripts in Hrun. split.
  - intros k path t Hget.
    apply (get_transcripts_entries target_dir lines lines [] st st' m
             (incl_refl _) ltac:(intros ? ? H; discriminate H) Hrun k (path, t) Hget).
  - apply (get_transcripts_keys _ _ _ _ _ _ Hrun).
Qed.

Lemma get_transcripts_manifest_witness :
  (txt_path "/data" "fsh_0_00030_A" = txt_path "/data" "fsh_0_00030_A" ∧
   strip_text "hello world " = "hello world " ∧
   ∃ line raw,
     In line ["fsh_0_00030_A Hello, World! 123"; "fsh_0_00060_B UH-HUH"] ∧
     PyStr.split_once " "%char (PyStr.strip line) = Some ("fsh_0_00030_A", raw) ∧
     "hello world " = strip_text raw) ∧
  ∃ k raw,
    PyStr.split_once " "%char (PyStr.strip "fsh_0_00060_B UH-HUH") = Some (k, raw) ∧
    dict_mem [("fsh_0_00030_A", (txt_path "/data" "fsh_0_00030_A", "hello world "));
              ("fsh_0_00060_B", (txt_path "/data" "fsh_0_00060_B", "uh-huh"))] k
    = true.
Proof.
  destruct (get_transcripts_manifest "/data"
              ["fsh_0_00030_A Hello, World! 123"; "fsh_0_00060_B UH-HUH"] ∅
              (fst (get_transcripts
                      ["fsh_0_00030_A Hello, World! 123"; "fsh_0_00060_B UH-HUH"]
                      "/data" ∅))
              [("fsh_0_00030_A", (txt_path "/data" "fsh_0_00030_A", "hello world "));
               ("fsh_0_00060_B", (txt_path "/data" "fsh_0_00060_B", "uh-huh"))])
    as [Hentries Hkeys].
  { apply surjective_pairing. }
  split.
  - apply (Hentries "fsh_0_00030_A"). reflexivity.
  - apply Hkeys. right. left. reflexivity.
Defined.

(** *** Lines without a transcript *)

Lemma lstrip_chars_all_space ws l :
  Forall (fun c => PyStr.is_space c = true) ws →
  PyStr.lstrip_chars (ws ++ l) = PyStr.lstrip_chars l.
Proof.
  induction 1 as [|c ws Hc _ IH]; [reflexivity|].
  cbn [app PyStr.lstrip_chars]. rewrite Hc. exact IH.
Qed.

Lemma lstrip_chars_no_space l :
  Forall (fun c => PyStr.is_space c = false) l → PyStr.lstrip_chars l = l.
Proof.
  destruct 1 as [|c l Hc _]; [reflexivity|].
  cbn [PyStr.lstrip_chars]. rewrite Hc. reflexivity.
Qed.

Lemma strip_chars_trailing u ws :
  Forall (fun c => PyStr.is_space c = false) u →
  Forall (fun c => PyStr.is_space c = true) ws →
  PyStr.strip_chars (u ++ ws) = u.
Proof.
  intros Hu Hws. unfold PyStr.strip_chars.
  assert (E : PyStr.lstrip_chars (u ++ ws) = if u is [] then [] else (u ++ ws)%list).
  { destruct Hu as [|c u Hc Hu].
    - cbn [app]. replace ws with (ws ++ [])%list by apply app_nil_r.
      rewrite lstrip_chars_all_space by exact Hws. reflexivity.
    - cbn [app PyStr.lstrip_chars]. rewrite Hc. reflexivity. }
  rewrite E. destruct u as [|c u]; [reflexivity|].
  rewrite rev_app_distr, lstrip_chars_all_space.
  - rewrite lstrip_chars_no_space; [apply rev_involutive|].
    apply Forall_rev, Hu.
  - apply Forall_rev, Hws.
Qed.

Lemma split_once_no_space cur u :
  Forall (fun c => PyStr.is_space c = false) u →
  PyStr.split_once_chars " "%char cur u = None.
Proof.
  intros Hu. revert cur. induction Hu as [|c u Hc _ IH]; intros cur; [reflexivity|].
  cbn [PyStr.split_once_chars].
  destruct (Ascii.eqb_spec c " "%char) as [->|Hne]; [discriminate Hc | apply IH].
Qed.

(** X5: a line of the transcript table that has no space left once it is
    stripped makes [get_transcripts] raise [ValueError]: in particular a
    line holding an utterance id followed by white space only, that is, an
    utterance with an empty transcript. The transcripts of the lines before
    it are already written, and no manifest is returned. *)
Theorem get_transcripts_empty_transcript target_dir :
  (∀ uttid ws manifest (st : store),
     no_space uttid → all_space ws →
     get_transcripts_line target_dir manifest (uttid +:+ ws) st
     = (st, Raise ValueError)) ∧
  (∀ pre bad post (st st1 : store) m,
     get_transcripts pre target_dir st = (st1, Ok m) →
     PyStr.split_once " "%char (PyStr.strip bad) = None →
     get_transcripts (pre ++ bad :: post) target_dir st = (st1, Raise ValueError)).
Proof.
  split.
  - intros uttid ws manifest st Hu Hws. apply get_transcripts_line_raises.
    unfold PyStr.split_once, PyStr.strip.
    rewrite chars_app, strip_chars_trailing, chars_join by assumption.
    rewrite split_once_no_space by exact Hu. reflexivity.
  - intros pre bad post st st1 m Hpre Hbad. unfold get_transcripts in *.
    rewrite for_each_app, Hpre. cbn [for_each]. unfold mbind, stx_bind.
    rewrite get_transcripts_line_raises by exact Hbad. reflexivity.
Qed.

Lemma get_transcripts_empty_transcript_witness :
  get_transcripts_line "/data" [] ("fsh_0_00060_B" +:+ "  ") ∅
  = (∅, Raise ValueError) ∧
  get_transcripts (["fsh_0_00030_A Hello"] ++ ["fsh_0_00060_B  "; "fsh_0_00061_B ok"])
    "/data" ∅
  = (<[txt_path "/data" "fsh_0_00030_A" := TextFile ["hello"]]> ∅,
     Raise ValueError).
Proof.
  destruct (get_transcripts_empty_transcript "/data") as [Hline Hrun].
  split.
  - apply Hline.
    + unfold no_space. repeat constructor.
    + unfold all_space. repeat constructor.
  - apply (Hrun ["fsh_0_00030_A Hello"] "fsh_0_00060_B  " ["fsh_0_00061_B ok"] ∅ _
             [("fsh_0_00030_A", (txt_path "/data" "fsh_0_00030_A", "hello"))]);
      reflexivity.
Defined.

(** ** The segments table *)

Lemma read_segments_fold pyfloat lines rows s0 :
  map_res (parse_segment_line pyfloat) lines = Ok rows →
  foldl_res (fun segments line =>
               r ← parse_segment_line pyfloat line; Ok (add_segment segments r))
    lines s0
  = Ok (fold_left add_segment rows s0).
Proof.
  revert rows s0. induction lines as [|line lines IH]; intros rows s0 H.
  - injection H as <-. reflexivity.
  - cbn [map_res foldl_res] in *.
    destruct (parse_segment_line pyfloat line) as [r|e]; [|discriminate H].
    cbn [mbind pyres_bind] in *.
    destruct (map_res (parse_segment_line pyfloat) lines) as [rs|e];
      [|discriminate H].
    cbn [mbind pyres_bind] in H. injection H as <-.
    cbn [fold_left]. apply IH. reflexivity.
Qed.

Lemma segments_of_snoc wavid rows uttid w start end_ :
  segments_of wavid (rows ++ [(uttid, w, start, end_)])
  = (segments_of wavid rows
     ++ if String.eqb w wavid then [(uttid, start, end_)] else [])%list.
Proof.
  unfold segments_of. rewrite omap_app. cbn [omap list_omap].
  destruct (String.eqb w wavid); reflexivity.
Qed.

Lemma add_segment_groups rows wavid :
  dict_get (fold_left add_segment rows []) wavid
  = match segments_of wavid rows with
    | [] => None
    | seg :: segs => Some (seg :: segs)
    end.
Proof.
  induction rows as [|[[[uttid w] start] end_] rows IH] using rev_ind;
    [reflexivity|].
  rewrite fold_left_app, segments_of_snoc. cbn [fold_left].
  set (d := fold_left add_segment rows []) in *.
  unfold add_segment.
  destruct (String.eqb_spec w wavid) as [->|Hne].
  - rewrite IH. destruct (segments_of wavid rows) as [|seg segs];
      rewrite dict_get_set_eq; reflexivity.
  - rewrite app_nil_r.
    destruct (dict_get d w); rewrite dict_get_set_ne by exact Hne; exact IH.
Qed.



(** ** One recording *)







(** ** The whole of [split_wav] *)

Lemma for_each_invariant {St A S} (body : S → A → stx St S) (I : S → Prop) l :
  (∀ s x (st st' : St) s', In x l → I s → body s x st = (st', Ok s') → I s') →
  ∀ s (st st' : St) s', I s → for_each body l s st = (st', Ok s') → I s'.
Proof.
  induction l as [|x l IH]; intros Hbody s st st' s' Hs Hrun.
  - injection Hrun as _ <-. exact Hs.
  - cbn [for_each] in Hrun. unfold mbind, stx_bind in Hrun.
    destruct (body s x st) as [st1 [s1|e]] eqn:E; [|discriminate Hrun].
    eapply IH; [| |exact Hrun].
    + intros. eapply Hbody; [right|..]; eassumption.
    + eapply Hbody; [left; reflexivity | exact Hs | exact E].
Qed.

Lemma split_wav_segment_ok p target_dir wav manifest pos uttid start end_
    (st st' : store) manifest' pos' :
  split_wav_segment p target_dir wav (manifest, pos) (uttid, start, end_) st
  = (st', Ok (manifest', pos')) →
  manifest' = manifest ∨
  ∃ n, manifest' = dict_set manifest uttid (clip_path target_dir uttid, n).
Proof.
  unfold split_wav_segment.
  destruct (_ || _); [intros H; injection H as _ <- _; left; reflexivity|].
  unfold mbind, stx_bind, lift.
  destruct (setpos wav _) as [q|e]; [|discriminate].
  destruct (readframes wav q _) as [signal q'].
  unfold write_file, modify, mret, stx_ret.
  intros H. injection H as _ <- _. right. eexists. reflexivity.
Qed.

Lemma split_wav_recording_entries p target_dir wav segs manifest
    (st st' : store) manifest' :
  split_wav_recording p target_dir wav segs manifest st = (st', Ok manifest') →
  ∀ k v, dict_get manifest' k = Some v →
         dict_get manifest k = Some v ∨
         (fst v = clip_path target_dir k ∧ ∃ start end_, In (k, start, end_) segs).
Proof.
  unfold split_wav_recording, mbind, stx_bind.
  destruct (for_each (split_wav_segment p target_dir wav) segs (manifest, 0) st)
    as [st1 [[m1 pos1]|e]] eqn:E; [|discriminate].
  unfold mret, stx_ret. intros H. injection H as _ <-. cbn [fst].
  refine (for_each_invariant (split_wav_segment p target_dir wav)
            (fun s => ∀ k v, dict_get (fst s) k = Some v →
                             dict_get manifest k = Some v ∨
                             (fst v = clip_path target_dir k ∧
                              ∃ start end_, In (k, start, end_) segs))
            segs _ (manifest, 0) st st1 (m1, pos1) _ E).
  - intros [m q] [[uttid start] end_] s s' [m' q'] Hin Hinv Hstep k v Hget.
    cbn [fst] in *.
    destruct (split_wav_segment_ok _ _ _ _ _ _ _ _ _ _ _ _ Hstep) as [->|[n ->]];
      [apply Hinv, Hget|].
    destruct (String.eqb_spec uttid k) as [->|Hne].
    + rewrite dict_get_set_eq in Hget. injection Hget as <-. right.
      split; [reflexivity | eauto].
    + rewrite dict_get_set_ne in Hget by exact Hne. apply Hinv, Hget.
  - intros k v Hget. left. exact Hget.
Qed.

Lemma segments_of_In wavid rows uttid start end_ :
  In (uttid, start, end_) (segments_of wavid rows) →
  In (uttid, wavid, start, end_) rows.
Proof.
  unfold segments_of. induction rows as [|[[[u w] s] e] rows IH];
    cbn [omap list_omap]; [intros []|].
  destruct (String.eqb_spec w wavid) as [->|Hne].
  - intros [E|Hin]; [injection E as -> -> ->; left; reflexivity|].
    right. apply IH, Hin.
  - intros Hin. right. apply IH, Hin.
Qed.

(** X9: whatever [split_wav] returns, every entry of its manifest belongs
    to a row of the [segments] table: the key is the utterance id of a row
    whose recording is listed in [wav.scp], and the value names the clip
    [<target_dir>/<bucket>/<id>.wav]. *)
Theorem split_wav_manifest p pyfloat decode segments_lines wav_scp_lines
    target_dir rows (st st' : store) manifest :
  map_res (parse_segment_line pyfloat) segments_lines = Ok rows →
  split_wav p pyfloat decode segments_lines wav_scp_lines target_dir st
  = (st', Ok manifest) →
  ∀ k v, dict_get manifest k = Some v →
         fst v = clip_path target_dir k ∧
         ∃ wavid start end_ line cmd,
           In (k, wavid, start, end_) rows ∧ In line wav_scp_lines ∧
           PyStr.split_once " "%char (PyStr.strip line) = Some (wavid, cmd).
Proof.
  intros Hrows Hrun. unfold split_wav in Hrun.
  unfold read_segments in Hrun.
  rewrite (read_segments_fold _ _ _ _ Hrows) in Hrun.
  unfold mbind, stx_bind, lift in Hrun.
  set (segments := fold_left add_segment rows []) in *.
  assert (Hinv : ∀ k v, dict_get manifest k = Some v →
            dict_get (V := string * Z) [] k = Some v ∨
            (fst v = clip_path target_dir k ∧
             ∃ wavid start end_ line cmd,
               In (k, wavid, start, end_) rows ∧ In line wav_scp_lines ∧
               PyStr.split_once " "%char (PyStr.strip line) = Some (wavid, cmd))).
  { refine (for_each_invariant
              (split_wav_scp_line p decode target_dir segments)
              (fun m => ∀ k v, dict_get m k = Some v →
                 dict_get (V := string * Z) [] k = Some v ∨
                 (fst v = clip_path target_dir k ∧
                  ∃ wavid start end_ line cmd,
                    In (k, wavid, start, end_) rows ∧ In line wav_scp_lines ∧
                    PyStr.split_once " "%char (PyStr.strip line) = Some (wavid, cmd)))
              wav_scp_lines _ [] st st' manifest _ Hrun).
    - intros m line s s' m' Hin Hm Hstep k v Hget.
      unfold split_wav_scp_line in Hstep.
      destruct (PyStr.split_once " "%char (PyStr.strip line))
        as [[wavid cmd]|] eqn:Hsplit; [|discriminate Hstep].
      destruct (dict_get segments wavid) as [segs|] eqn:Hsegs.
      + unfold mbind, stx_bind, lift in Hstep.
        destruct (decode _) as [wav|e]; [|discriminate Hstep].
        destruct (split_wav_recording_entries _ _ _ _ _ _ _ _ Hstep k v Hget)
          as [H|[Hpath (start & end_ & Hseg)]]; [apply Hm, H|].
        right. split; [exact Hpath|].
        exists wavid, start, end_, line, cmd.
        split; [|split; assumption].
        apply segments_of_In. unfold segments in Hsegs.
        rewrite add_segment_groups in Hsegs.
        destruct (segments_of wavid rows); [discriminate Hsegs|].
        injection Hsegs as <-. exact Hseg.
      + injection Hstep as _ <-. apply Hm, Hget.
    - intros k v H. discriminate H. }
  intros k v Hget. destruct (Hinv k v Hget) as [H|H]; [discriminate H | exact H].
Qed.

Lemma split_wav_manifest_witness :
  snd (split_wav short_params example_float example_decode
         example_segments_lines example_wav_scp "/data" ∅)
  = Ok [("fsh_0_00031_A", (clip_path "/data" "fsh_0_00031_A", 14))] ∧
  ∃ wavid start end_ line cmd,
    In ("fsh_0_00031_A", wavid, start, end_) example_segments_rows ∧
    In line example_wav_scp ∧
    PyStr.split_once " "%char (PyStr.strip line) = Some (wavid, cmd).
Proof.
  split; [reflexivity|].
  refine (proj2 (split_wav_manifest short_params example_float example_decode
            example_segments_lines example_wav_scp "/data" example_segments_rows
            ∅ (fst (split_wav short_params example_float example_decode
                      example_segments_lines example_wav_scp "/data" ∅))
            [("fsh_0_00031_A", (clip_path "/data" "fsh_0_00031_A", 14))]
            _ _ "fsh_0_00031_A" (clip_path "/data" "fsh_0_00031_A", 14) _)).
  - reflexivity.
  - apply surjective_pairing.
  - reflexivity.
Defined.

(** ** The archives of [get_alignments] *)

Lemma get_alignments_clean K target_dir fuel outputs recss :
  Forall2 (fun f recs => stream_shape K f recs None ∧ (length recs < fuel)%nat)
    outputs recss →
  ∀ rest manifest (st : store),
    get_alignments K target_dir fuel (outputs ++ rest) manifest st
    = get_alignments K target_dir fuel rest
        (add_records target_dir (concat recss) manifest)
        (write_records target_dir (concat recss) st).
Proof.
  induction 1 as [|f recs outputs recss [Hshape Hfuel] _ IH];
    intros rest manifest st; [reflexivity|].
  cbn [app get_alignments concat]. unfold mbind, stx_bind.
  rewrite (parse_alignments_shape _ target_dir _ _ _ Hshape) by exact Hfuel.
  rewrite IH, add_records_app, write_records_app. reflexivity.
Qed.

(** X10: the manifest of [get_alignments] accumulates over the archives:
    when every archive parses to its end, the result is what parsing all
    records in turn gives. When an archive fails, [get_alignments] raises
    its exception at once: the label files of all records read so far are
    written, no manifest is returned, and the archives after it are not
    read at all. *)
Theorem get_alignments_archives K target_dir fuel :
  (∀ outputs recss manifest (st : store),
     Forall2 (fun f recs => stream_shape K f recs None ∧ (length recs < fuel)%nat)
       outputs recss →
     get_alignments K target_dir fuel outputs manifest st
     = (write_records target_dir (concat recss) st,
        Ok (Some (add_records target_dir (concat recss) manifest)))) ∧
  (∀ good recss bad recs e rest manifest (st : store),
     Forall2 (fun f recs => stream_shape K f recs None ∧ (length recs < fuel)%nat)
       good recss →
     stream_shape K bad recs (Some e) → (length recs < fuel)%nat →
     get_alignments K target_dir fuel (good ++ bad :: rest) manifest st
     = (write_records target_dir (concat recss ++ recs) st, Raise e)).
Proof.
  split.
  - intros outputs recss manifest st Hall.
    rewrite <- (app_nil_r outputs).
    rewrite (get_alignments_clean _ _ _ _ _ Hall). reflexivity.
  - intros good recss bad recs e rest manifest st Hall Hbad Hfuel.
    rewrite (get_alignments_clean _ _ _ _ _ Hall).
    cbn [get_alignments]. unfold mbind, stx_bind.
    rewrite (parse_alignments_shape _ target_dir _ _ _ Hbad) by exact Hfuel.
    rewrite write_records_app. reflexivity.
Qed.

Lemma get_alignments_archives_witness :
  get_alignments spec_kaldi_io "/data" 3
    [encode_stream example_records; encode_stream repeated_id_records] [] ∅
  = (write_records "/data" (example_records ++ repeated_id_records) ∅,
     Ok (Some (add_records "/data" (example_records ++ repeated_id_records) []))) ∧
  get_alignments spec_kaldi_io "/data" 3
    ([encode_stream example_records]
     ++ take 43 (encode_stream example_records)
     :: [encode_stream repeated_id_records]) [] ∅
  = (write_records "/data"
       (example_records ++ [("fsh_0_00030_A", [1; -2; 300])]) ∅,
     Raise ValueError).
Proof.
  destruct (get_alignments_archives spec_kaldi_io "/data" 3) as [Hclean Habort].
  assert (Hrep : stream_shape spec_kaldi_io (encode_stream repeated_id_records)
                   repeated_id_records None).
  { set (f := encode_stream repeated_id_records).
    apply (shape_record _ f "fsh_0_00030_A" (drop 14 f) [1; 2] (drop 23 f));
      [vm_compute; reflexivity | vm_compute; reflexivity |].
    apply (shape_record _ _ "fsh_0_00030_A" (drop 37 f) [3] (drop 42 f));
      [vm_compute; reflexivity | vm_compute; reflexivity |].
    apply shape_end. vm_compute. reflexivity. }
  split.
  - apply (Hclean _ [example_records; repeated_id_records]).
    repeat constructor; [exact example_records_shape | exact Hrep].
  - apply (Habort _ [example_records] _ [("fsh_0_00030_A", [1; -2; 300])]).
    + repeat constructor. exact example_records_shape.
    + exact truncated_records_shape.
    + simpl. lia.
Defined.

(** ** The choice of the alignment model *)

Section LatestModel.

Context {A : Type} (key : A → Q).

Local Abbreviation key_le := (fun a b : A => (key a <= key b)%Q).

Lemma insert_by_In x s b : In b (insert_by key x s) → b = x ∨ In b s.
Proof.
  induction s as [|y s IH]; cbn [insert_by].
  - intros [<-|[]]. left. reflexivity.
  - destruct (Qle_bool (key y) (key x)).
    + intros [<-|H]; [right; left; reflexivity|].
      destruct (IH H) as [->|H']; [left; reflexivity | right; right; exact H'].
    + intros [<-|H]; [left; reflexivity | right; exact H].
Qed.

Lemma sorted_by_snoc l x : sorted_by key (l ++ [x]) = insert_by key x (sorted_by key l).
Proof. unfold sorted_by. rewrite fold_left_app. reflexivity. Qed.

Lemma sorted_by_In l b : In b (sorted_by key l) → In b l.
Proof.
  induction l as [|x l IH] using rev_ind; [intros []|].
  rewrite sorted_by_snoc. intros H. apply in_app_iff.
  destruct (insert_by_In _ _ _ H) as [->|H'];
    [right; left; reflexivity | left; apply IH, H'].
Qed.

Lemma insert_by_sorted x s :
  StronglySorted key_le s → StronglySorted key_le (insert_by key x s).
Proof.
  induction 1 as [|y s Hs IH Hy]; cbn [insert_by].
  - repeat constructor.
  - destruct (Qle_bool (key y) (key x)) eqn:E.
    + constructor; [exact IH|].
      apply Forall_forall. intros b Hb. apply list_elem_of_In in Hb.
      destruct (insert_by_In _ _ _ Hb) as [->|Hb'].
      * apply Qle_bool_iff, E.
      * rewrite Forall_forall in Hy. apply Hy, list_elem_of_In, Hb'.
    + assert (Hxy : (key x <= key y)%Q).
      { apply Qlt_le_weak, Qnot_le_lt. intros C.
        apply Qle_bool_iff in C. rewrite C in E. discriminate E. }
      constructor; [constructor; assumption|].
      constructor; [exact Hxy|].
      eapply Forall_impl; [exact Hy|]. intros b Hb. cbv beta in *.
      eapply Qle_trans; eassumption.
Qed.

Lemma sorted_by_sorted l : StronglySorted key_le (sorted_by key l).
Proof.
  induction l as [|x l IH] using rev_ind; [constructor|].
  rewrite sorted_by_snoc. apply insert_by_sorted, IH.
Qed.

Lemma last_insert_by x s :
  StronglySorted key_le s →
  last (insert_by key x s)
  = match last s with
    | None => Some x
    | Some b => if Qle_bool (key b) (key x) then Some x else Some b
    end.
Proof.
  induction 1 as [|y s Hs IH Hy]; cbn [insert_by]; [reflexivity|].
  destruct (Qle_bool (key y) (key x)) eqn:E.
  - destruct s as [|z s].
    + cbn [insert_by]. cbn. rewrite E. reflexivity.
    + rewrite last_cons_cons, <- IH. cbn [insert_by].
      destruct (Qle_bool (key z) (key x)); apply last_cons_cons.
  - rewrite last_cons_cons.
    destruct (last (y :: s)) as [b|] eqn:Hb; [|apply last_None in Hb; discriminate Hb].
    assert (Hyb : (key y <= key b)%Q).
    { apply last_Some_elem_of, list_elem_of_In in Hb. destruct Hb as [->|Hin].
      - apply Qle_refl.
      - rewrite Forall_forall in Hy. apply Hy, list_elem_of_In, Hin. }
    destruct (Qle_bool (key b) (key x)) eqn:Ebx; [|reflexivity].
    exfalso. apply Qle_bool_iff in Ebx.
    assert (C : Qle_bool (key y) (key x) = true)
      by (apply Qle_bool_iff; eapply Qle_trans; eassumption).
    rewrite C in E. discriminate E.
Qed.

Lemma last_sorted_by l1 x l2 :
  Forall (fun a => (key a <= key x)%Q) l1 →
  Forall (fun a => (key a < key x)%Q) l2 →
  last (sorted_by key (l1 ++ x :: l2)) = Some x.
Proof.
  intros H1 H2. induction l2 as [|y l2 IH] using rev_ind.
  - rewrite sorted_by_snoc, last_insert_by by apply sorted_by_sorted.
    destruct (last (sorted_by key l1)) as [b|] eqn:Hb; [|reflexivity].
    apply last_Some_elem_of, list_elem_of_In, sorted_by_In in Hb.
    rewrite Forall_forall in H1. apply list_elem_of_In, H1 in Hb.
    apply Qle_bool_iff in Hb. rewrite Hb. reflexivity.
  - apply Forall_app in H2. destruct H2 as [H2 Hy].
    apply Forall_inv in Hy.
    rewrite app_comm_cons, app_assoc, sorted_by_snoc.
    rewrite last_insert_by by apply sorted_by_sorted.
    rewrite (IH H2).
    destruct (Qle_bool (key x) (key y)) eqn:E; [|reflexivity].
    exfalso. apply Qle_bool_iff in E. exact (Qlt_not_le _ _ Hy E).
Qed.

End LatestModel.

Lemma list_index_last {A} (l : list A) :
  list_index l (-1)
  = match last l with Some x => Ok x | None => Raise IndexError end.
Proof.
  unfold list_index. rewrite last_lookup.
  destruct l as [|x l]; [reflexivity|].
  cbn [length]. change (-1 <? 0) with true. cbv iota.
  destruct (Z.ltb_spec (-1 + Z.of_nat (S (length l))) 0); [lia|].
  destruct (Z.leb_spec (Z.of_nat (S (length l))) (-1 + Z.of_nat (S (length l))));
    [lia|].
  cbn [orb]. replace (Z.to_nat (-1 + Z.of_nat (S (length l)))) with (length l) by lia.
  cbn [pred]. destruct ((x :: l) !! length l); reflexivity.
Qed.

(** X11: [get_alignments] takes the model file with the latest
    modification time; when several files share that time, the one the
    directory lists last; with no model file in the directory the choice
    raises [IndexError]. *)
Theorem latest_model_latest :
  latest_model [] = Raise IndexError ∧
  (∀ before m t after,
     Forall (fun x : string * Q => (snd x <= t)%Q) before →
     Forall (fun x : string * Q => (snd x < t)%Q) after →
     latest_model (before ++ (m, t) :: after) = Ok m).
Proof.
  split; [reflexivity|].
  intros before m t after Hb Ha. unfold latest_model.
  rewrite list_index_last.
  rewrite (last_sorted_by snd before (m, t) after Hb Ha). reflexivity.
Qed.

Lemma latest_model_latest_witness :
  latest_model ([("1.mdl", 3%Q); ("final.mdl", inject_Z 7)]
                ++ ("35.mdl", inject_Z 7) :: [("2.mdl", inject_Z 5)])
  = Ok "35.mdl".
Proof.
  apply (proj2 latest_model_latest).
  - repeat constructor; vm_compute; discriminate.
  - repeat constructor.
Defined.

(** ** [prepare_data] as it stands *)




Lemma prepare_data_body_bad_code wav phn txt k v o e :
  dict_mem txt k = true → dict_mem phn k = true → code_of k = Raise e →
  prepare_data_body {| train_wav_manifest := wav; phn_manifest := Some phn |}
    txt tt (k, v) o = (o, Raise e).
Proof.
  intros Ht Hp Hc. unfold prepare_data_body. rewrite Ht. cbn [negb].
  unfold_stx. cbn [phn_manifest]. rewrite Hp. cbn [negb].
  destruct v as [wav_file samples].
  apply dict_mem_get in Ht. destruct Ht as [[txt_file text] Ht].
  apply dict_mem_get in Hp. destruct Hp as [[[phn_file num_frms] phones] Hp].
  rewrite Ht, Hp. unfold code_of in Hc. rewrite Hc. reflexivity.
Qed.

(** X13: an utterance id found in all three manifests whose characters
    [[6:11)] are not a number stops the join: [prepare_data] raises the
    [ValueError] of [int]; the lines of the ids before it in the audio
    manifest are written, and no id after it gets a line. *)
Theorem prepare_data_join_bad_code before k v after txt phn e :
  (∀ k', In k' (dict_keys before) → dict_mem txt k' = true →
         dict_mem phn k' = true → is_ok (code_of k') = true) →
  dict_mem txt k = true → dict_mem phn k = true → code_of k = Raise e →
  prepare_data_join
    {| train_wav_manifest := Some (before ++ (k, v) :: after)%list;
       phn_manifest := Some phn |} txt empty_csv
  = ({| f1 := map row_line (List.filter is_train_row (inner_join before txt phn));
        f2 := map row_line (List.filter is_dev_row (inner_join before txt phn)) |},
     Raise e).
Proof.
  intros Hcodes Ht Hp Hc. unfold prepare_data_join.
  unfold mbind at 1, stx_bind at 1. cbn [lift global train_wav_manifest].
  rewrite for_each_app, prepare_data_loop by exact Hcodes.
  cbn [for_each]. unfold mbind, stx_bind.
  rewrite (prepare_data_body_bad_code _ _ _ _ _ _ e Ht Hp Hc). reflexivity.
Qed.

Lemma prepare_data_join_bad_code_witness :
  prepare_data_join
    {| train_wav_manifest :=
         Some (example_audio ++ ("utterance_x", ("/data/x.wav", 8000))
               :: [(id_C, ("/data/002/fsh_0_00200_A.wav", 16000))])%list;
       phn_manifest :=
         Some (example_align ++ [("utterance_x", ("/data/x.phn", 1, [4]));
                                 (id_C, ("/data/002/fsh_0_00200_A.phn", 1, [4]))])%list |}
    (example_text ++ [("utterance_x", ("/data/x.txt", "x"))])%list empty_csv
  = ({| f1 := [];
        f2 := [csv_line id_A "/data/000/fsh_0_00030_A.wav" 16000
                 "/data/000/fsh_0_00030_A.phn" 3 "/data/000/fsh_0_00030_A.txt"] |},
     Raise ValueError).
Proof.
  apply (prepare_data_join_bad_code example_audio "utterance_x"
           ("/data/x.wav", 8000) [(id_C, ("/data/002/fsh_0_00200_A.wav", 16000))]).
  - intros k' Hk _ _. simpl in Hk. destruct Hk as [<-|[<-|[]]]; reflexivity.
  - reflexivity.
  - reflexivity.
  - reflexivity.
Defined.

(** ** Reconstruction and the other writers *)

Lemma replace_chars_skip old new k l :
  (length l <= k)%nat → PyStr.replace_chars old new k l = [].
Proof.
  revert k. induction l as [|c l IH]; intros k Hk; [reflexivity|].
  cbn [PyStr.replace_chars]. destruct k as [|k]; [cbn [length] in Hk; lia|].
  apply IH. cbn [length] in Hk. lia.
Qed.

Lemma is_prefix_iff p l :
  PyStr.is_prefix p l = true ↔ take (length p) l = p.
Proof.
  split; [apply is_prefix_take|].
  intros H. rewrite <- (take_drop (length p) l), H. apply is_prefix_app.
Qed.

Lemma is_prefix_same_start p l1 l2 :
  take (length p) l1 = take (length p) l2 →
  PyStr.is_prefix p l1 = PyStr.is_prefix p l2.
Proof.
  intros H.
  destruct (PyStr.is_prefix p l1) eqn:E1; destruct (PyStr.is_prefix p l2) eqn:E2;
    try reflexivity.
  - apply is_prefix_iff in E1. rewrite H in E1. apply is_prefix_iff in E1.
    rewrite E1 in E2. discriminate E2.
  - apply is_prefix_iff in E2. rewrite <- H in E2. apply is_prefix_iff in E2.
    rewrite E2 in E1. discriminate E1.
Qed.

(** When [old] occurs in [l ++ old] only as that last part, replacing it
    changes that last part only. *)
Lemma replace_chars_suffix c old new l :
  PyText.occurs_chars (c :: old) (l ++ removelast (c :: old)) = false →
  PyStr.replace_chars (c :: old) new 0 (l ++ c :: old) = (l ++ new)%list.
Proof.
  induction l as [|d l IH]; intros Hocc.
  - cbn [app PyStr.replace_chars].
    pose proof (is_prefix_app (c :: old) []) as Hp. rewrite app_nil_r in Hp.
    rewrite Hp, replace_chars_skip by (cbn [length]; lia).
    apply app_nil_r.
  - cbn [app PyText.occurs_chars] in Hocc.
    apply orb_false_iff in Hocc. destruct Hocc as [Hhere Hrest].
    cbn [app PyStr.replace_chars].
    replace (PyStr.is_prefix (c :: old) (d :: l ++ c :: old)) with false.
    + rewrite IH by exact Hrest. reflexivity.
    + rewrite <- Hhere. symmetry. apply is_prefix_same_start.
      rewrite (app_removelast_last c (l := c :: old)) at 2 by discriminate.
      rewrite !app_comm_cons, app_assoc.
      rewrite (take_app_le (_ ++ removelast (c :: old))); [reflexivity|].
      rewrite length_app. cbn [length].
      assert (length (removelast (c :: old)) = length old).
      { clear. revert c. induction old as [|x old IH]; intros c; [reflexivity|].
        change (removelast (c :: x :: old)) with (c :: removelast (x :: old)).
        cbn [length]. rewrite IH. reflexivity. }
      lia.
Qed.

Lemma name_chars_no_slash cur l :
  ¬ In "/"%char l → PyStr.name_chars cur l = (rev cur ++ l)%list.
Proof.
  revert cur. induction l as [|c l IH]; intros cur Hl; cbn [PyStr.name_chars].
  - rewrite app_nil_r. reflexivity.
  - destruct (Ascii.eqb_spec c "/"%char) as [->|Hc].
    + exfalso. apply Hl. left. reflexivity.
    + rewrite IH by (intros H; apply Hl; right; exact H).
      cbn [rev]. rewrite <- app_assoc. reflexivity.
Qed.

Lemma name_chars_after_slash cur a b :
  PyStr.name_chars cur (a ++ "/"%char :: b) = PyStr.name_chars [] b.
Proof.
  revert cur. induction a as [|c a IH]; intros cur; cbn [app PyStr.name_chars].
  - reflexivity.
  - destruct (Ascii.eqb c "/"%char); apply IH.
Qed.

Lemma rfind_dot_None l : ¬ In "."%char l → PyStr.rfind_dot l = None.
Proof.
  induction l as [|c l IH]; intros Hl; cbn [PyStr.rfind_dot]; [reflexivity|].
  rewrite IH by (intros H; apply Hl; right; exact H).
  destruct (Ascii.eqb_spec c "."%char) as [->|Hc]; [|reflexivity].
  exfalso. apply Hl. left. reflexivity.
Qed.

Lemma rfind_dot_last k r :
  ¬ In "."%char r → PyStr.rfind_dot (k ++ "."%char :: r) = Some (length k).
Proof.
  intros Hr. induction k as [|c k IH]; cbn [app PyStr.rfind_dot length].
  - rewrite rfind_dot_None by exact Hr. reflexivity.
  - rewrite IH. reflexivity.
Qed.

Lemma path_join_file a b ext :
  path_join a (b +:+ ext) = a +:+ "/" +:+ b +:+ ext ∨ (b +:+ ext = "").
Proof.
  unfold path_join. destruct (String.eqb_spec (b +:+ ext) "") as [E|E];
    [right; exact E | left; reflexivity].
Qed.

Lemma utt_path target_dir uttid ext :
  ext ≠ "" →
  path_join (utt_dir target_dir uttid) (uttid +:+ ext)
  = utt_dir target_dir uttid +:+ "/" +:+ uttid +:+ ext.
Proof.
  intros Hext. destruct (path_join_file (utt_dir target_dir uttid) uttid ext)
    as [E|E]; [exact E|].
  exfalso. apply Hext. destruct uttid; [exact E | discriminate E].
Qed.

(** The stem of an utterance's clip path is the utterance id. *)
Lemma stem_clip_path target_dir uttid :
  uttid ≠ "" → no_slash uttid →
  PyStr.stem (clip_path target_dir uttid) = uttid.
Proof.
  intros Hne Hslash. unfold clip_path. fold (utt_dir target_dir uttid).
  rewrite utt_path by discriminate. unfold PyStr.stem.
  rewrite !chars_app. change (PyStr.chars "/") with ["/"%char].
  cbn [app]. rewrite name_chars_after_slash.
  change (PyStr.chars ".wav") with ("."%char :: PyStr.chars "wav").
  rewrite name_chars_no_slash.
  2:{ intros H. apply in_app_iff in H. destruct H as [H|H]; [exact (Hslash H)|].
      cbn in H. repeat destruct H as [H|H]; try discriminate H. exact H. }
  cbn [rev app]. rewrite rfind_dot_last.
  2:{ cbn. intros H. repeat destruct H as [H|H]; try discriminate H. exact H. }
  assert (Hlen : (0 < length (PyStr.chars uttid))%nat).
  { destruct uttid; [contradiction | cbn; lia]. }
  destruct (Nat.ltb_spec 0 (length (PyStr.chars uttid))); [|lia].
  rewrite length_app.
  change (length ("."%char :: PyStr.chars "wav")) with 4%nat.
  destruct (Nat.ltb_spec (length (PyStr.chars uttid))
              (length (PyStr.chars uttid) + 4 - 1)); [|lia].
  cbn [andb]. rewrite take_app_length. apply join_chars.
Qed.

Lemma str_app_assoc (a b c : string) : (a +:+ b) +:+ c = a +:+ b +:+ c.
Proof.
  rewrite <- (join_chars ((a +:+ b) +:+ c)), <- (join_chars (a +:+ b +:+ c)).
  rewrite !chars_app, app_assoc. reflexivity.
Qed.

Lemma str_app_assoc3 (a b c d : string) :
  (a +:+ b +:+ c) +:+ d = a +:+ b +:+ c +:+ d.
Proof. rewrite !str_app_assoc. reflexivity. Qed.

(** When [wav] occurs in a path only as its extension, replacing it
    changes the extension alone. *)
Lemma replace_wav_extension base new :
  PyText.occurs "wav" (base +:+ ".wa") = false →
  PyStr.replace "wav" new (base +:+ ".wav") = base +:+ "." +:+ new.
Proof.
  intros Hocc. unfold PyStr.replace. rewrite chars_app.
  change (PyStr.chars ".wav") with (["."%char] ++ PyStr.chars "wav")%list.
  rewrite app_assoc.
  change (PyStr.chars "wav") with ("w"%char :: PyStr.chars "av").
  rewrite replace_chars_suffix.
  - rewrite <- app_assoc, !join_app, !join_chars. reflexivity.
  - unfold PyText.occurs in Hocc. rewrite chars_app in Hocc.
    rewrite <- app_assoc. exact Hocc.
Qed.

(** X14: [reconstruct_manifest] pairs a wave file with its siblings when
    [wav] occurs in its path only as the extension. For such a file
    [base.wav] the step is skipped when [base.txt] or [base.phn] is
    missing, and otherwise writes the line of the utterance with the paths
    [base.phn] and [base.txt], in the manifest its code selects. *)
Theorem reconstruct_manifest_siblings fs base o :
  PyText.occurs "wav" (base +:+ ".wa") = false →
  (path_exists fs (base +:+ ".txt") = false ∨
   path_exists fs (base +:+ ".phn") = false →
   reconstruct_manifest_body fs tt (base +:+ ".wav") o = (o, Ok tt)) ∧
  (∀ samples num_frms c,
     path_exists fs (base +:+ ".txt") = true →
     path_exists fs (base +:+ ".phn") = true →
     fs_nframes fs (base +:+ ".wav") = Ok samples →
     fs_num_lines fs (base +:+ ".phn") = Ok num_frms →
     code_of (PyStr.stem (base +:+ ".wav")) = Ok c →
     reconstruct_manifest_body fs tt (base +:+ ".wav") o
     = (emit (split_of_code c)
          (csv_line (PyStr.stem (base +:+ ".wav")) (base +:+ ".wav") samples
             (base +:+ ".phn") num_frms (base +:+ ".txt")) o, Ok tt)).
Proof.
  intros Hocc.
  pose proof (replace_wav_extension base "txt" Hocc) as Htxt.
  pose proof (replace_wav_extension base "phn" Hocc) as Hphn.
  change (base +:+ "." +:+ "txt") with (base +:+ ".txt") in Htxt.
  change (base +:+ "." +:+ "phn") with (base +:+ ".phn") in Hphn.
  split.
  - intros H. apply reconstruct_manifest_body_skip. rewrite Htxt, Hphn. exact H.
  - intros samples num_frms c Ht Hp Hn Hl Hc.
    rewrite (reconstruct_manifest_body_written fs _ o samples num_frms c);
      rewrite ?Htxt, ?Hphn; auto.
Qed.

Lemma reconstruct_manifest_siblings_witness :
  reconstruct_manifest_body (sibling_fs "/corpus/clips") tt
    ("/corpus/clips/000/fsh_0_00030_A" +:+ ".wav") empty_csv
  = (emit (split_of_code 30)
       (csv_line (PyStr.stem ("/corpus/clips/000/fsh_0_00030_A" +:+ ".wav"))
          ("/corpus/clips/000/fsh_0_00030_A" +:+ ".wav") 24000
          ("/corpus/clips/000/fsh_0_00030_A" +:+ ".phn") 3
          ("/corpus/clips/000/fsh_0_00030_A" +:+ ".txt")) empty_csv, Ok tt) ∧
  reconstruct_manifest_body lone_fs tt
    ("/corpus/clips/000/fsh_0_00030_A" +:+ ".wav") empty_csv
  = (empty_csv, Ok tt).
Proof.
  split.
  - exact (proj2 (reconstruct_manifest_siblings (sibling_fs "/corpus/clips")
                    "/corpus/clips/000/fsh_0_00030_A" empty_csv eq_refl)
             24000 3 30 eq_refl eq_refl eq_refl eq_refl eq_refl).
  - exact (proj1 (reconstruct_manifest_siblings lone_fs
                    "/corpus/clips/000/fsh_0_00030_A" empty_csv eq_refl)
             (or_introl eq_refl)).
Defined.

Lemma reconstruct_manifest_body_bad_code fs wav_file o samples num_frms e :
  path_exists fs (PyStr.replace "wav" "txt" wav_file) = true →
  path_exists fs (PyStr.replace "wav" "phn" wav_file) = true →
  fs_nframes fs wav_file = Ok samples →
  fs_num_lines fs (PyStr.replace "wav" "phn" wav_file) = Ok num_frms →
  code_of (PyStr.stem wav_file) = Raise e →
  reconstruct_manifest_body fs tt wav_file o = (o, Raise e).
Proof.
  intros Ht Hp Hn Hl Hc. unfold reconstruct_manifest_body.
  rewrite Ht, Hp. cbn [negb orb]. unfold_stx.
  rewrite Hn, Hl. unfold code_of in Hc. rewrite Hc. reflexivity.
Qed.

(** X15: both manifest writers give an utterance the same line. For an
    utterance whose clip, text and label files were written under one
    target directory (its id not empty and without a path separator, and
    [wav] occurring in the clip path only as the extension),
    [reconstruct_manifest] on the clip file does exactly what
    [prepare_data] does on the utterance's manifest entries, provided the
    frame and line counts it reads from the files are those of the
    manifests. *)
Theorem manifest_writers_agree fs wav txt phn target_dir uttid samples num_frms
    text phones o :
  uttid ≠ "" → no_slash uttid →
  PyText.occurs "wav" (utt_dir target_dir uttid +:+ "/" +:+ uttid +:+ ".wa") = false →
  dict_get txt uttid = Some (txt_path target_dir uttid, text) →
  dict_get phn uttid = Some (phn_path target_dir uttid, num_frms, phones) →
  path_exists fs (txt_path target_dir uttid) = true →
  path_exists fs (phn_path target_dir uttid) = true →
  fs_nframes fs (clip_path target_dir uttid) = Ok samples →
  fs_num_lines fs (phn_path target_dir uttid) = Ok num_frms →
  reconstruct_manifest_body fs tt (clip_path target_dir uttid) o
  = prepare_data_body {| train_wav_manifest := wav; phn_manifest := Some phn |}
      txt tt (uttid, (clip_path target_dir uttid, samples)) o.
Proof.
  intros Hne Hslash Hocc Ht Hp Het Hep Hn Hl.
  assert (Hclip : clip_path target_dir uttid
                  = (utt_dir target_dir uttid +:+ "/" +:+ uttid) +:+ ".wav").
  { unfold clip_path. fold (utt_dir target_dir uttid).
    rewrite utt_path by discriminate. symmetry. apply str_app_assoc3. }
  assert (Happ : ∀ ext, (utt_dir target_dir uttid +:+ "/" +:+ uttid) +:+ ext
                        = utt_dir target_dir uttid +:+ "/" +:+ uttid +:+ ext).
  { intros ext. apply str_app_assoc3. }
  assert (Htxt : PyStr.replace "wav" "txt" (clip_path target_dir uttid)
                 = txt_path target_dir uttid).
  { rewrite Hclip, replace_wav_extension by (rewrite Happ; exact Hocc).
    unfold txt_path. fold (utt_dir target_dir uttid).
    rewrite utt_path by discriminate. apply (Happ ".txt"). }
  assert (Hphn : PyStr.replace "wav" "phn" (clip_path target_dir uttid)
                 = phn_path target_dir uttid).
  { rewrite Hclip, replace_wav_extension by (rewrite Happ; exact Hocc).
    unfold phn_path. fold (utt_dir target_dir uttid).
    rewrite utt_path by discriminate. apply (Happ ".phn"). }
  pose proof (stem_clip_path target_dir uttid Hne Hslash) as Hstem.
  destruct (code_of uttid) as [c|e] eqn:Hc.
  - rewrite (prepare_data_body_joined _ _ _ _ _ _ _ _ _ _ _ _ c Ht Hp Hc).
    rewrite (reconstruct_manifest_body_written fs _ o samples num_frms c);
      rewrite ?Htxt, ?Hphn, ?Hstem; auto.
  - rewrite (prepare_data_body_bad_code _ _ _ _ _ _ e); auto;
      [|apply dict_mem_get; eauto..].
    apply (reconstruct_manifest_body_bad_code fs _ o samples num_frms e);
      rewrite ?Htxt, ?Hphn, ?Hstem; auto.
Qed.

Lemma manifest_writers_agree_witness :
  reconstruct_manifest_body (sibling_fs "/data") tt (clip_path "/data" id_A)
    empty_csv
  = prepare_data_body
      {| train_wav_manifest := None; phn_manifest := Some example_align |}
      example_text tt (id_A, (clip_path "/data" id_A, 24000)) empty_csv.
Proof.
  apply (manifest_writers_agree (sibling_fs "/data") None example_text
           example_align "/data" id_A 24000 3 "hello world " [1; 1; 2]%Z
           empty_csv); try reflexivity.
  - discriminate.
  - unfold no_slash. cbn. intros H.
    repeat destruct H as [H|H]; try discriminate H. exact H.
Defined.

Lemma reconstruct_manifest_body_row fs wav_file o :
  readable fs wav_file →
  reconstruct_manifest_body fs tt wav_file o
  = (match reconstructed_row fs wav_file with
     | Some r => {| f1 := f1 o ++ map row_line (List.filter is_train_row [r]);
                    f2 := f2 o ++ map row_line (List.filter is_dev_row [r]) |}
     | None => o
     end, Ok tt).
Proof.
  intros Hread. unfold readable, has_companions in Hread.
  unfold reconstructed_row.
  destruct (path_exists fs (PyStr.replace "wav" "txt" wav_file)) eqn:Et.
  2:{ cbn [andb]. apply reconstruct_manifest_body_skip. left. exact Et. }
  destruct (path_exists fs (PyStr.replace "wav" "phn" wav_file)) eqn:Ep.
  2:{ cbn [andb]. apply reconstruct_manifest_body_skip. right. exact Ep. }
  cbn [andb] in *. destruct (Hread eq_refl) as (Hn & Hl & Hc).
  destruct (fs_nframes fs wav_file) as [samples|] eqn:En; [|discriminate Hn].
  destruct (fs_num_lines fs _) as [num_frms|] eqn:El; [|discriminate Hl].
  destruct (code_of (PyStr.stem wav_file)) as [c|] eqn:Ec; [|discriminate Hc].
  rewrite (reconstruct_manifest_body_written fs _ o samples num_frms c) by auto.
  cbn [List.filter]. unfold is_train_row, is_dev_row, row_split.
  cbn [row_id]. rewrite Ec. rewrite emit_train_dev.
  destruct (split_of_code c); cbn [map row_line]; reflexivity.
Qed.

Lemma reconstruct_manifest_loop fs files o :
  (∀ f, In f files → readable fs f) →
  for_each (reconstruct_manifest_body fs) files tt o
  = ({| f1 := f1 o ++ f1 (csv_of_rows (omap (reconstructed_row fs) files));
        f2 := f2 o ++ f2 (csv_of_rows (omap (reconstructed_row fs) files)) |},
     Ok tt).
Proof.
  revert o. induction files as [|f files IH]; intros o Hread.
  - cbn. unfold mret, stx_ret. rewrite !app_nil_r. destruct o; reflexivity.
  - cbn [for_each]. unfold mbind at 1, stx_bind at 1.
    rewrite reconstruct_manifest_body_row by (apply Hread; left; reflexivity).
    destruct tt. rewrite IH by (intros f0 Hin; apply Hread; right; exact Hin).
    cbn [omap list_omap]. unfold csv_of_rows.
    destruct (reconstructed_row fs f) as [r|]; [|reflexivity].
    cbn [f1 f2 List.filter].
    destruct (is_train_row r), (is_dev_row r); cbn [map app];
      rewrite <- ?app_assoc, ?app_nil_r; reflexivity.
Qed.

Lemma reconstruct_manifest_body_failure fs wav_file o e :
  first_failure fs wav_file = Some e →
  reconstruct_manifest_body fs tt wav_file o = (o, Raise e).
Proof.
  unfold first_failure, has_companions, reconstruct_manifest_body.
  destruct (path_exists fs (PyStr.replace "wav" "txt" wav_file));
    [|discriminate].
  destruct (path_exists fs (PyStr.replace "wav" "phn" wav_file));
    [|discriminate].
  cbn [andb negb orb]. unfold_stx. unfold code_of.
  destruct (fs_nframes fs wav_file); [|intros [= ->]; reflexivity].
  destruct (fs_num_lines fs _); [|intros [= ->]; reflexivity].
  destruct (PyStr.int _); [discriminate | intros [= ->]; reflexivity].
Qed.

Lemma reconstructed_row_companions fs f r :
  reconstructed_row fs f = Some r →
  has_companions fs f = true ∧
  ∃ samples num_frms,
    fs_nframes fs f = Ok samples ∧
    fs_num_lines fs (PyStr.replace "wav" "phn" f) = Ok num_frms ∧
    r = (PyStr.stem f, f, samples, PyStr.replace "wav" "phn" f, num_frms,
         PyStr.replace "wav" "txt" f).
Proof.
  unfold reconstructed_row, has_companions.
  destruct (_ && _); [|discriminate].
  destruct (fs_nframes fs f) as [samples|]; [|discriminate].
  destruct (fs_num_lines fs _) as [num_frms|]; [|discriminate].
  intros [= <-]. split; [reflexivity|]. exists samples, num_frms. auto.
Qed.

(** X16: a run of [reconstruct_manifest] in which every read succeeds
    leaves the two manifests holding one line for each wave file under the
    target directory whose derived text and label paths both exist, in the
    order of the search, the train lines in [train.csv] and the dev lines in
    [dev.csv]; a wave file without the two companions contributes nothing.
    Each line carries the stem of the file, its frame count and the line
    count of its label file. *)
Theorem reconstruct_manifest_lines fs target_dir (st : store) :
  (∀ f, In f (glob_wav fs target_dir) → readable fs f) →
  reconstruct_manifest fs target_dir st
  = (close_csv target_dir
       (csv_of_rows (omap (reconstructed_row fs) (glob_wav fs target_dir))) st,
     Ok tt) ∧
  (∀ r, In r (omap (reconstructed_row fs) (glob_wav fs target_dir)) ↔
        ∃ f samples num_frms,
          In f (glob_wav fs target_dir) ∧ has_companions fs f = true ∧
          fs_nframes fs f = Ok samples ∧
          fs_num_lines fs (PyStr.replace "wav" "phn" f) = Ok num_frms ∧
          r = (PyStr.stem f, f, samples, PyStr.replace "wav" "phn" f, num_frms,
               PyStr.replace "wav" "txt" f)).
Proof.
  intros Hread. split.
  - unfold reconstruct_manifest, with_csv.
    rewrite reconstruct_manifest_loop by exact Hread. reflexivity.
  - intros r. rewrite <- list_elem_of_In, list_elem_of_omap. split.
    + intros (f & Hin & Hrow). apply list_elem_of_In in Hin.
      destruct (reconstructed_row_companions _ _ _ Hrow)
        as (Hc & samples & num_frms & Hn & Hl & ->).
      exists f, samples, num_frms. auto.
    + intros (f & samples & num_frms & Hin & Hc & Hn & Hl & ->).
      exists f. split; [apply list_elem_of_In; exact Hin|].
      unfold reconstructed_row. unfold has_companions in Hc.
      rewrite Hc, Hn, Hl. reflexivity.
Qed.

Lemma reconstruct_manifest_lines_witness :
  reconstruct_manifest partial_fs "/corpus/clips" ∅
  = (close_csv "/corpus/clips"
       (csv_of_rows (omap (reconstructed_row partial_fs)
                       (glob_wav partial_fs "/corpus/clips"))) ∅,
     Ok tt) ∧
  csv_of_rows (omap (reconstructed_row partial_fs)
                 (glob_wav partial_fs "/corpus/clips"))
  = {| f1 := [csv_line "fsh_0_00100_B" "/corpus/clips/001/fsh_0_00100_B.wav"
                24000 "/corpus/clips/001/fsh_0_00100_B.phn" 3
                "/corpus/clips/001/fsh_0_00100_B.txt"];
       f2 := [csv_line "fsh_0_00030_A" "/corpus/clips/000/fsh_0_00030_A.wav"
                24000 "/corpus/clips/000/fsh_0_00030_A.phn" 3
                "/corpus/clips/000/fsh_0_00030_A.txt"] |}.
Proof.
  split; [|vm_compute; reflexivity].
  refine (proj1 (reconstruct_manifest_lines partial_fs "/corpus/clips" ∅ _)).
  intros f Hin.
  change (In f ["/corpus/clips/000/fsh_0_00030_A.wav";
                "/corpus/clips/002/fsh_0_00200_A.wav";
                "/corpus/clips/001/fsh_0_00100_B.wav"]) in Hin.
  destruct Hin as [<-|[<-|[<-|[]]]]; intros _; vm_compute; auto.
Defined.

(** X17: the first read that fails ends [reconstruct_manifest]. When the
    files before a wave file are all read and one of its own reads raises
    (the frame count, the line count of its label file or the code of its
    stem, tried in that order), the run raises that exception; both
    manifests are still written, with the lines of the files before it and
    nothing of the files after it. *)
Theorem reconstruct_manifest_stops fs target_dir before f after e (st : store) :
  glob_wav fs target_dir = (before ++ f :: after)%list →
  (∀ f0, In f0 before → readable fs f0) →
  first_failure fs f = Some e →
  reconstruct_manifest fs target_dir st
  = (close_csv target_dir (csv_of_rows (omap (reconstructed_row fs) before)) st,
     Raise e).
Proof.
  intros Hglob Hread Hfail. unfold reconstruct_manifest, with_csv.
  rewrite Hglob, for_each_app, reconstruct_manifest_loop by exact Hread.
  cbn [for_each]. unfold mbind, stx_bind.
  rewrite (reconstruct_manifest_body_failure _ _ _ e Hfail). reflexivity.
Qed.

Lemma reconstruct_manifest_stops_witness :
  reconstruct_manifest odd_name_fs "/corpus/clips" ∅
  = (close_csv "/corpus/clips"
       (csv_of_rows (omap (reconstructed_row odd_name_fs)
                       ["/corpus/clips/000/fsh_0_00030_A.wav"])) ∅,
     Raise ValueError).
Proof.
  refine (reconstruct_manifest_stops odd_name_fs "/corpus/clips"
            ["/corpus/clips/000/fsh_0_00030_A.wav"]
            "/corpus/clips/misc/notes.wav"
            ["/corpus/clips/001/fsh_0_00100_B.wav"] ValueError ∅ _ _ _).
  - vm_compute. reflexivity.
  - intros f0 [<-|[]]. intros _. vm_compute. auto.
  - vm_compute. reflexivity.
Defined.

(** ** Frame arithmetic, continued *)





(** ** Loading a manifest, continued *)

Lemma filter_res_spec {A} (f : A → pyres bool) l kept :
  filter_res f l = Ok kept →
  sublist kept l ∧ Forall (fun x => f x = Ok true) kept.
Proof.
  revert kept. induction l as [|x l IH]; intros kept H; cbn [filter_res] in H.
  - injection H as <-. split; constructor.
  - destruct (f x) as [b|] eqn:Ef; [|discriminate H].
    cbn [mbind pyres_bind] in H.
    destruct (filter_res f l) as [ys|]; [|discriminate H].
    cbn [mbind pyres_bind] in H. injection H as <-.
    destruct (IH ys eq_refl) as [Hsub Hall].
    destruct b; split.
    + apply sublist_skip, Hsub.
    + constructor; assumption.
    + apply sublist_cons, Hsub.
    + exact Hall.
Qed.

Lemma filter_res_all {A} (f : A → pyres bool) l :
  Forall (fun x => f x = Ok true) l → filter_res f l = Ok l.
Proof.
  induction 1 as [|x l Hx _ IH]; cbn [filter_res]; [reflexivity|].
  rewrite Hx, IH. reflexivity.
Qed.

Lemma map_res_Forall2 {A B} (f : A → pyres B) l ys :
  map_res f l = Ok ys → Forall2 (fun x y => f x = Ok y) l ys.
Proof.
  revert ys. induction l as [|x l IH]; intros ys H; cbn [map_res] in H.
  - injection H as <-. constructor.
  - destruct (f x) as [y|] eqn:Ef; [|discriminate H].
    cbn [mbind pyres_bind] in H.
    destruct (map_res f l) as [ys'|]; [|discriminate H].
    cbn [mbind pyres_bind] in H. injection H as <-.
    constructor; [exact Ef | apply IH; reflexivity].
Qed.

Lemma map_res_total {A B} (f : A → pyres B) l :
  Forall (fun x => is_ok (f x) = true) l → ∃ ys, map_res f l = Ok ys.
Proof.
  induction 1 as [|x l Hx _ [ys IH]]; cbn [map_res]; [eexists; reflexivity|].
  destruct (f x) as [y|]; [|discriminate Hx]. rewrite IH.
  eexists; reflexivity.
Qed.

Lemma random_sample_inv {A} draws (population : list A) k l :
  random_sample draws population k = Ok l →
  k = PyInt (Z.of_nat (length l)) ∧ ∃ rest, population ≡ₚ l ++ rest.
Proof.
  destruct k as [k|q]; [|discriminate]. cbn [random_sample].
  destruct (Z.ltb_spec k 0); [discriminate|].
  destruct (Z.ltb_spec (Z.of_nat (length population)) k); [discriminate|].
  cbn [orb]. intros [= <-].
  destruct (sample_from_spec draws 0 population (Z.to_nat k)) as [Hlen Hp];
    [lia|].
  split; [f_equal; lia | exact Hp].
Qed.

Lemma long_enough_true p e :
  long_enough p e = Ok true →
  ∃ s n fr, field e 2 = Ok s ∧ PyStr.int s = Ok n ∧
            _samples2frames p n = Ok fr ∧ 100 < fr.
Proof.
  unfold long_enough. destruct (field e 2) as [s|] eqn:Ef; [|discriminate].
  cbn [mbind pyres_bind]. destruct (PyStr.int s) as [n|] eqn:En; [|discriminate].
  cbn [mbind pyres_bind].
  destruct (_samples2frames p n) as [fr|] eqn:Er; [|discriminate].
  cbn [mbind pyres_bind]. intros [= H]. apply Z.ltb_lt in H.
  exists s, n, fr. auto.
Qed.

Lemma py_min_int_inv a n k :
  py_min a (PyInt n) = PyInt k →
  (a = PyInt k ∧ k <= n) ∨ (k = n ∧ (inject_Z n < num_value a)%Q).
Proof.
  unfold py_min. cbn [num_value].
  destruct (Qle_bool (num_value a) (inject_Z n)) eqn:E.
  - intros ->. left. split; [reflexivity|].
    apply Qle_bool_iff in E. cbn [num_value] in E.
    rewrite <- Zle_Qle in E. exact E.
  - intros [= <-]. right. split; [reflexivity|].
    apply Qnot_le_lt. intros C. apply Qle_bool_iff in C. congruence.
Qed.

Lemma load_manifest_frames p mode_ chosen fs :
  Forall (fun e => long_enough p e = Ok true) chosen →
  (if String.eqb mode_ "train_unsup"
   then map_res (fun e => s ← field e 2; n ← PyStr.int s;
                          _samples2frames p n) chosen
   else map_res (fun e => s ← field e 4; PyStr.int s) chosen) = Ok fs →
  Forall2 (frames_of p mode_) chosen fs.
Proof.
  unfold frames_of. destruct (String.eqb mode_ "train_unsup"); intros Hc Em.
  - apply map_res_Forall2 in Em.
    induction Em as [|e f es fs He _ IH]; constructor.
    + apply Forall_cons in Hc as [H1 _].
      destruct (long_enough_true _ _ H1) as (s & n & fr & Hf & Hn & Hfr & Hgt).
      rewrite Hf in He. cbn [mbind pyres_bind] in He.
      rewrite Hn in He. cbn [mbind pyres_bind] in He.
      exists s, n. rewrite <- He. rewrite Hfr in He. injection He as <-.
      auto.
    + apply IH. apply Forall_cons in Hc as [_ H2]. exact H2.
  - apply map_res_Forall2 in Em.
    induction Em as [|e f es fs He _ IH]; constructor.
    + destruct (field e 4) as [s|]; [|discriminate He]. exists s. auto.
    + apply IH. apply Forall_cons in Hc as [_ H2]. exact H2.
Qed.

(** X19: what [_load_manifest] returns. Whenever it returns, the entries
    are parsed lines of the file taken at distinct positions, each with
    more than 100 frames; there are no more of them than [data_size] and
    than the lines of the file, and as many as one of the two; and
    [entry_frames] gives, entry by entry, the frame count derived from
    the sample count in the mode [train_unsup] (so above 100) and the number
    in the fifth field in the other modes. *)
Theorem load_manifest_result p mode_ data_size draws manifest entries frames :
  _load_manifest p mode_ data_size draws (Some manifest) = Ok (entries, frames) →
  (∃ rest, parse_manifest manifest ≡ₚ entries ++ rest) ∧
  Forall (fun e => long_enough p e = Ok true) entries ∧
  (inject_Z (Z.of_nat (length entries)) <= num_value data_size)%Q ∧
  (length entries <= length manifest)%nat ∧
  (data_size = PyInt (Z.of_nat (length entries)) ∨
   length entries = length manifest) ∧
  Forall2 (frames_of p mode_) entries frames.
Proof.
  unfold _load_manifest. fold (parse_manifest manifest). fold (long_enough p).
  destruct (filter_res (long_enough p) (parse_manifest manifest)) as [kept|] eqn:Ek;
    [|discriminate].
  cbn [mbind pyres_bind].
  destruct (random_sample draws kept _) as [chosen|] eqn:Es; [|discriminate].
  cbn [mbind pyres_bind]. intros Hrun.
  destruct (filter_res_spec _ _ _ Ek) as [Hsub Hall].
  destruct (random_sample_inv _ _ _ _ Es) as [Hsize [rest Hperm]].
  assert (Hchosen : Forall (fun e => long_enough p e = Ok true) chosen).
  { rewrite Hperm in Hall. apply Forall_app in Hall. apply Hall. }
  assert (Hentries : entries = chosen).
  { destruct (String.eqb mode_ "train_unsup");
      destruct (map_res _ chosen); try discriminate Hrun;
      cbn [mbind pyres_bind] in Hrun; congruence. }
  subst entries.
  assert (Hlen : (length kept <= length manifest)%nat).
  { apply sublist_length in Hsub. unfold parse_manifest in Hsub.
    rewrite length_map in Hsub. exact Hsub. }
  assert (Hle : (length chosen <= length kept)%nat).
  { rewrite (Permutation_length Hperm), length_app. lia. }
  split.
  { apply sublist_submseteq, submseteq_Permutation in Hsub as [dropped Hd].
    exists (rest ++ dropped)%list. rewrite Hd, Hperm, app_assoc. reflexivity. }
  split; [exact Hchosen|].
  assert (Hframes : Forall2 (frames_of p mode_) chosen frames).
  { apply load_manifest_frames; [exact Hchosen|].
    destruct (String.eqb mode_ "train_unsup");
      destruct (map_res _ chosen); try discriminate Hrun;
      cbn [mbind pyres_bind] in Hrun; congruence. }
  apply py_min_int_inv in Hsize as [[-> Hk]|[Hk Hlt]].
  - split; [cbn [num_value]; apply Qle_refl|].
    split; [lia|]. split; [left; reflexivity | exact Hframes].
  - assert (Hn : length chosen = length manifest) by lia.
    split; [rewrite Hn; apply Qlt_le_weak, Hlt|].
    split; [lia|]. split; [right; exact Hn | exact Hframes].
Qed.

Lemma load_manifest_result_witness :
  (∃ rest,
     parse_manifest [example_line 16000; example_line 24000; example_line 2000]
     ≡ₚ [PyStr.split ","%char (PyStr.strip (example_line 24000))] ++ rest) ∧
  Forall (fun e => long_enough example_params e = Ok true)
    [PyStr.split ","%char (PyStr.strip (example_line 24000))] ∧
  (inject_Z (Z.of_nat (length [PyStr.split ","%char
                                 (PyStr.strip (example_line 24000))]))
   <= num_value (PyInt 1))%Q ∧
  (length [PyStr.split ","%char (PyStr.strip (example_line 24000))]
   <= length [example_line 16000; example_line 24000; example_line 2000])%nat ∧
  (PyInt 1 = PyInt (Z.of_nat (length [PyStr.split ","%char
                                        (PyStr.strip (example_line 24000))])) ∨
   length [PyStr.split ","%char (PyStr.strip (example_line 24000))]
   = length [example_line 16000; example_line 24000; example_line 2000]) ∧
  Forall2 (frames_of example_params "train")
    [PyStr.split ","%char (PyStr.strip (example_line 24000))] [5].
Proof.
  apply (load_manifest_result example_params "train" (PyInt 1) (fun i => S i)
           [example_line 16000; example_line 24000; example_line 2000]).
  vm_compute. reflexivity.
Defined.

Lemma long_enough_frames p e :
  long_enough p e = Ok true →
  is_ok (s ← field e 2; n ← PyStr.int s; _samples2frames p n) = true.
Proof.
  intros H. destruct (long_enough_true _ _ H) as (s & n & fr & -> & Hn & Hfr & _).
  cbn [mbind pyres_bind]. rewrite Hn. cbn [mbind pyres_bind]. rewrite Hfr.
  reflexivity.
Qed.

Lemma load_manifest_sampled p mode_ data_size draws manifest k :
  Forall (fun e => long_enough p e = Ok true) (parse_manifest manifest) →
  (mode_ ≠ "train_unsup" → Forall labelled (parse_manifest manifest)) →
  py_min data_size (PyInt (Z.of_nat (length manifest))) = PyInt k →
  0 <= k <= Z.of_nat (length manifest) →
  ∃ entries frames,
    _load_manifest p mode_ data_size draws (Some manifest) = Ok (entries, frames) ∧
    Z.of_nat (length entries) = k.
Proof.
  intros Hall Hlab Hsize Hk. unfold _load_manifest.
  fold (parse_manifest manifest). fold (long_enough p).
  rewrite (filter_res_all _ _ Hall). cbn [mbind pyres_bind]. rewrite Hsize.
  destruct (random_sample_spec draws (parse_manifest manifest) k)
    as (chosen & rest & -> & Hlen & Hperm).
  { unfold parse_manifest. rewrite length_map. exact Hk. }
  cbn [mbind pyres_bind].
  assert (Hc : Forall (fun e => long_enough p e = Ok true) chosen).
  { rewrite Hperm in Hall. apply Forall_app in Hall. apply Hall. }
  destruct (String.eqb_spec mode_ "train_unsup") as [_|Hm].
  - destruct (map_res_total
                (fun e => s ← field e 2; n ← PyStr.int s; _samples2frames p n)
                chosen) as [fs ->].
    { eapply Forall_impl; [exact Hc|]. intros e. apply long_enough_frames. }
    exists chosen, fs. split; [reflexivity | exact Hlen].
  - destruct (map_res_total (fun e => s ← field e 4; PyStr.int s) chosen)
      as [fs ->].
    { specialize (Hlab Hm). rewrite Hperm in Hlab.
      apply Forall_app in Hlab. apply Hlab. }
    exists chosen, fs. split; [reflexivity | exact Hlen].
Qed.

(** X20: when [_load_manifest] returns. For a manifest every line of
    which has more than 100 frames (and, outside the mode [train_unsup], a
    number in its fifth field), loading returns for every integer
    [data_size] that is not negative, with [min(data_size, lines)] entries,
    and for the default [data_size] with all the lines. *)
Theorem load_manifest_returns p mode_ draws manifest :
  Forall (fun e => long_enough p e = Ok true) (parse_manifest manifest) →
  (mode_ ≠ "train_unsup" → Forall labelled (parse_manifest manifest)) →
  (∀ d, 0 <= d →
     ∃ entries frames,
       _load_manifest p mode_ (PyInt d) draws (Some manifest)
       = Ok (entries, frames) ∧
       Z.of_nat (length entries) = Z.min d (Z.of_nat (length manifest))) ∧
  (Z.of_nat (length manifest) < 10 ^ 30 →
   ∃ entries frames,
     _load_manifest p mode_ default_data_size draws (Some manifest)
     = Ok (entries, frames) ∧
     entries ≡ₚ parse_manifest manifest).
Proof.
  intros Hall Hlab. split.
  - intros d Hd.
    apply load_manifest_sampled; [exact Hall | exact Hlab | | lia].
    unfold py_min. cbn [num_value].
    destruct (Qle_bool (inject_Z d) (inject_Z (Z.of_nat (length manifest)))) eqn:E.
    + apply Qle_bool_iff in E. rewrite <- Zle_Qle in E. f_equal. lia.
    + f_equal. destruct (Z.le_gt_cases d (Z.of_nat (length manifest))) as [C|C];
        [|lia].
      rewrite Zle_Qle in C. apply Qle_bool_iff in C. congruence.
  - intros Hn.
    destruct (load_manifest_sampled p mode_ default_data_size draws manifest
                (Z.of_nat (length manifest)) Hall Hlab)
      as (entries & frames & Hrun & Hlen); [|lia|].
    { unfold py_min, default_data_size. cbn [num_value].
      destruct (Qle_bool (inject_Z (10 ^ 30))
                  (inject_Z (Z.of_nat (length manifest)))) eqn:E; [|reflexivity].
      apply Qle_bool_iff in E. rewrite <- Zle_Qle in E. lia. }
    exists entries, frames. split; [exact Hrun|].
    revert Hrun. unfold _load_manifest.
    fold (parse_manifest manifest). fold (long_enough p).
    rewrite (filter_res_all _ _ Hall). cbn [mbind pyres_bind].
    destruct (random_sample draws _ _) as [chosen|] eqn:Es; [|discriminate].
    cbn [mbind pyres_bind]. intros Hrun.
    assert (entries = chosen) as ->.
    { destruct (String.eqb mode_ "train_unsup");
        destruct (map_res _ chosen); try discriminate Hrun;
        cbn [mbind pyres_bind] in Hrun; congruence. }
    destruct (random_sample_inv _ _ _ _ Es) as [_ [rest Hperm]].
    assert (rest = []) as ->.
    { pose proof (Permutation_length Hperm) as Hl.
      rewrite length_app in Hl. unfold parse_manifest in Hl.
      rewrite length_map in Hl. destruct rest; [reflexivity|].
      cbn [length] in Hl. lia. }
    rewrite app_nil_r in Hperm. symmetry. exact Hperm.
Qed.

Lemma load_manifest_returns_witness :
  (∃ entries frames,
     _load_manifest example_params "train" (PyInt 1) (fun i => i)
       (Some [example_line 16000; example_line 24000])
     = Ok (entries, frames) ∧
     Z.of_nat (length entries)
     = Z.min 1 (Z.of_nat (length [example_line 16000; example_line 24000]))) ∧
  (∃ entries frames,
     _load_manifest example_params "train" default_data_size (fun i => i)
       (Some [example_line 16000; example_line 24000])
     = Ok (entries, frames) ∧
     entries ≡ₚ parse_manifest [example_line 16000; example_line 24000]).
Proof.
  assert (Hall : Forall (fun e => long_enough example_params e = Ok true)
                   (parse_manifest [example_line 16000; example_line 24000])).
  { repeat constructor. }
  assert (Hlab : "train" ≠ "train_unsup" →
                 Forall labelled
                   (parse_manifest [example_line 16000; example_line 24000])).
  { intros _. repeat constructor. }
  destruct (load_manifest_returns example_params "train" (fun i => i)
              [example_line 16000; example_line 24000] Hall Hlab) as [H1 H2].
  split; [apply H1; lia | apply H2; cbn; lia].
Defined.

(** ** The dataset view, continued *)

Lemma list_index_bounds {A} (l : list A) i x :
  list_index l i = Ok x → - Z.of_nat (length l) <= i < Z.of_nat (length l).
Proof.
  unfold list_index.
  destruct (Z.ltb_spec i 0);
    destruct (Z.ltb_spec (i + Z.of_nat (length l)) 0);
    destruct (Z.ltb_spec i 0);
    destruct (Z.leb_spec (Z.of_nat (length l)) i);
    destruct (Z.leb_spec (Z.of_nat (length l)) (i + Z.of_nat (length l)));
    cbn [orb]; try discriminate; try lia.
Qed.

Lemma list_index_out_of_range {A} (l : list A) i :
  i < - Z.of_nat (length l) ∨ Z.of_nat (length l) <= i →
  list_index l i = Raise IndexError.
Proof.
  intros H. destruct (list_index l i) as [x|e] eqn:E.
  - apply list_index_bounds in E. lia.
  - revert E. unfold list_index. destruct (_ || _); [congruence|].
    destruct (l !! _); [discriminate | congruence].
Qed.

Lemma list_index_negative {A} (l : list A) i :
  - Z.of_nat (length l) <= i < 0 →
  list_index l i = list_index l (i + Z.of_nat (length l)).
Proof.
  intros H. unfold list_index. cbv zeta.
  destruct (Z.ltb_spec i 0); [|lia].
  destruct (Z.ltb_spec (i + Z.of_nat (length l)) 0); [lia|].
  destruct (Z.ltb_spec (i + Z.of_nat (length l)) 0); [lia | reflexivity].
Qed.

Lemma list_index_in_range {A} (l : list A) i :
  - Z.of_nat (length l) <= i < Z.of_nat (length l) →
  ∃ x, list_index l i = Ok x ∧ In x l.
Proof.
  intros H. unfold list_index.
  set (j := if i <? 0 then i + Z.of_nat (length l) else i).
  assert (Hj : 0 <= j < Z.of_nat (length l))
    by (unfold j; destruct (Z.ltb_spec i 0); lia).
  destruct (Z.ltb_spec j 0); [lia|].
  destruct (Z.leb_spec (Z.of_nat (length l)) j); [lia|]. cbn [orb].
  destruct (lookup_lt_is_Some_2 l (Z.to_nat j)) as [x Hx]; [lia|].
  rewrite Hx. exists x. split; [reflexivity|].
  apply list_elem_of_In. eapply list_elem_of_lookup_2, Hx.
Qed.

(** X21: what a returned sample tells. Whenever [__getitem__] returns a
    pair, the index lies between [-len] and [len - 1], the entry has six
    fields, an audio transform is set and succeeded on the wave file of the
    entry. In the mode [train_unsup] the pair is the audio sequence as
    transformed, without labels; in every other mode it carries the label
    sequence of the entry's label file and an audio sequence of the same
    length. *)
Theorem getitem_returned {label} (self : Aspire label) index audio labels :
  __getitem__ self index = Ok (audio, labels) →
  - Z.of_nat (__len__ self) <= index < Z.of_nat (__len__ self) ∧
  ∃ uttid wav_file samples phn_file num_phns txt_file f ts,
    list_index (entries self) index
    = Ok [uttid; wav_file; samples; phn_file; num_phns; txt_file] ∧
    transform self = Some f ∧ f wav_file = Ok ts ∧
    if String.eqb (mode self) "train_unsup"
    then labels = None ∧ audio = ts
    else ∃ tgt, labels = Some tgt ∧ label_sequence self phn_file = Ok tgt ∧
                length audio = targets_len tgt.
Proof.
  intros Hrun. unfold __getitem__ in Hrun.
  destruct (list_index (entries self) index) as [e|] eqn:Ee; [|discriminate Hrun].
  split; [exact (list_index_bounds _ _ _ Ee)|].
  cbn [mbind pyres_bind] in Hrun.
  destruct e as [|uttid [|wav_file [|samples [|phn_file [|num_phns
    [|txt_file [|? ?]]]]]]]; try discriminate Hrun.
  exists uttid, wav_file, samples, phn_file, num_phns, txt_file.
  destruct (transform self) as [f|].
  - exists f. destruct (f wav_file) as [ts|]; [|discriminate Hrun].
    exists ts. split; [reflexivity|]. split; [reflexivity|].
    split; [reflexivity|]. cbn [mbind pyres_bind local] in Hrun.
    destruct (String.eqb (mode self) "train_unsup").
    + injection Hrun as <- <-. split; reflexivity.
    + unfold label_sequence.
      destruct (loadtxt self phn_file) as [raw|]; [|discriminate Hrun].
      cbn [mbind pyres_bind] in Hrun |- *.
      assert (Hk : ∀ tgt : targets label,
        (let l0 := length ts in
         let l1 := targets_len tgt in
         if (l1 <? l0)%nat then Ok (take l1 ts, Some tgt)
         else if (l0 <? l1)%nat then
           z ← list_index ts 0;
           Ok ((ts ++ replicate (l1 - l0) (zeros_like z))%list, Some tgt)
         else Ok (ts, Some tgt)) = Ok (audio, labels) →
        labels = Some tgt ∧ length audio = targets_len tgt).
      { intros tgt. cbv zeta.
        destruct (Nat.ltb_spec (targets_len tgt) (length ts)).
        - intros [= <- <-]. split; [reflexivity|]. rewrite length_take. lia.
        - destruct (Nat.ltb_spec (length ts) (targets_len tgt)).
          + destruct (list_index ts 0); [|discriminate].
            cbn [mbind pyres_bind]. intros [= <- <-]. split; [reflexivity|].
            rewrite length_app, length_replicate. lia.
          + intros [= <- <-]. split; [reflexivity | lia]. }
      destruct (target_transform self) as [g|].
      * destruct (g raw) as [l|]; [|discriminate Hrun].
        cbn [mbind pyres_bind] in Hrun |- *.
        exists (Encoded l). destruct (Hk _ Hrun). auto.
      * cbn [mbind pyres_bind] in Hrun.
        exists (Plain raw). destruct (Hk _ Hrun). auto.
  - exfalso. cbn [mbind pyres_bind local] in Hrun.
    destruct (String.eqb (mode self) "train_unsup"); [discriminate Hrun|].
    destruct (loadtxt self phn_file); [|discriminate Hrun].
    cbn [mbind pyres_bind] in Hrun.
    destruct (target_transform self) as [g|].
    + destruct (g a); discriminate Hrun.
    + discriminate Hrun.
Qed.

Lemma getitem_returned_witness :
  - Z.of_nat (__len__ unsup_dataset) <= -1 < Z.of_nat (__len__ unsup_dataset) ∧
  ∃ uttid wav_file samples phn_file num_phns txt_file f ts,
    list_index (entries unsup_dataset) (-1)
    = Ok [uttid; wav_file; samples; phn_file; num_phns; txt_file] ∧
    transform unsup_dataset = Some f ∧ f wav_file = Ok ts ∧
    if String.eqb (mode unsup_dataset) "train_unsup"
    then @None (targets Z) = None ∧ example_audio_frames 4 = ts
    else ∃ tgt, None = Some tgt ∧ label_sequence unsup_dataset phn_file = Ok tgt ∧
                length (example_audio_frames 4) = targets_len tgt.
Proof.
  exact (getitem_returned unsup_dataset (-1) (example_audio_frames 4) None
           eq_refl).
Defined.

(** X22: how [__getitem__] fails. An index below [-len] or from [len] on
    raises [IndexError], and a negative index from [-len] on reads the entry
    [len] places further. An entry that has not exactly six fields raises
    [ValueError]. Without an audio transform no sample is ever returned; in
    the mode [train_unsup] the access to an entry of six fields then raises
    [NameError]. *)
Theorem getitem_errors {label} (self : Aspire label) index :
  (index < - Z.of_nat (__len__ self) ∨ Z.of_nat (__len__ self) <= index →
   __getitem__ self index = Raise IndexError) ∧
  (- Z.of_nat (__len__ self) <= index < 0 →
   __getitem__ self index = __getitem__ self (index + Z.of_nat (__len__ self))) ∧
  (∀ e, list_index (entries self) index = Ok e → length e ≠ 6%nat →
        __getitem__ self index = Raise ValueError) ∧
  (transform self = None → is_ok (__getitem__ self index) = false) ∧
  (∀ e, transform self = None → mode self = "train_unsup" →
        list_index (entries self) index = Ok e → length e = 6%nat →
        __getitem__ self index = Raise NameError).
Proof.
  unfold __len__. repeat split.
  - intros H. unfold __getitem__.
    rewrite list_index_out_of_range by exact H. reflexivity.
  - intros H. unfold __getitem__.
    rewrite (list_index_negative _ _ H). reflexivity.
  - intros e He Hlen. unfold __getitem__. rewrite He.
    cbn [mbind pyres_bind].
    destruct e as [|? [|? [|? [|? [|? [|? [|? ?]]]]]]]; try reflexivity.
    cbn [length] in Hlen. lia.
  - intros Htr.
    destruct (__getitem__ self index) as [[audio labels]|] eqn:E; [|reflexivity].
    exfalso. revert E. unfold __getitem__.
    destruct (list_index (entries self) index) as [e|]; [|discriminate].
    cbn [mbind pyres_bind].
    destruct e as [|? [|? [|? [|phn_file [|? [|? [|? ?]]]]]]]; try discriminate.
    rewrite Htr. cbn [mbind pyres_bind local].
    destruct (String.eqb (mode self) "train_unsup"); [discriminate|].
    destruct (loadtxt self phn_file) as [raw|]; [|discriminate].
    cbn [mbind pyres_bind].
    destruct (target_transform self) as [g|]; [|discriminate].
    destruct (g raw); discriminate.
  - intros e Htr Hmode He Hlen. unfold __getitem__. rewrite He.
    cbn [mbind pyres_bind].
    destruct e as [|? [|? [|? [|? [|? [|? [|? ?]]]]]]]; try discriminate Hlen.
    rewrite Htr, Hmode. reflexivity.
Qed.

Lemma getitem_errors_witness :
  __getitem__ unsup_dataset 2 = Raise IndexError ∧
  __getitem__ unsup_dataset (-2)
  = __getitem__ unsup_dataset (-2 + Z.of_nat (__len__ unsup_dataset)) ∧
  __getitem__ (bare_dataset "train") 1 = Raise ValueError ∧
  is_ok (__getitem__ (bare_dataset "train") 0) = false ∧
  __getitem__ (bare_dataset "train_unsup") 0 = Raise NameError.
Proof.
  split; [|split; [|split; [|split]]].
  - apply (proj1 (getitem_errors unsup_dataset 2)). right. cbn. lia.
  - apply (proj1 (proj2 (getitem_errors unsup_dataset (-2)))). cbn. lia.
  - apply (proj1 (proj2 (proj2 (getitem_errors (bare_dataset "train") 1)))
             ["fsh_0_00100_B"; "/data/001/fsh_0_00100_B.wav"]);
      [reflexivity | cbn; lia].
  - apply (proj1 (proj2 (proj2 (proj2 (getitem_errors (bare_dataset "train") 0))))).
    reflexivity.
  - apply (proj2 (proj2 (proj2 (proj2 (getitem_errors (bare_dataset "train_unsup") 0))))
             example_entry); reflexivity.
Defined.
